(** * Session and worker lifecycle of gastown: a shallow embedding

    The Go packages [internal/session] (polecat sessions), [internal/witness]
    (the witness state machine), [internal/util] (the process probe) and the
    crew commands of [internal/cmd] are embedded as programs over the calls
    they make to their collaborators (tmux, the operating system, the
    mailbox).  A program is run against an arbitrary environment; the run
    yields the returned value, the final environment and the calls made, in
    order. *)

From Stdlib Require Import String Ascii List ZArith Lia Bool.
Import ListNotations.
Local Open Scope string_scope.
Local Open Scope Z_scope.
Local Open Scope list_scope.

(** ** Go values *)

(** Go's [error] values.  The sentinels are the package-level variables
    created with [errors.New]; [Errorf pre e post] is [fmt.Errorf] with a
    single [%w] verb, whose text is [pre ++ e.Error() ++ post] and which wraps
    [e]; [ErrorString] is an error that only carries a text (one coming from a
    collaborator, or [fmt.Errorf] without [%w]);
    [ErrNotExist] is the error for which [os.IsNotExist] holds. *)
Inductive error : Type :=
| ErrSessionRunning
| ErrSessionNotFound
| ErrPolecatNotFound
| ErrNotRunning
| ErrAlreadyRunning
| ErrCrewNotFound
| ErrNotExist
| ErrorString (msg : string)
| Errorf (pre : string) (e : error) (post : string).

(** A Go [error] result: [None] is [nil]. *)
Definition result := option error.

Definition os_IsNotExist (e : result) : bool :=
  match e with
  | Some ErrNotExist => true
  | _ => false
  end.

Definition error_eqb_sentinel (e target : error) : bool :=
  match e, target with
  | ErrSessionRunning, ErrSessionRunning
  | ErrSessionNotFound, ErrSessionNotFound
  | ErrPolecatNotFound, ErrPolecatNotFound
  | ErrNotRunning, ErrNotRunning
  | ErrAlreadyRunning, ErrAlreadyRunning
  | ErrCrewNotFound, ErrCrewNotFound
  | ErrNotExist, ErrNotExist => true
  | _, _ => false
  end.

(** [errors.Is]: follows the chain of wrapped errors. *)
Fixpoint errors_Is (e target : error) : bool :=
  error_eqb_sentinel e target ||
  match e with
  | Errorf _ inner _ => errors_Is inner target
  | _ => false
  end.

(** [len(s)] of a Go string, as an [int]. *)
Definition len (s : string) : Z := Z.of_nat (String.length s).

(** [s[n:]]. *)
Fixpoint string_drop (n : nat) (s : string) : string :=
  match n, s with
  | O, _ => s
  | S n', String _ s' => string_drop n' s'
  | S _, EmptyString => EmptyString
  end.

(** [strings.HasPrefix(s, prefix)]. *)
Definition strings_HasPrefix (s pre : string) : bool := String.prefix pre s.

(** [strings.TrimPrefix(s, prefix)]. *)
Definition strings_TrimPrefix (s pre : string) : string :=
  if strings_HasPrefix s pre then string_drop (String.length pre) s else s.

(** [strings.Split(s, sep)] for a separator of one byte, the only kind the
    sources use: the pieces of [s] between the separators.  The result is
    never empty; [Split("", sep)] is one empty piece. *)
Fixpoint strings_Split (s : string) (sep : ascii) : list string :=
  match s with
  | EmptyString => [EmptyString]
  | String c rest =>
      if Ascii.eqb c sep then EmptyString :: strings_Split rest sep
      else
        match strings_Split rest sep with
        | piece :: pieces => String c piece :: pieces
        | [] => [String c EmptyString]
        end
  end.

(** [strings.Join(elems, sep)]. *)
Definition strings_Join (elems : list string) (sep : string) : string :=
  String.concat sep elems.

(** Whether the byte [c] occurs in [s]. *)
Fixpoint has_byte (c : ascii) (s : string) : bool :=
  match s with
  | EmptyString => false
  | String d rest => Ascii.eqb d c || has_byte c rest
  end.

(** [filepath.Clean] on Unix: repeated separators become one, [.] elements
    go, an inner [..] goes with the element before it, a [..] at the start of
    a rooted path goes; the empty result is [.]. *)
Fixpoint clean_elems (rooted : bool) (elems out : list string)
  : list string :=
  match elems with
  | [] => rev out
  | e :: rest =>
      if String.eqb e "" || String.eqb e "." then clean_elems rooted rest out
      else if String.eqb e ".." then
        match out with
        | top :: out' =>
            if String.eqb top ".." then clean_elems rooted rest (e :: out)
            else clean_elems rooted rest out'
        | [] =>
            if rooted then clean_elems rooted rest []
            else clean_elems rooted rest [e]
        end
      else clean_elems rooted rest (e :: out)
  end.

Definition filepath_Clean (path : string) : string :=
  let rooted := String.prefix "/" path in
  let body :=
    String.concat "/" (clean_elems rooted (strings_Split path "/") []) in
  if rooted then String "/" body
  else if String.eqb body "" then "." else body.

(** [filepath.Join]: the elements from the first non-empty one on, joined by
    the separator and cleaned; the empty string when there is none. *)
Fixpoint filepath_Join (elems : list string) : string :=
  match elems with
  | [] => ""
  | e :: rest =>
      if String.eqb e "" then filepath_Join rest
      else filepath_Clean (String.concat "/" elems)
  end.

(** [filepath.Dir]: the path up to and including its last separator,
    cleaned. *)
Fixpoint filepath_Dir_aux (s : string) : option string :=
  match s with
  | EmptyString => None
  | String c s' =>
      match filepath_Dir_aux s' with
      | Some d => Some (String c d)
      | None => if Ascii.eqb c "/" then Some (String c EmptyString) else None
      end
  end.

Definition filepath_Dir (s : string) : string :=
  match filepath_Dir_aux s with
  | Some d => filepath_Clean d
  | None => filepath_Clean ""
  end.

(** [filepath.Rel] on Unix, over the elements of the cleaned paths: the
    elements the two paths share at their start go, every element left of the
    base becomes [..], and the elements left of the target follow.  A rooted
    and an unrooted path have no relative path, nor has a base that differs
    from the target at a [..]. *)
Definition path_elems (path : string) : list string :=
  filter (fun e => negb (String.eqb e "")) (strings_Split path "/").

Fixpoint drop_common (b t : list string) : list string * list string :=
  match b, t with
  | x :: b', y :: t' => if String.eqb x y then drop_common b' t' else (b, t)
  | _, _ => (b, t)
  end.

Definition filepath_Rel (basepath targpath : string) : string * result :=
  let base := filepath_Clean basepath in
  let targ := filepath_Clean targpath in
  let cannot :=
    ErrorString ("Rel: can't make " ++ targpath ++ " relative to "
                 ++ basepath) in
  if String.eqb targ base then (".", None)
  else
    let base := if String.eqb base "." then "" else base in
    if negb (Bool.eqb (String.prefix "/" base) (String.prefix "/" targ))
    then ("", Some cannot)
    else
      let (b, t) := drop_common (path_elems base) (path_elems targ) in
      match b, t with
      | [], _ => (String.concat "/" t, None)
      | x :: _, _ :: _ =>
          if String.eqb x ".." then ("", Some cannot)
          else (String.concat "/" (map (fun _ => "..") b ++ t), None)
      | _ :: _, [] => (String.concat "/" (map (fun _ => "..") b), None)
      end.

(** The line feed of the format strings. *)
Definition nl : string := String (Ascii.ascii_of_nat 10) EmptyString.

(** 64-bit [int] arithmetic wraps around. *)
Definition int_wrap (z : Z) : Z := (z + 2 ^ 63) mod 2 ^ 64 - 2 ^ 63.

(** ** Data of the collaborating packages *)

(** [rig.Rig], as far as it is used here. *)
Record Rig : Type := mkRig {
  Name : string;
  Path : string;
  Polecats : list string
}.

(** Modelled from the spec: the states of the witness ([types.go] of package
    witness is not among the sources).  "States: Stopped (initial, terminal),
    Running.  No other states." *)
Inductive State : Type := StateStopped | StateRunning.

Definition State_eqb (a b : State) : bool :=
  match a, b with
  | StateStopped, StateStopped | StateRunning, StateRunning => true
  | _, _ => false
  end.

(** Modelled from the spec: the persisted witness document, "rigName, state,
    pid (0 when stopped), startedAt (nullable timestamp), monitoredIdentities
    (ordered list of names)".  A timestamp is a number. *)
Record Witness : Type := mkWitness {
  RigName : string;
  WState : State;
  PID : Z;
  StartedAt : option Z;
  MonitoredPolecats : list string
}.

(** What [os.ReadFile] followed by [json.Unmarshal] makes of the bytes of the
    state file: a witness record, or a decoding error. *)
Inductive document : Type :=
| DocWitness (w : Witness)
| DocMalformed (e : error).

(** [os.FileInfo], as far as it is used. *)
Record FileInfo : Type := mkFileInfo { IsDir : bool }.

(** [os.Signal] values passed to [Process.Signal]: [nil] is the probe. *)
Inductive signal : Type := SigNil | SigInterrupt.

(** [mail.Message]. *)
Record Message : Type := mkMessage {
  From : string; To : string;
  Subject : string;
  Body : string
}.

(** [crew.CrewWorker], as far as it is used. *)
Record CrewWorker : Type := mkCrewWorker {
  CrewName : string;
  ClonePath : string
}.

(** ** Calls to the collaborators *)

Inductive call : Type :=
(* tmux *)
| HasSession (key : string)
| NewSession (key workDir : string)
| KillSession (key : string)
| SendKeys (key text : string)
| SendKeysRaw (key keys : string)
| SendKeysDebounced (key text : string) (debounceMs : Z)
| SetEnvironment (key name value : string)
| AttachSession (key : string)
| CapturePane (key : string) (lines : Z)
| ListSessions
(* os, time, util *)
| Stat (path : string)
| MkdirAll (path : string) (perm : Z)
| ReadFile (path : string)
| AtomicWriteJSON (path : string) (w : Witness)
| FindProcess (pid : Z)
| Signal (pid : Z) (sig : signal)
| Getpid
| Now
| Sleep (ms : Z)
| Printf (text : string)
(* mail, crew *)
| MailAppend (mailDir : string) (msg : Message)
| CrewGet (rigName name : string).

(** The type of what each call returns. *)
Definition resp (c : call) : Type :=
  match c with
  | HasSession _ => bool * result
  | NewSession _ _ => result
  | KillSession _ => result
  | SendKeys _ _ => result
  | SendKeysRaw _ _ => result
  | SendKeysDebounced _ _ _ => result
  | SetEnvironment _ _ _ => result
  | AttachSession _ => result
  | CapturePane _ _ => string * result
  | ListSessions => list string * result
  | Stat _ => FileInfo * result
  | MkdirAll _ _ => result
  | ReadFile _ => document * result
  | AtomicWriteJSON _ _ => result
  | FindProcess _ => result
  | Signal _ _ => result
  | Getpid => Z
  | Now => Z
  | Sleep _ => unit
  | Printf _ => unit
  | MailAppend _ _ => result
  | CrewGet _ _ => CrewWorker * result
  end.

(** ** Programs *)

Inductive prog (A : Type) : Type :=
| Ret (a : A)
| Vis (c : call) (k : resp c -> prog A).

Arguments Ret {A} a.
Arguments Vis {A} c k.

Fixpoint bind {A B : Type} (p : prog A) (f : A -> prog B) : prog B :=
  match p with
  | Ret a => f a
  | Vis c k => Vis c (fun x => bind (k x) f)
  end.

Definition perform (c : call) : prog (resp c) := Vis c (fun x => Ret x).

Declare Scope prog_scope.
Delimit Scope prog_scope with prog.
Notation "x <- p ;; q" := (bind p (fun x => q))
  (at level 100, p at next level, right associativity) : prog_scope.
Notation "' pat <- p ;; q" := (bind p (fun x => match x with pat => q end))
  (at level 100, pat pattern, p at next level, right associativity)
  : prog_scope.
Notation "p ;;; q" := (bind p (fun _ => q))
  (at level 100, right associativity) : prog_scope.
Local Open Scope prog_scope.

(** Running a program in an environment of type [W] whose behaviour is [h]. *)
Section Run.
Context {W : Type}.
Variable h : forall c : call, W -> resp c * W.

Fixpoint run {A : Type} (p : prog A) (w : W) : A * W * list call :=
  match p with
  | Ret a => (a, w, [])
  | Vis c k =>
      let (x, w1) := h c w in
      let '(a, w2, tr) := run (k x) w1 in
      (a, w2, c :: tr)
  end.
End Run.

(** ** Package session: polecat sessions (internal/session/manager.go) *)

Module Session.

(** The manager holds the tmux capability, whose calls are those of [call],
    and the rig. *)
Record Manager : Type := mkManager { rig : Rig }.

Record StartOptions : Type := mkStartOptions {
  WorkDir : string;
  Issue : string;
  Command : string
}.

Record Info : Type := mkInfo {
  Polecat : string;
  SessionID : string;
  Running : bool;
  RigName : string
}.

Definition sessionName (m : Manager) (polecat : string) : string :=
  ("gt-" ++ Name (rig m) ++ "-" ++ polecat)%string.

Definition polecatDir (m : Manager) (polecat : string) : string :=
  filepath_Join [Path (rig m); "polecats"; polecat].

Definition hasPolecat (m : Manager) (polecat : string) : prog bool :=
  let polecatPath := polecatDir m polecat in
  '(info, err) <- perform (Stat polecatPath) ;;
  match err with
  | Some _ => Ret false
  | None => Ret (IsDir info)
  end.

(** The delay that [Inject] computes from [n = len(message)], on 64-bit
    [int]: division truncates, sums and products wrap around. *)
Definition debounceMs (n : Z) : Z :=
  let debounceMs := int_wrap (200 + int_wrap (Z.quot n 1024 * 100)) in
  if debounceMs >? 1500 then 1500 else debounceMs.

Definition Inject (m : Manager) (polecat message : string) : prog result :=
  let sessionID := sessionName m polecat in
  '(running, err) <- perform (HasSession sessionID) ;;
  match err with
  | Some e => Ret (Some (Errorf "checking session: " e ""))
  | None =>
      if negb running then Ret (Some ErrSessionNotFound)
      else perform (SendKeysDebounced sessionID message
                      (debounceMs (len message)))
  end.

Definition Start (m : Manager) (polecat : string) (opts : StartOptions)
  : prog result :=
  ok <- hasPolecat m polecat ;;
  if negb ok then Ret (Some (Errorf "" ErrPolecatNotFound (": " ++ polecat)))
  else
    let sessionID := sessionName m polecat in
    '(running, err) <- perform (HasSession sessionID) ;;
    match err with
    | Some e => Ret (Some (Errorf "checking session: " e ""))
    | None =>
        if running
        then Ret (Some (Errorf "" ErrSessionRunning (": " ++ sessionID)))
        else
          let workDir :=
            if String.eqb (WorkDir opts) "" then polecatDir m polecat
            else WorkDir opts in
          err <- perform (NewSession sessionID workDir) ;;
          match err with
          | Some e => Ret (Some (Errorf "creating session: " e ""))
          | None =>
              perform (SetEnvironment sessionID "GT_RIG" (Name (rig m))) ;;;
              perform (SetEnvironment sessionID "GT_POLECAT" polecat) ;;;
              let command :=
                if String.eqb (Command opts) ""
                then "claude --dangerously-skip-permissions"
                else Command opts in
              err <- perform (SendKeys sessionID command) ;;
              match err with
              | Some e => Ret (Some (Errorf "sending command: " e ""))
              | None =>
                  if negb (String.eqb (Issue opts) "")
                  then
                    perform (Sleep 500) ;;;
                    let prompt := ("Work on issue: " ++ Issue opts)%string in
                    Inject m polecat prompt ;;;
                    Ret None
                  else Ret None
              end
          end
    end.

Definition Stop (m : Manager) (polecat : string) (force : bool)
  : prog result :=
  let sessionID := sessionName m polecat in
  '(running, err) <- perform (HasSession sessionID) ;;
  match err with
  | Some e => Ret (Some (Errorf "checking session: " e ""))
  | None =>
      if negb running then Ret (Some ErrSessionNotFound)
      else
        (if negb force
         then perform (SendKeysRaw sessionID "C-c") ;;;
              perform (Sleep 100)
         else Ret tt) ;;;
        err <- perform (KillSession sessionID) ;;
        match err with
        | Some e => Ret (Some (Errorf "killing session: " e ""))
        | None => Ret None
        end
  end.

Definition IsRunning (m : Manager) (polecat : string)
  : prog (bool * result) :=
  let sessionID := sessionName m polecat in
  perform (HasSession sessionID).

(** The loop of [List] over the session keys. *)
Fixpoint List_loop (m : Manager) (prefix : string) (sessions : list string)
  : list Info :=
  match sessions with
  | [] => []
  | sessionID :: rest =>
      if negb (strings_HasPrefix sessionID prefix)
      then List_loop m prefix rest
      else
        let polecat := strings_TrimPrefix sessionID prefix in
        mkInfo polecat sessionID true (Name (rig m))
          :: List_loop m prefix rest
  end.

Definition List (m : Manager) : prog (list Info * result) :=
  '(sessions, err) <- perform ListSessions ;;
  match err with
  | Some e => Ret ([], Some e)
  | None =>
      let prefix := ("gt-" ++ Name (rig m) ++ "-")%string in
      Ret (List_loop m prefix sessions, None)
  end.

Definition Attach (m : Manager) (polecat : string) : prog result :=
  let sessionID := sessionName m polecat in
  '(running, err) <- perform (HasSession sessionID) ;;
  match err with
  | Some e => Ret (Some (Errorf "checking session: " e ""))
  | None =>
      if negb running then Ret (Some ErrSessionNotFound)
      else perform (AttachSession sessionID)
  end.

Definition Capture (m : Manager) (polecat : string) (lines : Z)
  : prog (string * result) :=
  let sessionID := sessionName m polecat in
  '(running, err) <- perform (HasSession sessionID) ;;
  match err with
  | Some e => Ret ("", Some (Errorf "checking session: " e ""))
  | None =>
      if negb running then Ret ("", Some ErrSessionNotFound)
      else perform (CapturePane sessionID lines)
  end.

(** The loop of [StopAll]: [lastErr] is the variable of that name. *)
Fixpoint StopAll_loop (m : Manager) (force : bool) (infos : list Info)
  (lastErr : result) : prog result :=
  match infos with
  | [] => Ret lastErr
  | info :: rest =>
      err <- Stop m (Polecat info) force ;;
      match err with
      | Some e => StopAll_loop m force rest (Some e)
      | None => StopAll_loop m force rest lastErr
      end
  end.

Definition StopAll (m : Manager) (force : bool) : prog result :=
  '(infos, err) <- List m ;;
  match err with
  | Some e => Ret (Some e)
  | None => StopAll_loop m force infos None
  end.

End Session.

(** ** Package util: the process probe *)

Module Util.

Definition ProcessExists (pid : Z) : prog bool :=
  err <- perform (FindProcess pid) ;;
  match err with
  | Some _ => Ret false
  | None =>
      err <- perform (Signal pid SigNil) ;;
      Ret (match err with None => true | Some _ => false end)
  end.

End Util.

(** ** Package witness: the witness state machine *)

Module WitnessMgr.

Record Manager : Type := mkManager {
  rig : Rig;
  workDir : string
}.

Definition NewManager (r : Rig) : Manager := mkManager r (Path r).

Definition stateFile (m : Manager) : string :=
  filepath_Join [Path (rig m); ".runtime"; "witness.json"].

(** [loadState] returns a witness or an error. *)
Definition loadState (m : Manager) : prog (Witness + error) :=
  '(data, err) <- perform (ReadFile (stateFile m)) ;;
  match err with
  | Some e =>
      if os_IsNotExist err
      then Ret (inl (mkWitness (Name (rig m)) StateStopped 0 None []))
      else Ret (inr e)
  | None =>
      match data with
      | DocMalformed e => Ret (inr e)
      | DocWitness w => Ret (inl w)
      end
  end.

Definition saveState (m : Manager) (w : Witness) : prog result :=
  let dir := filepath_Dir (stateFile m) in
  err <- perform (MkdirAll dir 493) ;;
  match err with
  | Some e => Ret (Some e)
  | None => perform (AtomicWriteJSON (stateFile m) w)
  end.

Definition Status (m : Manager) : prog (Witness + error) :=
  r <- loadState m ;;
  match r with
  | inr e => Ret (inr e)
  | inl w =>
      Ret (inl (mkWitness (RigName w) (WState w) (PID w) (StartedAt w)
                  (Polecats (rig m))))
  end.

Definition Start (m : Manager) : prog result :=
  r <- loadState m ;;
  match r with
  | inr e => Ret (Some e)
  | inl w =>
      alive <- (if State_eqb (WState w) StateRunning && (PID w >? 0)
                then Util.ProcessExists (PID w)
                else Ret false) ;;
      if alive then Ret (Some ErrAlreadyRunning)
      else
        now <- perform Now ;;
        pid <- perform Getpid ;;
        saveState m
          (mkWitness (RigName w) StateRunning pid (Some now)
             (Polecats (rig m)))
  end.

Definition Stop (m : Manager) : prog result :=
  r <- loadState m ;;
  match r with
  | inr e => Ret (Some e)
  | inl w =>
      if negb (State_eqb (WState w) StateRunning)
      then Ret (Some ErrNotRunning)
      else
        (if PID w >? 0
         then
           self <- perform Getpid ;;
           if negb (PID w =? self)
           then
             err <- perform (FindProcess (PID w)) ;;
             match err with
             | None => perform (Signal (PID w) SigInterrupt) ;;; Ret tt
             | Some _ => Ret tt
             end
           else Ret tt
         else Ret tt) ;;;
        saveState m
          (mkWitness (RigName w) StateStopped 0 (StartedAt w)
             (MonitoredPolecats w))
  end.

End WitnessMgr.

(** ** Package cmd: names and styling (internal/cmd/crew.go) *)

Module Crew.

(** [style.Bold.Render] and [style.Dim.Render]: terminal styling is left
    out of the text. *)
Definition style_Render (s : string) : string := s.

Definition crewSessionName (rigName crewName : string) : string :=
  ("gt-" ++ rigName ++ "-crew-" ++ crewName)%string.

End Crew.

(** ** An in-memory environment

    Modelled from the spec: the Registry, the state file and the mailbox
    (packages tmux, mail, crew and the operating system are not among the
    sources).  The Registry is the in-memory stand-in the spec
    asks for: [newSession] makes a key live, [killSession] ends it,
    [hasSession] and [listSessions] report the live keys, and the calls that
    drive a session need it to be live.  The processes are those of Go's [os]
    on Unix: [FindProcess] finds every pid, and [Process.Signal] takes a
    [syscall.Signal] only, so it refuses the nil signal for every process
    with [os: unsupported signal type]; an interrupt reaches the processes in
    [live].  [faults] injects the failure of any call; a failed call changes
    nothing. *)

Module Env.

Record World : Type := mkWorld {
  sessions : list string;
  environment : list (string * string * string);
  dirs : list string;
  files : list (string * document);
  live : list Z;
  self : Z;
  clock : Z;
  mailboxes : list (string * Message);
  rigs : list Rig;
  workers : list (string * CrewWorker);
  faults : call -> result
}.

Definition mem (k : string) (l : list string) : bool :=
  existsb (String.eqb k) l.

Definition remove (k : string) (l : list string) : list string :=
  filter (fun x => negb (String.eqb k x)) l.

Fixpoint lookup {A : Type} (k : string) (l : list (string * A)) : option A :=
  match l with
  | [] => None
  | (k', a) :: rest => if String.eqb k k' then Some a else lookup k rest
  end.

Definition set_sessions (w : World) (s : list string) : World :=
  mkWorld s (environment w) (dirs w) (files w) (live w) (self w) (clock w)
    (mailboxes w) (rigs w) (workers w) (faults w).

Definition set_environment (w : World) (e : list (string * string * string))
  : World :=
  mkWorld (sessions w) e (dirs w) (files w) (live w) (self w) (clock w)
    (mailboxes w) (rigs w) (workers w) (faults w).

Definition set_dirs (w : World) (d : list string) : World :=
  mkWorld (sessions w) (environment w) d (files w) (live w) (self w)
    (clock w) (mailboxes w) (rigs w) (workers w) (faults w).

Definition set_files (w : World) (f : list (string * document)) : World :=
  mkWorld (sessions w) (environment w) (dirs w) f (live w) (self w)
    (clock w) (mailboxes w) (rigs w) (workers w) (faults w).

Definition set_clock (w : World) (t : Z) : World :=
  mkWorld (sessions w) (environment w) (dirs w) (files w) (live w) (self w)
    t (mailboxes w) (rigs w) (workers w) (faults w).

Definition set_mailboxes (w : World) (m : list (string * Message)) : World :=
  mkWorld (sessions w) (environment w) (dirs w) (files w) (live w) (self w)
    (clock w) m (rigs w) (workers w) (faults w).

Definition no_session : error := ErrorString "can't find session".

(** A call on a live session that changes nothing. *)
Definition on_session (key : string) (w : World) : result * World :=
  if mem key (sessions w) then (None, w) else (Some no_session, w).

Definition nobody : Rig := mkRig "" "" [].

(** What a call does when no failure is injected. *)
Definition behave (c : call) (w : World) : resp c * World :=
  match c return resp c * World with
  | HasSession key => ((mem key (sessions w), None), w)
  | NewSession key _ =>
      if mem key (sessions w)
      then (Some (ErrorString "duplicate session"), w)
      else (None, set_sessions w (sessions w ++ [key]))
  | KillSession key =>
      if mem key (sessions w)
      then (None, set_sessions w (remove key (sessions w)))
      else (Some no_session, w)
  | SendKeys key _ => on_session key w
  | SendKeysRaw key _ => on_session key w
  | SendKeysDebounced key _ _ => on_session key w
  | SetEnvironment key name value =>
      if mem key (sessions w)
      then (None, set_environment w (environment w ++ [(key, name, value)]))
      else (Some no_session, w)
  | AttachSession key => on_session key w
  | CapturePane key _ =>
      if mem key (sessions w) then (("", None), w)
      else (("", Some no_session), w)
  | ListSessions => ((sessions w, None), w)
  | Stat path =>
      if mem path (dirs w) then ((mkFileInfo true, None), w)
      else
        match lookup path (files w) with
        | Some _ => ((mkFileInfo false, None), w)
        | None => ((mkFileInfo false, Some ErrNotExist), w)
        end
  | MkdirAll path _ =>
      if mem path (dirs w) then (None, w)
      else (None, set_dirs w (dirs w ++ [path]))
  | ReadFile path =>
      match lookup path (files w) with
      | Some d => ((d, None), w)
      | None => ((DocMalformed ErrNotExist, Some ErrNotExist), w)
      end
  | AtomicWriteJSON path wit =>
      (None, set_files w ((path, DocWitness wit) :: files w))
  | FindProcess _ => (None, w)
  | Signal pid sig =>
      match sig with
      | SigNil => (Some (ErrorString "os: unsupported signal type"), w)
      | SigInterrupt =>
          if existsb (Z.eqb pid) (live w) then (None, w)
          else (Some (ErrorString "os: process already finished"), w)
      end
  | Getpid => (self w, w)
  | Now => (clock w, w)
  | Sleep ms => (tt, set_clock w (clock w + ms))
  | Printf _ => (tt, w)
  | MailAppend mailDir msg =>
      (None, set_mailboxes w (mailboxes w ++ [(mailDir, msg)]))
  | CrewGet rigName name =>
      match lookup (rigName ++ "/" ++ name)%string (workers w) with
      | Some cw => ((cw, None), w)
      | None => ((mkCrewWorker "" "", Some ErrCrewNotFound), w)
      end
  end.

(** The answer of a call that fails with [e]. *)
Definition failure (c : call) (e : error) : option (resp c) :=
  match c return option (resp c) with
  | HasSession _ => Some (false, Some e)
  | NewSession _ _ => Some (Some e)
  | KillSession _ => Some (Some e)
  | SendKeys _ _ => Some (Some e)
  | SendKeysRaw _ _ => Some (Some e)
  | SendKeysDebounced _ _ _ => Some (Some e)
  | SetEnvironment _ _ _ => Some (Some e)
  | AttachSession _ => Some (Some e)
  | CapturePane _ _ => Some ("", Some e)
  | ListSessions => Some ([], Some e)
  | Stat _ => Some (mkFileInfo false, Some e)
  | MkdirAll _ _ => Some (Some e)
  | ReadFile _ => Some (DocMalformed e, Some e)
  | AtomicWriteJSON _ _ => Some (Some e)
  | FindProcess _ => Some (Some e)
  | Signal _ _ => Some (Some e)
  | Getpid => None
  | Now => None
  | Sleep _ => None
  | Printf _ => None
  | MailAppend _ _ => Some (Some e)
  | CrewGet _ _ => Some (mkCrewWorker "" "", Some e)
  end.

Definition handle (c : call) (w : World) : resp c * World :=
  match faults w c with
  | Some e =>
      match failure c e with
      | Some x => (x, w)
      | None => behave c w
      end
  | None => behave c w
  end.

Definition no_faults : call -> result := fun _ => None.

(** Calls that neither end a session nor write to the disk. *)
Definition calm (c : call) : bool :=
  match c with
  | KillSession _ | MkdirAll _ _ | AtomicWriteJSON _ _ => false
  | _ => true
  end.

Definition same_disk (e e' : World) : Prop :=
  dirs e' = dirs e /\ files e' = files e /\ faults e' = faults e.

Definition keeps_sessions (e e' : World) : Prop :=
  forall k, mem k (sessions e) = true -> mem k (sessions e') = true.

(** An empty world run by process [pid]. *)
Definition empty (pid : Z) : World :=
  mkWorld [] [] [] [] [pid] pid 0 [] [] [] no_faults.

End Env.

(** ** Package feed: bead identifiers (internal/tui/feed/events.go) *)

Module Feed.

(** The results are in the order of the Go signature: actor, rig, role; all
    three start out empty. *)
Definition parseBeadContext (beadID : string) : string * string * string :=
  if String.eqb beadID "" then ("", "", "")
  else if strings_HasPrefix beadID "gt-crew-" then
    let parts := strings_Split beadID "-" in
    if (4 <=? length parts)%nat
    then (strings_Join (skipn 2 parts) "/", nth 2 parts "", "crew")
    else ("", "", "")
  else if strings_HasPrefix beadID "gt-witness-" then
    let parts := strings_Split beadID "-" in
    if (3 <=? length parts)%nat
    then ("witness", nth 2 parts "", "witness")
    else ("", "", "")
  else if strings_HasPrefix beadID "gt-refinery-" then
    let parts := strings_Split beadID "-" in
    if (3 <=? length parts)%nat
    then ("refinery", nth 2 parts "", "refinery")
    else ("", "", "")
  else if String.eqb beadID "gt-mayor" then ("mayor", "", "mayor")
  else if String.eqb beadID "gt-deacon" then ("deacon", "", "deacon")
  else if strings_HasPrefix beadID "gt-polecat-" then
    let parts := strings_Split beadID "-" in
    if (3 <=? length parts)%nat
    then (strings_Join (skipn 2 parts) "-", nth 2 parts "", "polecat")
    else ("", "", "")
  else ("", "", "").

End Feed.

(** ** Package cmd: the crew commands and what they call

    [getCrewManager], [inferRigFromCwd], [runCrewAt], [runCrewRemove] and
    [runCrewRefresh] of internal/cmd/crew.go, over the calls of the polecat
    and witness code ([Base]) and those into the workspace, config, rig and
    crew packages and into [path/filepath]. *)

Module CrewCmd.

(** Modelled from its use in [getCrewManager]: [config.RigsConfig] (package
    config is not among the sources) holds the map [Rigs]; an entry stands for
    its text. *)
Record RigsConfig : Type := mkRigsConfig { Rigs : list (string * string) }.

Inductive ccall : Type :=
| Base (c : call)
| FindFromCwdOrError
| LoadRigsConfig (path : string)
| FilepathAbs (path : string)
| FilepathRel (basepath targpath : string)
| GetRig (townRoot : string) (cfg : RigsConfig) (rigName : string)
| CrewRemove (r : Rig) (name : string) (force : bool).

Definition cresp (c : ccall) : Type :=
  match c with
  | Base c0 => resp c0
  | FindFromCwdOrError => string * result
  | LoadRigsConfig _ => RigsConfig * result
  | FilepathAbs _ => string * result
  | FilepathRel _ _ => string * result
  | GetRig _ _ _ => Rig * result
  | CrewRemove _ _ _ => result
  end.

Inductive cprog (A : Type) : Type :=
| CRet (a : A)
| CVis (c : ccall) (k : cresp c -> cprog A).

Arguments CRet {A} a.
Arguments CVis {A} c k.

Fixpoint cbind {A B : Type} (p : cprog A) (f : A -> cprog B) : cprog B :=
  match p with
  | CRet a => f a
  | CVis c k => CVis c (fun x => cbind (k x) f)
  end.

Definition cperform (c : ccall) : cprog (cresp c) := CVis c (fun x => CRet x).

Declare Scope cprog_scope.
Delimit Scope cprog_scope with cprog.
Notation "x <- p ;; q" := (cbind p (fun x => q))
  (at level 100, p at next level, right associativity) : cprog_scope.
Notation "' pat <- p ;; q" := (cbind p (fun x => match x with pat => q end))
  (at level 100, pat pattern, p at next level, right associativity)
  : cprog_scope.
Notation "p ;;; q" := (cbind p (fun _ => q))
  (at level 100, right associativity) : cprog_scope.
Local Open Scope cprog_scope.

Fixpoint crun {W A : Type} (h : forall c : ccall, W -> cresp c * W)
  (p : cprog A) (w : W) : A * W * list ccall :=
  match p with
  | CRet a => (a, w, [])
  | CVis c k =>
      let (x, w1) := h c w in
      let '(a, w2, tr) := crun h (k x) w1 in
      (a, w2, c :: tr)
  end.

(** The command-line flags of the crew commands. *)
Record Flags : Type := mkFlags {
  crewRig : string;
  crewBranch : bool;
  crewJSON : bool;
  crewForce : bool;
  crewNoTmux : bool;
  crewMessage : string
}.

(** [filepath.SplitList] on Unix: the list separator is the colon, and the
    empty path gives the empty list. *)
Definition filepath_SplitList (path : string) : list string :=
  if String.eqb path "" then [] else strings_Split path ":".

(** The loop of [inferRigFromCwd] over the bytes of [rel]: the text before
    the first path separator, when there is one. *)
Fixpoint before_separator (rel : string) : option string :=
  match rel with
  | EmptyString => None
  | String c rest =>
      if Ascii.eqb c "/" then Some EmptyString
      else
        match before_separator rest with
        | Some p => Some (String c p)
        | None => None
        end
  end.

Definition cannot_infer : error :=
  ErrorString "could not infer rig from current directory".

Definition inferRigFromCwd (townRoot : string) : cprog (string * result) :=
  '(cwd, err) <- cperform (FilepathAbs ".") ;;
  match err with
  | Some e => CRet ("", Some e)
  | None =>
      '(rel, err) <- cperform (FilepathRel townRoot cwd) ;;
      match err with
      | Some _ => CRet ("", Some (ErrorString "not in workspace"))
      | None =>
          let parts := filepath_SplitList rel in
          if (length parts =? 0)%nat
          then
            match before_separator rel with
            | Some p => CRet (p, None)
            | None =>
                if negb (String.eqb rel "") && negb (String.eqb rel ".")
                then CRet (rel, None)
                else CRet ("", Some cannot_infer)
            end
          else CRet ("", Some cannot_infer)
      end
  end.

(** [getCrewManager] returns the crew manager of a rig and the rig, or an
    error; the manager is determined by the rig. *)
Definition getCrewManager (rigName : string) : cprog (Rig + error) :=
  '(townRoot, err) <- cperform FindFromCwdOrError ;;
  match err with
  | Some e => CRet (inr (Errorf "not in a Gas Town workspace: " e ""))
  | None =>
      let rigsConfigPath := filepath_Join [townRoot; "config"; "rigs.json"] in
      '(rigsConfig, err) <- cperform (LoadRigsConfig rigsConfigPath) ;;
      let rigsConfig :=
        match err with
        | Some _ => mkRigsConfig []
        | None => rigsConfig
        end in
      '(rigName, err) <- (if String.eqb rigName ""
                          then inferRigFromCwd townRoot
                          else CRet (rigName, None)) ;;
      match err with
      | Some e =>
          CRet (inr (Errorf "could not determine rig (use --rig flag): " e ""))
      | None =>
          '(r, err) <- cperform (GetRig townRoot rigsConfig rigName) ;;
          match err with
          | Some _ =>
              CRet (inr (ErrorString ("rig '" ++ rigName ++ "' not found")))
          | None => CRet (inl r)
          end
      end
  end.

Definition runCrewAt (flags : Flags) (name : string) : cprog result :=
  g <- getCrewManager (crewRig flags) ;;
  match g with
  | inr e => CRet (Some e)
  | inl r =>
      '(worker, err) <- cperform (Base (CrewGet (Name r) name)) ;;
      match err with
      | Some ErrCrewNotFound =>
          CRet (Some (ErrorString
                        ("crew workspace '" ++ name ++ "' not found")))
      | Some e => CRet (Some (Errorf "getting crew worker: " e ""))
      | None =>
          if crewNoTmux flags
          then cperform (Base (Printf (ClonePath worker ++ nl))) ;;;
               CRet None
          else
            let sessionID := Crew.crewSessionName (Name r) name in
            '(hasSession, err) <- cperform (Base (HasSession sessionID)) ;;
            match err with
            | Some e => CRet (Some (Errorf "checking session: " e ""))
            | None =>
                err <- (if negb hasSession
                        then
                          err <- cperform (Base (NewSession sessionID
                                                   (ClonePath worker))) ;;
                          match err with
                          | Some e =>
                              CRet (Some (Errorf "creating session: " e ""))
                          | None =>
                              cperform (Base (SetEnvironment sessionID
                                                "GT_RIG" (Name r))) ;;;
                              cperform (Base (SetEnvironment sessionID
                                                "GT_CREW" name)) ;;;
                              err <- cperform (Base (SendKeys sessionID
                                                       "claude")) ;;
                              match err with
                              | Some e =>
                                  CRet (Some (Errorf "starting claude: " e ""))
                              | None =>
                                  cperform (Base (Printf
                                    (Crew.style_Render "âœ“"
                                     ++ " Created session for "
                                     ++ Name r ++ "/" ++ name ++ nl))) ;;;
                                  CRet None
                              end
                          end
                        else CRet None) ;;
                match err with
                | Some e => CRet (Some e)
                | None => cperform (Base (AttachSession sessionID))
                end
            end
      end
  end.

(** [crew.ErrHasChanges] is declared in package crew, which is not among the
    sources: [hasChanges e] stands for [e == crew.ErrHasChanges]. *)
Definition runCrewRemove (hasChanges : error -> bool) (flags : Flags)
  (name : string) : cprog result :=
  g <- getCrewManager (crewRig flags) ;;
  match g with
  | inr e => CRet (Some e)
  | inl r =>
      let sessionID := Crew.crewSessionName (Name r) name in
      running <- (if negb (crewForce flags)
                  then
                    '(hasSession, _) <-
                      cperform (Base (HasSession sessionID)) ;;
                    CRet hasSession
                  else CRet false) ;;
      if running
      then CRet (Some (ErrorString
                         ("session '" ++ sessionID
                          ++ "' is running (use --force to kill and remove)")))
      else
        '(hasSession, _) <- cperform (Base (HasSession sessionID)) ;;
        err <- (if hasSession
                then
                  err <- cperform (Base (KillSession sessionID)) ;;
                  match err with
                  | Some e => CRet (Some (Errorf "killing session: " e ""))
                  | None =>
                      cperform (Base (Printf ("Killed session " ++ sessionID
                                              ++ nl))) ;;;
                      CRet None
                  end
                else CRet None) ;;
        match err with
        | Some e => CRet (Some e)
        | None =>
            err <- cperform (CrewRemove r name (crewForce flags)) ;;
            match err with
            | Some ErrCrewNotFound =>
                CRet (Some (ErrorString
                              ("crew workspace '" ++ name ++ "' not found")))
            | Some e =>
                if hasChanges e
                then CRet (Some (ErrorString
                       ("crew workspace has uncommitted changes"
                        ++ " (use --force to remove anyway)")))
                else CRet (Some (Errorf "removing crew workspace: " e ""))
            | None =>
                cperform (Base (Printf
                  (Crew.style_Render "âœ“" ++ " Removed crew workspace: "
                   ++ Name r ++ "/" ++ name ++ nl))) ;;;
                CRet None
            end
        end
  end.

Definition runCrewRefresh (flags : Flags) (name : string) : cprog result :=
  g <- getCrewManager (crewRig flags) ;;
  match g with
  | inr e => CRet (Some e)
  | inl r =>
      '(worker, err) <- cperform (Base (CrewGet (Name r) name)) ;;
      match err with
      | Some ErrCrewNotFound =>
          CRet (Some (ErrorString
                        ("crew workspace '" ++ name ++ "' not found")))
      | Some e => CRet (Some (Errorf "getting crew worker: " e ""))
      | None =>
          let sessionID := Crew.crewSessionName (Name r) name in
          '(hasSession, _) <- cperform (Base (HasSession sessionID)) ;;
          let handoffMsg :=
            if String.eqb (crewMessage flags) ""
            then ("Context refresh for " ++ name
                  ++ ". Check mail and beads for current work state.")%string
            else crewMessage flags in
          let mailDir := filepath_Join [ClonePath worker; "mail"] in
          '(_, err) <- cperform (Base (Stat mailDir)) ;;
          err <- (if os_IsNotExist err
                  then cperform (Base (MkdirAll mailDir 493))
                  else CRet None) ;;
          match err with
          | Some e => CRet (Some (Errorf "creating mail dir: " e ""))
          | None =>
              let msg :=
                mkMessage (Name r ++ "/" ++ name) (Name r ++ "/" ++ name)
                  "ðŸ¤ HANDOFF: Context Refresh" handoffMsg in
              err <- cperform (Base (MailAppend mailDir msg)) ;;
              match err with
              | Some e => CRet (Some (Errorf "sending handoff mail: " e ""))
              | None =>
                  cperform (Base (Printf ("Sent handoff mail to " ++ Name r
                                          ++ "/" ++ name ++ nl))) ;;;
                  err <- (if hasSession
                          then
                            err <- cperform (Base (KillSession sessionID)) ;;
                            match err with
                            | Some e =>
                                CRet (Some (Errorf "killing old session: "
                                              e ""))
                            | None =>
                                cperform (Base (Printf
                                  ("Killed old session " ++ sessionID
                                   ++ nl))) ;;;
                                CRet None
                            end
                          else CRet None) ;;
                  match err with
                  | Some e => CRet (Some e)
                  | None =>
                      err <- cperform (Base (NewSession sessionID
                                               (ClonePath worker))) ;;
                      match err with
                      | Some e => CRet (Some (Errorf "creating session: " e ""))
                      | None =>
                          cperform (Base (SetEnvironment sessionID "GT_RIG"
                                            (Name r))) ;;;
                          cperform (Base (SetEnvironment sessionID "GT_CREW"
                                            name)) ;;;
                          err <- cperform (Base (SendKeys sessionID
                                                   "claude")) ;;
                          match err with
                          | Some e =>
                              CRet (Some (Errorf "starting claude: " e ""))
                          | None =>
                              cperform (Base (Printf
                                (Crew.style_Render "âœ“"
                                 ++ " Refreshed crew workspace: "
                                 ++ Name r ++ "/" ++ name ++ nl))) ;;;
                              cperform (Base (Printf
                                ("Attach with: "
                                 ++ Crew.style_Render ("gt crew at " ++ name)
                                 ++ nl))) ;;;
                              CRet None
                          end
                      end
                  end
              end
          end
      end
  end.

End CrewCmd.

(** ** An in-memory town for the crew commands

    Modelled from the spec and the use in crew.go: the workspace root, the
    directory the command runs in (both absolute paths), the rigs and the
    crew workers of the in-memory environment.  [filepath.Abs] gives that
    directory, [filepath.Rel] is Go's.  [CrewRemove] takes the worker off the
    list; it finds no uncommitted changes. *)

Module Town.

Record World : Type := mkWorld {
  base : Env.World;
  townRoot : string;
  cwd : string
}.

Definition set_workers (e : Env.World) (ws : list (string * CrewWorker))
  : Env.World :=
  Env.mkWorld (Env.sessions e) (Env.environment e) (Env.dirs e) (Env.files e)
    (Env.live e) (Env.self e) (Env.clock e) (Env.mailboxes e) (Env.rigs e)
    ws (Env.faults e).

Definition handle (c : CrewCmd.ccall) (w : World) : CrewCmd.cresp c * World :=
  match c return CrewCmd.cresp c * World with
  | CrewCmd.Base c0 =>
      let (x, b) := Env.handle c0 (base w) in
      (x, mkWorld b (townRoot w) (cwd w))
  | CrewCmd.FindFromCwdOrError => ((townRoot w, None), w)
  | CrewCmd.LoadRigsConfig _ => ((CrewCmd.mkRigsConfig [], None), w)
  | CrewCmd.FilepathAbs _ => ((cwd w, None), w)
  | CrewCmd.FilepathRel b t => (filepath_Rel b t, w)
  | CrewCmd.GetRig _ _ rigName =>
      match find (fun r => String.eqb (Name r) rigName) (Env.rigs (base w)) with
      | Some r => ((r, None), w)
      | None => ((Env.nobody, Some (ErrorString "rig not found")), w)
      end
  | CrewCmd.CrewRemove r name _ =>
      match Env.lookup (Name r ++ "/" ++ name)%string
              (Env.workers (base w)) with
      | Some _ =>
          (None,
           mkWorld
             (set_workers (base w)
                (filter (fun kw => negb (String.eqb (fst kw)
                                           (Name r ++ "/" ++ name)))
                   (Env.workers (base w))))
             (townRoot w) (cwd w))
      | None => (Some ErrCrewNotFound, w)
      end
  end.

End Town.

(** ** Notions used by the statements, and concrete environments *)

Inductive Role : Type := RolePolecat | RoleCrew.

(** A worker identity that owns a session: role, rig and name. *)
Record WorkerIdentity : Type := mkIdentity {
  role : Role;
  rigName : string;
  name : string
}.

(** The session key of an identity, by the function of its role. *)
Definition sessionKey (i : WorkerIdentity) : string :=
  match role i with
  | RolePolecat =>
      Session.sessionName (Session.mkManager (mkRig (rigName i) "" [])) (name i)
  | RoleCrew => Crew.crewSessionName (rigName i) (name i)
  end.

(** The prefix that [List] computes. *)
Definition rigPrefix (m : Session.Manager) : string :=
  ("gt-" ++ Name (Session.rig m) ++ "-")%string.

(** The rig [x] with one live session, that of crew worker [a]. *)
Definition rig_x : Rig := mkRig "x" "/town/x" [].

Definition world_crew_a : Env.World :=
  Env.set_sessions (Env.empty 7) [Crew.crewSessionName "x" "a"].

(** The rig [gastown] with the polecat [joe], whose session is live. *)
Definition rig_gastown : Rig := mkRig "gastown" "/town/gastown" ["joe"].

Definition world_joe_live : Env.World :=
  Env.set_dirs
    (Env.set_sessions (Env.empty 7) ["gt-gastown-joe"])
    ["/town/gastown/polecats/joe"].

(** The environment after a sequence of calls. *)
Fixpoint exec {W : Type} (h : forall c : call, W -> resp c * W)
  (cs : list call) (w : W) : W :=
  match cs with
  | [] => w
  | c :: rest => exec h rest (snd (h c w))
  end.

(** The working directory and the command that [Start] settles on. *)
Definition workDirOf (m : Session.Manager) (polecat : string)
  (opts : Session.StartOptions) : string :=
  if String.eqb (Session.WorkDir opts) ""
  then Session.polecatDir m polecat else Session.WorkDir opts.

Definition commandOf (opts : Session.StartOptions) : string :=
  if String.eqb (Session.Command opts) ""
  then "claude --dangerously-skip-permissions" else Session.Command opts.

(** The calls of a polecat [Start] up to the launch command. *)
Definition launch (m : Session.Manager) (polecat : string)
  (opts : Session.StartOptions) : list call :=
  let key := Session.sessionName m polecat in
  [Stat (Session.polecatDir m polecat);
   HasSession key;
   NewSession key (workDirOf m polecat opts);
   SetEnvironment key "GT_RIG" (Name (Session.rig m));
   SetEnvironment key "GT_POLECAT" polecat;
   SendKeys key (commandOf opts)].

(** The rig [gastown] with the clone of [joe] and no session. *)
Definition world_joe_idle : Env.World :=
  Env.set_dirs (Env.empty 7) ["/town/gastown/polecats/joe"].

Definition no_opts : Session.StartOptions := Session.mkStartOptions "" "" "".

(** A world in which the debounced send to the session of [joe] fails. *)
Definition world_joe_deaf : Env.World :=
  Env.mkWorld [] [] ["/town/gastown/polecats/joe"] [] [7] 7 0 [] [] []
    (fun c =>
       match c with
       | SendKeysDebounced _ _ _ => Some (ErrorString "send-keys failed")
       | _ => None
       end).

Definition issue_opts : Session.StartOptions :=
  Session.mkStartOptions "" "gt-42" "".

(** The courtesy calls of [Stop]: none when forced. *)
Definition courtesy (key : string) (force : bool) : list call :=
  if force then [] else [SendKeysRaw key "C-c"; Sleep 100].

(** A world in which the session of [joe] ignores the interrupt keys. *)
Definition world_joe_stubborn : Env.World :=
  Env.mkWorld ["gt-gastown-joe"] [] ["/town/gastown/polecats/joe"] [] [7] 7 0
    [] [] []
    (fun c =>
       match c with
       | SendKeysRaw _ _ => Some (ErrorString "send-keys failed")
       | _ => None
       end).

(** The outcomes of [Stop] on each session in turn, the environment they
    leave and the calls they make. *)
Fixpoint stop_each {W : Type} (h : forall c : call, W -> resp c * W)
  (m : Session.Manager) (force : bool) (infos : list Session.Info) (w : W)
  : list result * W * list call :=
  match infos with
  | [] => ([], w, [])
  | info :: rest =>
      let '(r, w1, t1) :=
        run h (Session.Stop m (Session.Polecat info) force) w in
      let '(rs, w2, t2) := stop_each h m force rest w1 in
      (r :: rs, w2, t1 ++ t2)
  end.

(** The last error of a sequence of outcomes, [nil] when there is none. *)
Fixpoint last_error (rs : list result) : result :=
  match rs with
  | [] => None
  | r :: rest =>
      match last_error rest with
      | Some e => Some e
      | None => r
      end
  end.

Definition or_else (r acc : result) : result :=
  match r with
  | Some e => Some e
  | None => acc
  end.

(** Two worlds with the sessions of [a] and [b] on rig [x]: in the first no
    session can be killed, in the second only that of [b] cannot. *)
Definition kill_failed : error := ErrorString "kill-session failed".

Definition world_none_killable : Env.World :=
  Env.mkWorld ["gt-x-a"; "gt-x-b"] [] [] [] [7] 7 0 [] [] []
    (fun c =>
       match c with
       | KillSession _ => Some kill_failed
       | _ => None
       end).

Definition world_b_not_killable : Env.World :=
  Env.mkWorld ["gt-x-a"; "gt-x-b"] [] [] [] [7] 7 0 [] [] []
    (fun c =>
       match c with
       | KillSession key =>
           if String.eqb key "gt-x-b" then Some kill_failed else None
       | _ => None
       end).

(** The pid test in the guard of [Start]: [w.PID > 0] and then
    [util.ProcessExists(w.PID)]. *)
Definition pid_probe (pid : Z) : prog bool :=
  if pid >? 0 then Util.ProcessExists pid else Ret false.

(** An environment refuses the nil signal when [Process.Signal] returns an
    error for it whatever the process, as that of Go's [os] does. *)
Definition refuses_nil_signal {W : Type}
  (h : forall c : call, W -> resp c * W) : Prop :=
  forall (pid : Z) (v : W), fst (h (Signal pid SigNil) v) <> None.

(** Calls that write to the disk. *)
Definition persists (c : call) : bool :=
  match c with
  | MkdirAll _ _ | AtomicWriteJSON _ _ => true
  | _ => false
  end.

(** The record that [Start] persists. *)
Definition started (m : WitnessMgr.Manager) (w : Witness) (now pid : Z)
  : Witness :=
  mkWitness (RigName w) StateRunning pid (Some now)
    (Polecats (WitnessMgr.rig m)).

(** The record that [Stop] persists. *)
Definition stopped (w : Witness) : Witness :=
  mkWitness (RigName w) StateStopped 0 (StartedAt w) (MonitoredPolecats w).

(** The interrupt that [Stop] attempts before persisting. *)
Definition interrupt (pid : Z) : prog unit :=
  if pid >? 0
  then
    self <- perform Getpid ;;
    if negb (pid =? self)
    then
      err <- perform (FindProcess pid) ;;
      match err with
      | None => perform (Signal pid SigInterrupt) ;;; Ret tt
      | Some _ => Ret tt
      end
    else Ret tt
  else Ret tt.

(** What [saveState] does from the environment [v], after the calls [pre]:
    the directory is made, then the record replaces the file. *)
Definition persist_outcome {W : Type} (h : forall c : call, W -> resp c * W)
  (m : WitnessMgr.Manager) (rec : Witness) (v : W) (pre : list call)
  : result * W * list call :=
  let dir := filepath_Dir (WitnessMgr.stateFile m) in
  let file := WitnessMgr.stateFile m in
  let (e1, v1) := h (MkdirAll dir 493) v in
  match e1 with
  | Some e => (Some e, v1, pre ++ [MkdirAll dir 493])
  | None =>
      let (e2, v2) := h (AtomicWriteJSON file rec) v1 in
      (e2, v2, pre ++ [MkdirAll dir 493; AtomicWriteJSON file rec])
  end.

(** The rig [gastown] with a witness record that says running under pid 99;
    the calling process is 7.  In the first world 99 is gone, in the second
    it is live. *)
Definition witness_gastown : WitnessMgr.Manager :=
  WitnessMgr.NewManager rig_gastown.

Definition record_99 : Witness :=
  mkWitness "gastown" StateRunning 99 (Some 5) [].

Definition world_stale_witness : Env.World :=
  Env.set_clock
    (Env.set_files (Env.empty 7)
       [("/town/gastown/.runtime/witness.json", DocWitness record_99)])
    20.

Definition world_live_witness : Env.World :=
  Env.mkWorld [] [] []
    [("/town/gastown/.runtime/witness.json", DocWitness record_99)]
    [7; 99] 7 20 [] [] [] Env.no_faults.

(** A world whose witness record says stopped. *)
Definition world_stopped_witness : Env.World :=
  Env.set_files (Env.empty 7)
    [("/town/gastown/.runtime/witness.json",
      DocWitness (mkWitness "gastown" StateStopped 0 None []))].

(** The error in the answer of a call, [nil] for a call that returns
    none. *)
Definition answer_error (c : call) : resp c -> result :=
  match c return resp c -> result with
  | HasSession _ => snd
  | NewSession _ _ => fun e => e
  | KillSession _ => fun e => e
  | SendKeys _ _ => fun e => e
  | SendKeysRaw _ _ => fun e => e
  | SendKeysDebounced _ _ _ => fun e => e
  | SetEnvironment _ _ _ => fun e => e
  | AttachSession _ => fun e => e
  | CapturePane _ _ => snd
  | ListSessions => snd
  | Stat _ => snd
  | MkdirAll _ _ => fun e => e
  | ReadFile _ => snd
  | AtomicWriteJSON _ _ => fun e => e
  | FindProcess _ => fun e => e
  | Signal _ _ => fun e => e
  | Getpid => fun _ => None
  | Now => fun _ => None
  | Sleep _ => fun _ => None
  | Printf _ => fun _ => None
  | MailAppend _ _ => fun e => e
  | CrewGet _ _ => snd
  end.

Definition canswer_error (c : CrewCmd.ccall) : CrewCmd.cresp c -> result :=
  match c return CrewCmd.cresp c -> result with
  | CrewCmd.Base c0 => answer_error c0
  | CrewCmd.FindFromCwdOrError => snd
  | CrewCmd.LoadRigsConfig _ => snd
  | CrewCmd.FilepathAbs _ => snd
  | CrewCmd.FilepathRel _ _ => snd
  | CrewCmd.GetRig _ _ _ => snd
  | CrewCmd.CrewRemove _ _ _ => fun e => e
  end.

(** What a command does with the error of a call: it does not look at it, it
    returns it wrapped by [fmt.Errorf] behind a text, or it returns it as it
    is. *)
Inductive on_error : Type :=
| Ignored
| Wrapped (pre : string)
| Returned.

(** Calls made one after the other, each in the environment the one before
    left, up to the first whose error ends the command; without such an error
    all are made and the outcome is [nil]. *)
Fixpoint until_stop {W : Type}
  (h : forall c : CrewCmd.ccall, W -> CrewCmd.cresp c * W)
  (steps : list (CrewCmd.ccall * on_error)) (w : W)
  : result * W * list CrewCmd.ccall :=
  match steps with
  | [] => (None, w, [])
  | (c, o) :: rest =>
      let (x, w1) := h c w in
      let stop :=
        match o with
        | Ignored => None
        | Wrapped pre =>
            match canswer_error c x with
            | Some e => Some (Errorf pre e "")
            | None => None
            end
        | Returned => canswer_error c x
        end in
      match stop with
      | Some e => (Some e, w1, [c])
      | None =>
          let '(res, w2, tr) := until_stop h rest w1 in
          (res, w2, c :: tr)
      end
  end.

Definition based (steps : list (call * on_error))
  : list (CrewCmd.ccall * on_error) :=
  map (fun s => (CrewCmd.Base (fst s), snd s)) steps.

(** The handoff message of a refresh. *)
Definition handoff (flags : CrewCmd.Flags) (rigName name : string) : Message :=
  mkMessage (rigName ++ "/" ++ name) (rigName ++ "/" ++ name)
    "ðŸ¤ HANDOFF: Context Refresh"
    (if String.eqb (CrewCmd.crewMessage flags) ""
     then ("Context refresh for " ++ name
           ++ ". Check mail and beads for current work state.")%string
     else CrewCmd.crewMessage flags).

(** The calls of a refresh after the session check and the look at the mail
    directory, given whether a session was reported and whether the mail
    directory was missing, each with what its error does. *)
Definition refresh_steps (flags : CrewCmd.Flags) (r : Rig)
  (worker : CrewWorker) (name : string) (hasSession mailDirMissing : bool)
  : list (CrewCmd.ccall * on_error) :=
  let key := Crew.crewSessionName (Name r) name in
  let mailDir := filepath_Join [ClonePath worker; "mail"] in
  based
    ((if mailDirMissing
      then [(MkdirAll mailDir 493, Wrapped "creating mail dir: ")] else [])
     ++ [(MailAppend mailDir (handoff flags (Name r) name),
          Wrapped "sending handoff mail: ");
         (Printf ("Sent handoff mail to " ++ Name r ++ "/" ++ name ++ nl),
          Ignored)]
     ++ (if hasSession
         then [(KillSession key, Wrapped "killing old session: ");
               (Printf ("Killed old session " ++ key ++ nl), Ignored)]
         else [])
     ++ [(NewSession key (ClonePath worker), Wrapped "creating session: ");
         (SetEnvironment key "GT_RIG" (Name r), Ignored);
         (SetEnvironment key "GT_CREW" name, Ignored);
         (SendKeys key "claude", Wrapped "starting claude: ");
         (Printf (Crew.style_Render "âœ“" ++ " Refreshed crew workspace: "
                  ++ Name r ++ "/" ++ name ++ nl), Ignored);
         (Printf ("Attach with: " ++ Crew.style_Render ("gt crew at " ++ name)
                  ++ nl), Ignored)]).

(** All the calls of a refresh that runs to its end, after the crew manager
    is found. *)
Definition refresh_calls (flags : CrewCmd.Flags) (r : Rig)
  (worker : CrewWorker) (name : string) (hasSession mailDirMissing : bool)
  : list CrewCmd.ccall :=
  map CrewCmd.Base
    [CrewGet (Name r) name;
     HasSession (Crew.crewSessionName (Name r) name);
     Stat (filepath_Join [ClonePath worker; "mail"])]
  ++ map fst (refresh_steps flags r worker name hasSession mailDirMissing).

(** The rig [gastown] with the crew worker [max], whose session is live. *)
Definition worker_max : CrewWorker :=
  mkCrewWorker "max" "/town/gastown/crew/max".

Definition world_max_live : Env.World :=
  Env.mkWorld ["gt-gastown-crew-max"] []
    ["/town/gastown/crew/max"; "/town/gastown/crew/max/mail"] [] [7] 7 0 []
    [rig_gastown] [("gastown/max", worker_max)] Env.no_faults.

(** The calls of [runCrewAt] after its session check reported none, each
    with what its error does. *)
Definition at_steps (r : Rig) (worker : CrewWorker) (name : string)
  : list (CrewCmd.ccall * on_error) :=
  let key := Crew.crewSessionName (Name r) name in
  based
    [(NewSession key (ClonePath worker), Wrapped "creating session: ");
     (SetEnvironment key "GT_RIG" (Name r), Ignored);
     (SetEnvironment key "GT_CREW" name, Ignored);
     (SendKeys key "claude", Wrapped "starting claude: ");
     (Printf (Crew.style_Render "âœ“" ++ " Created session for "
              ++ Name r ++ "/" ++ name ++ nl), Ignored);
     (AttachSession key, Returned)].

(** The calls of [runCrewAt] after the crew manager is found, when no session
    exists yet. *)
Definition at_calls (r : Rig) (worker : CrewWorker) (name : string)
  : list CrewCmd.ccall :=
  let key := Crew.crewSessionName (Name r) name in
  map CrewCmd.Base
    [CrewGet (Name r) name;
     HasSession key;
     NewSession key (ClonePath worker);
     SetEnvironment key "GT_RIG" (Name r);
     SetEnvironment key "GT_CREW" name;
     SendKeys key "claude";
     Printf (Crew.style_Render "âœ“" ++ " Created session for "
             ++ Name r ++ "/" ++ name ++ nl);
     AttachSession key].

(** The calls of [runCrewRemove] after the crew manager is found, given the
    force flag and whether the check before the kill reported a session. *)
Definition remove_calls (r : Rig) (name : string) (force second : bool)
  : list CrewCmd.ccall :=
  let key := Crew.crewSessionName (Name r) name in
  (if force then [] else [CrewCmd.Base (HasSession key)])
  ++ [CrewCmd.Base (HasSession key)]
  ++ (if second
      then [CrewCmd.Base (KillSession key);
            CrewCmd.Base (Printf ("Killed session " ++ key ++ nl))]
      else [])
  ++ [CrewCmd.CrewRemove r name force;
      CrewCmd.Base (Printf (Crew.style_Render "âœ“"
                            ++ " Removed crew workspace: "
                            ++ Name r ++ "/" ++ name ++ nl))].

(** The part of [runCrewRemove] that follows its first check: the second
    check, the kill and the removal. *)
Definition remove_after_check (hasChanges : error -> bool) (r : Rig)
  (name : string) (force : bool) : CrewCmd.cprog result :=
  let sessionID := Crew.crewSessionName (Name r) name in
  CrewCmd.cbind (CrewCmd.cperform (CrewCmd.Base (HasSession sessionID)))
    (fun x =>
       let (hasSession, _) := x in
       CrewCmd.cbind
         (if hasSession
          then
            CrewCmd.cbind
              (CrewCmd.cperform (CrewCmd.Base (KillSession sessionID)))
              (fun err =>
                 match err with
                 | Some e =>
                     CrewCmd.CRet (Some (Errorf "killing session: " e ""))
                 | None =>
                     CrewCmd.cbind
                       (CrewCmd.cperform
                          (CrewCmd.Base
                             (Printf ("Killed session " ++ sessionID ++ nl))))
                       (fun _ => CrewCmd.CRet None)
                 end)
          else CrewCmd.CRet None)
         (fun err =>
            match err with
            | Some e => CrewCmd.CRet (Some e)
            | None =>
                CrewCmd.cbind
                  (CrewCmd.cperform (CrewCmd.CrewRemove r name force))
                  (fun err =>
                     match err with
                     | Some ErrCrewNotFound =>
                         CrewCmd.CRet
                           (Some (ErrorString
                                    ("crew workspace '" ++ name
                                     ++ "' not found")))
                     | Some e =>
                         if hasChanges e
                         then CrewCmd.CRet (Some (ErrorString
                                ("crew workspace has uncommitted changes"
                                 ++ " (use --force to remove anyway)")))
                         else CrewCmd.CRet
                                (Some (Errorf "removing crew workspace: " e ""))
                     | None =>
                         CrewCmd.cbind
                           (CrewCmd.cperform
                              (CrewCmd.Base
                                 (Printf
                                    (Crew.style_Render "âœ“"
                                     ++ " Removed crew workspace: "
                                     ++ Name r ++ "/" ++ name ++ nl))))
                           (fun _ => CrewCmd.CRet None)
                     end)
            end)).

(** ** Further notions and concrete environments *)

(** A world in which the launch command cannot be sent. *)
Definition world_joe_mute : Env.World :=
  Env.mkWorld [] [] ["/town/gastown/polecats/joe"] [] [7] 7 0 [] [] []
    (fun c =>
       match c with
       | SendKeys _ _ => Some (ErrorString "send-keys failed")
       | _ => None
       end).

(** The rig [x] with a polecat, a crew worker and a session of another
    rig. *)
Definition world_mixed : Env.World :=
  Env.set_sessions (Env.empty 7) ["gt-x-a"; "gt-y-b"; "gt-x-crew-c"].

(** A world whose witness record says running under pid 0. *)
Definition world_pid0_witness : Env.World :=
  Env.set_files (Env.empty 7)
    [("/town/gastown/.runtime/witness.json",
      DocWitness (mkWitness "gastown" StateRunning 0 None []))].

(** Calls into the path library, the workspace and the configuration: those
    that read where the command runs. *)
Definition locating (c : CrewCmd.ccall) : bool :=
  match c with
  | CrewCmd.FindFromCwdOrError | CrewCmd.LoadRigsConfig _
  | CrewCmd.FilepathAbs _ | CrewCmd.FilepathRel _ _ => true
  | _ => false
  end.

(** A town whose workspace root is [/town], with the command run inside the
    rig [gastown]. *)
Definition town_gastown : Town.World :=
  Town.mkWorld world_max_live "/town" "/town/gastown".

(** The same town when the crew worker [max] has no session and no mail
    directory yet. *)
Definition world_max_idle : Env.World :=
  Env.mkWorld [] [] ["/town/gastown/crew/max"] [] [7] 7 0 []
    [rig_gastown] [("gastown/max", worker_max)] Env.no_faults.

Definition town_idle : Town.World :=
  Town.mkWorld world_max_idle "/town" "/town/gastown".

(** The town in which the session of [max] is live and cannot be killed. *)
Definition town_unkillable : Town.World :=
  Town.mkWorld
    (Env.mkWorld ["gt-gastown-crew-max"] []
       ["/town/gastown/crew/max"; "/town/gastown/crew/max/mail"] [] [7] 7 0 []
       [rig_gastown] [("gastown/max", worker_max)]
       (fun c =>
          match c with
          | KillSession _ => Some kill_failed
          | _ => None
          end))
    "/town" "/town/gastown".

(** * Properties *)

(** ** Running programs *)

Lemma run_bind {W A B : Type} (h : forall c : call, W -> resp c * W)
  (p : prog A) (f : A -> prog B) (w : W) :
  run h (bind p f) w =
  let '(a, w1, t1) := run h p w in
  let '(b, w2, t2) := run h (f a) w1 in
  (b, w2, t1 ++ t2).
Proof.
  revert w; induction p as [a | c k IH]; intros w; simpl.
  - destruct (run h (f a) w) as [[b w2] t2]; reflexivity.
  - destruct (h c w) as [x w1].
    rewrite IH.
    destruct (run h (k x) w1) as [[a w2] t1].
    destruct (run h (f a) w2) as [[b w3] t2]; reflexivity.
Qed.

Lemma crun_bind {W A B : Type}
  (h : forall c : CrewCmd.ccall, W -> CrewCmd.cresp c * W)
  (p : CrewCmd.cprog A) (f : A -> CrewCmd.cprog B) (w : W) :
  CrewCmd.crun h (CrewCmd.cbind p f) w =
  let '(a, w1, t1) := CrewCmd.crun h p w in
  let '(b, w2, t2) := CrewCmd.crun h (f a) w1 in
  (b, w2, t1 ++ t2).
Proof.
  revert w; induction p as [a | c k IH]; intros w; simpl.
  - destruct (CrewCmd.crun h (f a) w) as [[b w2] t2]; reflexivity.
  - destruct (h c w) as [x w1].
    rewrite IH.
    destruct (CrewCmd.crun h (k x) w1) as [[a w2] t1].
    destruct (CrewCmd.crun h (f a) w2) as [[b w3] t2]; reflexivity.
Qed.

(** ** Strings and integers *)

Lemma prefix_append (p s : string) : String.prefix p (p ++ s)%string = true.
Proof.
  induction p as [| c p IH]; simpl.
  - destruct s; reflexivity.
  - destruct (Ascii.ascii_dec c c) as [_ | ne]; [exact IH | now elim ne].
Qed.

Lemma string_drop_append (p s : string) :
  string_drop (String.length p) (p ++ s)%string = s.
Proof. induction p as [| c p IH]; simpl; [reflexivity | exact IH]. Qed.

Lemma append_cancel_l (p a b : string) :
  (p ++ a)%string = (p ++ b)%string -> a = b.
Proof.
  induction p as [| c p IH]; simpl; intros H; [exact H |].
  injection H as H. exact (IH H).
Qed.

Lemma TrimPrefix_append (p s : string) :
  strings_TrimPrefix (p ++ s)%string p = s.
Proof.
  unfold strings_TrimPrefix, strings_HasPrefix.
  rewrite prefix_append. apply string_drop_append.
Qed.

Lemma append_assoc (a b c : string) :
  (a ++ (b ++ c))%string = ((a ++ b) ++ c)%string.
Proof. induction a as [| x a IH]; simpl; [reflexivity | now rewrite IH]. Qed.

Lemma int_wrap_small (z : Z) :
  - 2 ^ 63 <= z < 2 ^ 63 -> int_wrap z = z.
Proof.
  intros H. unfold int_wrap.
  rewrite Z.mod_small by lia. lia.
Qed.

(** ** Session keys and listing *)

Lemma sessionName_prefix (m : Session.Manager) (p : string) :
  Session.sessionName m p = (rigPrefix m ++ p)%string.
Proof.
  unfold Session.sessionName, rigPrefix.
  rewrite <- !append_assoc. reflexivity.
Qed.

Lemma sessionName_inj (m : Session.Manager) (a b : string) :
  Session.sessionName m a = Session.sessionName m b -> a = b.
Proof. rewrite !sessionName_prefix. apply append_cancel_l. Qed.

Lemma crewSessionName_inj (r a b : string) :
  Crew.crewSessionName r a = Crew.crewSessionName r b -> a = b.
Proof.
  unfold Crew.crewSessionName. intros H.
  apply append_cancel_l in H. apply append_cancel_l in H.
  apply (append_cancel_l "-crew-") in H. exact H.
Qed.

Lemma List_loop_complete (m : Session.Manager) (p : string)
  (sessions : list string) :
  In (Session.sessionName m p) sessions ->
  In (Session.mkInfo p (Session.sessionName m p) true (Name (Session.rig m)))
     (Session.List_loop m (rigPrefix m) sessions).
Proof.
  induction sessions as [| s rest IH]; cbn [In Session.List_loop]; [tauto |].
  intros [Heq | Hin].
  - subst s. rewrite sessionName_prefix.
    unfold strings_HasPrefix at 1. rewrite prefix_append. cbn [negb].
    rewrite TrimPrefix_append. left; reflexivity.
  - destruct (negb (strings_HasPrefix s (rigPrefix m)));
      [| right]; apply IH; exact Hin.
Qed.

Lemma HasPrefix_split (s p : string) :
  strings_HasPrefix s p = true ->
  s = (p ++ string_drop (String.length p) s)%string.
Proof.
  unfold strings_HasPrefix. revert s.
  induction p as [| c p IH]; intros s; simpl.
  - reflexivity.
  - destruct s as [| d s]; simpl; [intros H; discriminate H |].
    destruct (Ascii.ascii_dec c d) as [e | ne]; [| intros H; discriminate H].
    intros H. subst d. f_equal. apply IH. exact H.
Qed.

Lemma List_loop_sound (m : Session.Manager) (i : Session.Info)
  (sessions : list string) :
  In i (Session.List_loop m (rigPrefix m) sessions) ->
  In (Session.SessionID i) sessions /\
  Session.SessionID i = Session.sessionName m (Session.Polecat i) /\
  Session.Running i = true /\
  Session.RigName i = Name (Session.rig m).
Proof.
  induction sessions as [| s rest IH]; cbn [In Session.List_loop]; [tauto |].
  destruct (strings_HasPrefix s (rigPrefix m)) eqn:Hp; cbn [negb In].
  - intros [Heq | Hin].
    + subst i; cbn [Session.SessionID Session.Polecat Session.Running
                    Session.RigName].
      repeat split; [now left |].
      rewrite sessionName_prefix. unfold strings_TrimPrefix. rewrite Hp.
      apply HasPrefix_split. exact Hp.
    + destruct (IH Hin) as (H1 & H2). split; [now right | exact H2].
  - intros Hin. destruct (IH Hin) as (H1 & H2). split; [now right | exact H2].
Qed.

(** C1, as amended.  For one rig and one role the key determines the name
    (polecat keys are [gt-rig-name], crew keys [gt-rig-crew-name]); [List]
    answers with exactly the live keys that carry the prefix [gt-rig-], each
    reported as a polecat whose name is the key without that prefix, so that a
    polecat's live key is reported under the polecat's own name.  Roles are
    not told apart. *)
Theorem C1_keys_per_rig_and_role
  {W : Type} (h : forall c : call, W -> resp c * W)
  (m : Session.Manager) (a b : string) (sessions : list string) (w w1 : W)
  (Hlist : h ListSessions w = ((sessions, None), w1)) :
  (Session.sessionName m a = Session.sessionName m b -> a = b) /\
  (Crew.crewSessionName (Name (Session.rig m)) a
   = Crew.crewSessionName (Name (Session.rig m)) b -> a = b) /\
  run h (Session.List m) w
  = ((Session.List_loop m (rigPrefix m) sessions, None), w1, [ListSessions]) /\
  (In (Session.sessionName m a) sessions ->
   In (Session.mkInfo a (Session.sessionName m a) true (Name (Session.rig m)))
      (Session.List_loop m (rigPrefix m) sessions)) /\
  (forall i, In i (Session.List_loop m (rigPrefix m) sessions) ->
     In (Session.SessionID i) sessions /\
     Session.SessionID i = Session.sessionName m (Session.Polecat i) /\
     Session.Running i = true /\
     Session.RigName i = Name (Session.rig m)).
Proof.
  split; [apply sessionName_inj |].
  split; [apply crewSessionName_inj |].
  split.
  - unfold Session.List. simpl. rewrite Hlist. reflexivity.
  - split; [apply List_loop_complete | intros i; apply List_loop_sound].
Qed.

Lemma C1_keys_per_rig_and_role_witness :
  (Session.sessionName (Session.mkManager rig_x) "joe"
   = Session.sessionName (Session.mkManager rig_x) "joe" -> "joe" = "joe") /\
  In (Session.mkInfo "joe" "gt-x-joe" true "x")
     (Session.List_loop (Session.mkManager rig_x) "gt-x-"
        ["gt-x-joe"; "gt-y-max"]).
Proof.
  pose proof (C1_keys_per_rig_and_role Env.handle (Session.mkManager rig_x)
                "joe" "joe" ["gt-x-joe"; "gt-y-max"]
                (Env.set_sessions (Env.empty 7) ["gt-x-joe"; "gt-y-max"])
                _ eq_refl) as (H1 & _ & _ & H4 & _).
  split; [exact H1 |].
  apply H4. simpl. left. reflexivity.
Defined.

(** C1 as stated fails: on rig [x] the crew worker [a] and a polecat named
    [crew-a] are distinct identities with the same key [gt-x-crew-a], and
    [List] reports the crew worker's session as the polecat [crew-a]. *)
Lemma C1_crew_key_is_a_polecat_key :
  mkIdentity RoleCrew "x" "a" <> mkIdentity RolePolecat "x" "crew-a" /\
  sessionKey (mkIdentity RoleCrew "x" "a")
  = sessionKey (mkIdentity RolePolecat "x" "crew-a") /\
  sessionKey (mkIdentity RoleCrew "x" "a") = "gt-x-crew-a" /\
  fst (fst (run Env.handle (Session.List (Session.mkManager rig_x))
              world_crew_a))
  = ([Session.mkInfo "crew-a" "gt-x-crew-a" true "x"], None) /\
  ~ (forall i j : WorkerIdentity, i <> j -> sessionKey i <> sessionKey j).
Proof.
  assert (Hne : mkIdentity RoleCrew "x" "a"
                <> mkIdentity RolePolecat "x" "crew-a") by discriminate.
  repeat split; try reflexivity; try exact Hne.
  intros H. exact (H _ _ Hne eq_refl).
Qed.

(** ** The debounce delay of Inject *)

Lemma debounceMs_spec (n : Z) :
  0 <= n < 2 ^ 63 ->
  Session.debounceMs n = Z.min (200 + n / 1024 * 100) 1500.
Proof.
  intros Hn. unfold Session.debounceMs.
  rewrite Z.quot_div_nonneg by lia.
  assert (Hq : 0 <= n / 1024 < 2 ^ 53).
  { split; [apply Z.div_pos; lia |].
    apply Z.div_lt_upper_bound; [lia |].
    change (1024 * 2 ^ 53) with (2 ^ 63). lia. }
  assert (H53 : 2 ^ 53 * 100 + 200 < 2 ^ 63) by (vm_compute; reflexivity).
  rewrite (int_wrap_small (n / 1024 * 100)) by lia.
  rewrite int_wrap_small by lia.
  destruct (Z.gtb_spec (200 + n / 1024 * 100) 1500); lia.
Qed.

Lemma len_nonneg (s : string) : 0 <= len s.
Proof. unfold len. lia. Qed.

(** C2.  On a running session [Inject] sends the message with the delay
    [min (200 + floor (len message / 1024) * 100) 1500]; the delay does not
    decrease when the message gets longer, never exceeds 1500, and is 200,
    300, 1200 and 1500 at the lengths 0, 1024, 10240 and 100000. *)
Theorem C2_inject_debounce
  {W : Type} (h : forall c : call, W -> resp c * W)
  (m : Session.Manager) (polecat message longer : string) (w w1 : W)
  (Hint : len longer < 2 ^ 63)
  (Hle : len message <= len longer)
  (Hrunning : h (HasSession (Session.sessionName m polecat)) w
              = ((true, None), w1)) :
  let key := Session.sessionName m polecat in
  let delayMs := Z.min (200 + len message / 1024 * 100) 1500 in
  run h (Session.Inject m polecat message) w
  = (let (r, w2) := h (SendKeysDebounced key message delayMs) w1 in
     (r, w2, [HasSession key; SendKeysDebounced key message delayMs])) /\
  Session.debounceMs (len message) = delayMs /\
  Session.debounceMs (len message) <= Session.debounceMs (len longer) /\
  Session.debounceMs (len message) <= 1500 /\
  Session.debounceMs 0 = 200 /\
  Session.debounceMs 1024 = 300 /\
  Session.debounceMs 10240 = 1200 /\
  Session.debounceMs 100000 = 1500.
Proof.
  intros key delayMs.
  pose proof (len_nonneg message) as H0.
  assert (Hd : Session.debounceMs (len message) = delayMs)
    by (apply debounceMs_spec; lia).
  split.
  - unfold Session.Inject. fold key. simpl. unfold key at 1.
    rewrite Hrunning. simpl. fold key. rewrite Hd.
    destruct (h (SendKeysDebounced key message delayMs) w1) as [r w2].
    reflexivity.
  - split; [exact Hd |].
    split.
    + rewrite !debounceMs_spec by lia.
      assert (len message / 1024 <= len longer / 1024)
        by (apply Z.div_le_mono; lia).
      lia.
    + split; [rewrite Hd; unfold delayMs; lia |].
      repeat split; reflexivity.
Qed.

Lemma C2_inject_debounce_witness :
  run Env.handle (Session.Inject (Session.mkManager rig_gastown) "joe" "hello")
    world_joe_live
  = (None, world_joe_live,
     [HasSession "gt-gastown-joe";
      SendKeysDebounced "gt-gastown-joe" "hello" 200]).
Proof.
  refine (proj1 (C2_inject_debounce Env.handle (Session.mkManager rig_gastown)
                   "joe" "hello" "hello, world" world_joe_live world_joe_live
                   _ _ _)).
  - vm_compute. reflexivity.
  - vm_compute. discriminate.
  - reflexivity.
Defined.

(** ** Polecat sessions against an arbitrary environment *)

Arguments Session.sessionName : simpl never.
Arguments Session.polecatDir : simpl never.
Arguments Session.debounceMs : simpl never.
Arguments Session.Inject : simpl never.
Arguments String.append : simpl never.
Arguments String.eqb : simpl never.
Arguments len : simpl never.

Lemma In_firstn {A : Type} (x : A) (n : nat) (l : list A) :
  In x (firstn n l) -> In x l.
Proof.
  revert l; induction n as [| n IH]; intros [| y l]; simpl; try tauto.
  intros [H | H]; [now left | right; apply IH; exact H].
Qed.

(** One call of a run: name its answer and the environment it leaves. *)
Tactic Notation "step" hyp(H) "as" simple_intropattern(pat) "by" ident(E) :=
  match type of H with
  | context [let (_, _) := ?f ?c ?w in _] =>
      is_var f; destruct (f c w) as pat eqn:E; simpl in H
  end.

Ltac finish H := injection H as <- <- <-.

Section SessionRuns.
Context {W : Type}.
Variable h : forall c : call, W -> resp c * W.
Variable m : Session.Manager.

Lemma Inject_trace (polecat message : string) (w : W) :
  let key := Session.sessionName m polecat in
  let tr := snd (run h (Session.Inject m polecat message) w) in
  tr = [HasSession key] \/
  tr = [HasSession key;
        SendKeysDebounced key message (Session.debounceMs (len message))].
Proof.
  unfold Session.Inject, perform. simpl.
  destruct (h (HasSession _) w) as [[running [e |]] w1]; simpl;
    [now left |].
  destruct running; simpl; [| now left].
  destruct (h (SendKeysDebounced _ _ _) w1); simpl. now right.
Qed.

Opaque Session.Inject.

Lemma Start_runs (polecat : string) (opts : Session.StartOptions)
  (w w' : W) (r : result) (tr : list call) :
  run h (Session.Start m polecat opts) w = (r, w', tr) ->
  let key := Session.sessionName m polecat in
  let prompt := ("Work on issue: " ++ Session.Issue opts)%string in
  (r = None /\
   (exists info w1,
      h (Stat (Session.polecatDir m polecat)) w = ((info, None), w1) /\
      IsDir info = true /\
      exists w2, h (HasSession key) w1 = ((false, None), w2) /\
      exists w3,
        h (NewSession key (workDirOf m polecat opts)) w2 = (None, w3)) /\
   h (SendKeys key (commandOf opts))
     (exec h (firstn 5 (launch m polecat opts)) w)
   = (None, exec h (launch m polecat opts) w) /\
   if String.eqb (Session.Issue opts) ""
   then tr = launch m polecat opts /\ w' = exec h (launch m polecat opts) w
   else
     let w7 := exec h (launch m polecat opts ++ [Sleep 500]) w in
     tr = launch m polecat opts ++ Sleep 500
          :: snd (run h (Session.Inject m polecat prompt) w7) /\
     w' = snd (fst (run h (Session.Inject m polecat prompt) w7)))
  \/
  (r <> None /\ ~ In (Sleep 500) tr /\
   exists n, tr = firstn n (launch m polecat opts) /\
   ((n = 1%nat /\
     r = Some (Errorf "" ErrPolecatNotFound (": " ++ polecat))) \/
    (n = 2%nat /\
     (r = Some (Errorf "" ErrSessionRunning (": " ++ key)) \/
      exists e, r = Some (Errorf "checking session: " e ""))) \/
    (n = 3%nat /\ exists e, r = Some (Errorf "creating session: " e "")) \/
    (n = 6%nat /\ exists e, r = Some (Errorf "sending command: " e "")))).
Proof.
  intros H key prompt.
  unfold Session.Start, Session.hasPolecat, perform in H. simpl in H.
  fold (workDirOf m polecat opts) in H. fold (commandOf opts) in H.
  fold key in H. fold prompt in H.
  assert (Hnosleep :
            forall n, ~ In (Sleep 500) (firstn n (launch m polecat opts))).
  { intros n Hin. apply In_firstn in Hin. simpl in Hin.
    repeat (destruct Hin as [Hin | Hin]; [discriminate Hin |]). exact Hin. }
  step H as [[info [e |]] w0] by E.
  { finish H. right. split; [discriminate |]. split; [apply (Hnosleep 1%nat) |].
    exists 1%nat. split; [reflexivity |]. left. now split. }
  destruct (IsDir info) eqn:Hdir; simpl in H.
  2: { finish H. right. split; [discriminate |].
       split; [apply (Hnosleep 1%nat) |].
       exists 1%nat. split; [reflexivity |]. left. now split. }
  step H as [[running [e |]] w1] by E0.
  { finish H. right. split; [discriminate |].
    split; [apply (Hnosleep 2%nat) |].
    exists 2%nat. split; [reflexivity |]. right; left. split; [reflexivity |].
    right. now exists e. }
  destruct running; simpl in H.
  { finish H. right. split; [discriminate |].
    split; [apply (Hnosleep 2%nat) |].
    exists 2%nat. split; [reflexivity |]. right; left. split; [reflexivity |].
    now left. }
  step H as [[e |] w2] by E1.
  { finish H. right. split; [discriminate |].
    split; [apply (Hnosleep 3%nat) |].
    exists 3%nat. split; [reflexivity |]. right; right; left.
    split; [reflexivity |]. now exists e. }
  step H as [r3 w3] by E2. step H as [r4 w4] by E3.
  step H as [r5 w5] by E4.
  assert (Hw5 : exec h (firstn 5 (launch m polecat opts)) w = w4).
  { simpl. fold key. rewrite E; simpl. rewrite E0; simpl. rewrite E1; simpl.
    rewrite E2; simpl. rewrite E3; reflexivity. }
  assert (Hw6 : exec h (launch m polecat opts) w = w5).
  { change (launch m polecat opts)
      with (firstn 5 (launch m polecat opts)
            ++ [SendKeys key (commandOf opts)]).
    generalize (firstn 5 (launch m polecat opts)) Hw5. intros l Hl.
    revert Hl. generalize w. induction l as [| c l IH]; simpl; intros v Hv.
    - subst v. rewrite E4. reflexivity.
    - apply IH. exact Hv. }
  destruct r5 as [e |]; simpl in H.
  { finish H. right. split; [discriminate |].
    split; [apply (Hnosleep 6%nat) |].
    exists 6%nat. split; [reflexivity |]. right; right; right.
    split; [reflexivity |]. now exists e. }
  left.
  assert (Hsend : h (SendKeys key (commandOf opts))
                    (exec h (firstn 5 (launch m polecat opts)) w)
                  = (None, exec h (launch m polecat opts) w)).
  { rewrite Hw5, Hw6. exact E4. }
  destruct (String.eqb (Session.Issue opts) "") eqn:Hissue; simpl in H.
  - finish H. split; [reflexivity |]. split.
    { exists info, w0. split; [reflexivity |]. split; [assumption |].
      exists w1. split; [assumption |]. exists w2. assumption. }
    split; [exact Hsend |]. split; [reflexivity | symmetry; exact Hw6].
  - step H as [u w6] by E5.
    assert (Hw7 : exec h (launch m polecat opts ++ [Sleep 500]) w = w6).
    { generalize (launch m polecat opts) Hw6. intros l. generalize w.
      induction l as [| c l IH]; simpl; intros v Hv.
      - subst v. rewrite E5. reflexivity.
      - apply IH. exact Hv. }
    rewrite run_bind in H. cbv zeta. rewrite Hw7.
    destruct (run h (Session.Inject m polecat prompt) w6) as [[ri wi] ti].
    simpl in H. rewrite app_nil_r in H. finish H.
    split; [reflexivity |]. split.
    { exists info, w0. split; [reflexivity |]. split; [assumption |].
      exists w1. split; [assumption |]. exists w2. assumption. }
    split; [exact Hsend |]. split; reflexivity.
Qed.

Transparent Session.Inject.

End SessionRuns.

(** The environment a run ends in is the one its calls lead to. *)
Lemma run_exec {W A : Type} (h : forall c : call, W -> resp c * W)
  (p : prog A) (w : W) :
  snd (fst (run h p w)) = exec h (snd (run h p w)) w.
Proof.
  revert w; induction p as [a | c k IH]; intros w; simpl; [reflexivity |].
  destruct (h c w) as [x w1] eqn:E; simpl.
  specialize (IH x w1).
  destruct (run h (k x) w1) as [[a w2] tr]; simpl in *.
  rewrite E. exact IH.
Qed.

Lemma exec_app {W : Type} (h : forall c : call, W -> resp c * W)
  (l1 l2 : list call) (w : W) :
  exec h (l1 ++ l2) w = exec h l2 (exec h l1 w).
Proof. revert w; induction l1 as [| c l IH]; intros w; simpl; auto. Qed.

(** ** Facts about the in-memory environment *)

Module EnvFacts.
Import Env.

Lemma mem_app_l (k : string) (l l' : list string) :
  mem k l = true -> mem k (l ++ l') = true.
Proof. unfold mem. rewrite existsb_app. intros ->. reflexivity. Qed.

Lemma mem_last (k : string) (l : list string) : mem k (l ++ [k]) = true.
Proof.
  unfold mem. rewrite existsb_app. simpl.
  rewrite String.eqb_refl. apply orb_true_iff. right. reflexivity.
Qed.

Lemma handle_calm (c : call) (e : World) :
  calm c = true ->
  same_disk e (snd (handle c e)) /\ keeps_sessions e (snd (handle c e)).
Proof.
  intros Hc. unfold handle.
  destruct (faults e c) as [err |].
  - destruct c; try discriminate Hc; simpl;
      (split; [repeat split | intros k Hk; exact Hk]).
  - destruct c; try discriminate Hc; simpl; unfold on_session;
      repeat match goal with
             | |- context [if ?b then _ else _] => destruct b
             | |- context [match ?x with Some _ => _ | None => _ end] =>
                 destruct x
             end; simpl;
      (split; [repeat split |
               intros k Hk; simpl; try exact Hk; apply mem_app_l; exact Hk]).
Qed.

Lemma exec_calm (cs : list call) (e : World) :
  Forall (fun c => calm c = true) cs ->
  same_disk e (exec handle cs e) /\ keeps_sessions e (exec handle cs e).
Proof.
  intros H. revert e. induction H as [| c cs Hc _ IH]; intros e; simpl.
  - split; [repeat split | intros k Hk; exact Hk].
  - destruct (handle_calm c e Hc) as [(D1 & D2 & D3) K1].
    destruct (IH (snd (handle c e))) as [(D4 & D5 & D6) K2].
    split.
    + repeat split; congruence.
    + intros k Hk. apply K2, K1, Hk.
Qed.

Lemma HasSession_answer (k : string) (b : bool) (e e' : World) :
  handle (HasSession k) e = ((b, None), e') ->
  faults e (HasSession k) = None /\ b = mem k (sessions e) /\ e' = e.
Proof.
  unfold handle. destruct (faults e (HasSession k)) as [err |]; simpl.
  - intros H; discriminate H.
  - intros H; injection H as <- <-. repeat split.
Qed.

Lemma NewSession_ok (k d : string) (e e' : World) :
  handle (NewSession k d) e = (None, e') -> mem k (sessions e') = true.
Proof.
  unfold handle. destruct (faults e (NewSession k d)) as [err |]; simpl.
  - intros H; discriminate H.
  - destruct (mem k (sessions e)); intros H; [discriminate H |].
    injection H as <-. simpl. apply mem_last.
Qed.

Lemma Stat_same_disk (d : string) (e e' : World) :
  same_disk e e' ->
  handle (Stat d) e' = (fst (handle (Stat d) e), e').
Proof.
  intros (D1 & D2 & D3). unfold handle. rewrite D3.
  destruct (faults e (Stat d)) as [err |]; simpl; [reflexivity |].
  rewrite D1, D2.
  destruct (mem d (dirs e)); [reflexivity |].
  destruct (lookup d (files e)); reflexivity.
Qed.

End EnvFacts.

(** ** Start of a polecat session *)

Lemma Start_no_polecat {W : Type} (h : forall c : call, W -> resp c * W)
  (m : Session.Manager) (polecat : string) (opts : Session.StartOptions)
  (w w1 : W) (info : FileInfo) (err : result) :
  h (Stat (Session.polecatDir m polecat)) w = ((info, err), w1) ->
  err <> None \/ IsDir info = false ->
  run h (Session.Start m polecat opts) w
  = (Some (Errorf "" ErrPolecatNotFound (": " ++ polecat)), w1,
     [Stat (Session.polecatDir m polecat)]).
Proof.
  intros E Habsent.
  unfold Session.Start, Session.hasPolecat, perform. simpl. rewrite E.
  destruct err as [e |]; simpl; [reflexivity |].
  destruct Habsent as [Hn | Hd]; [now elim Hn |].
  rewrite Hd. reflexivity.
Qed.

Lemma Start_session_running {W : Type} (h : forall c : call, W -> resp c * W)
  (m : Session.Manager) (polecat : string) (opts : Session.StartOptions)
  (w w1 w2 : W) (info : FileInfo) :
  h (Stat (Session.polecatDir m polecat)) w = ((info, None), w1) ->
  IsDir info = true ->
  h (HasSession (Session.sessionName m polecat)) w1 = ((true, None), w2) ->
  run h (Session.Start m polecat opts) w
  = (Some (Errorf "" ErrSessionRunning
             (": " ++ Session.sessionName m polecat)), w2,
     [Stat (Session.polecatDir m polecat);
      HasSession (Session.sessionName m polecat)]).
Proof.
  intros E Hd E0.
  unfold Session.Start, Session.hasPolecat, perform. simpl. rewrite E.
  simpl. rewrite Hd. simpl. rewrite E0. reflexivity.
Qed.

Lemma Start_twice (m : Session.Manager) (polecat : string)
  (opts opts2 : Session.StartOptions) (e e1 : Env.World) (tr : list call) :
  run Env.handle (Session.Start m polecat opts) e = (None, e1, tr) ->
  fst (fst (run Env.handle (Session.Start m polecat opts2) e1))
  = Some (Errorf "" ErrSessionRunning
            (": " ++ Session.sessionName m polecat)).
Proof.
  intros Hrun.
  pose proof (run_exec Env.handle (Session.Start m polecat opts) e) as Hex.
  rewrite Hrun in Hex. simpl in Hex.
  destruct (Start_runs Env.handle m polecat opts e e1 None tr Hrun)
    as [(_ & Hpre & _ & Htr) | (Hn & _)]; [| now elim Hn].
  destruct Hpre as (info & w1 & E & Hdir & w2 & E0 & w3 & E1).
  set (key := Session.sessionName m polecat) in *.
  set (follow := skipn 3 tr).
  assert (Hsplit : tr = firstn 3 (launch m polecat opts) ++ follow
                   /\ Forall (fun c => Env.calm c = true) tr).
  { destruct (String.eqb (Session.Issue opts) "").
    - destruct Htr as [-> _]. split; [reflexivity |].
      repeat constructor.
    - destruct Htr as [Htr _]. cbv zeta in Htr.
      pose proof (Inject_trace Env.handle m polecat
                    ("Work on issue: " ++ Session.Issue opts)
                    (exec Env.handle (launch m polecat opts ++ [Sleep 500]) e))
        as Hinj.
      cbv zeta in Hinj.
      split.
      + unfold follow. rewrite Htr. reflexivity.
      + rewrite Htr. apply Forall_app. split; [repeat constructor |].
        constructor; [reflexivity |].
        destruct Hinj as [-> | ->]; repeat constructor. }
  destruct Hsplit as [Hsplit Hcalm].
  assert (Hw3 : exec Env.handle (firstn 3 (launch m polecat opts)) e = w3).
  { simpl. fold key. rewrite E; simpl. rewrite E0; simpl. rewrite E1.
    reflexivity. }
  assert (Hcalm' : Forall (fun c => Env.calm c = true) follow).
  { rewrite Hsplit in Hcalm. apply Forall_app in Hcalm. apply Hcalm. }
  assert (He1 : e1 = exec Env.handle follow w3).
  { rewrite Hex, Hsplit, exec_app, Hw3. reflexivity. }
  destruct (EnvFacts.exec_calm tr e Hcalm) as [Hdisk _].
  rewrite <- Hex in Hdisk.
  destruct (EnvFacts.exec_calm follow w3 Hcalm') as [_ Hkeep].
  rewrite <- He1 in Hkeep.
  pose proof (EnvFacts.NewSession_ok _ _ _ _ E1) as Hlive.
  apply Hkeep in Hlive.
  pose proof (EnvFacts.Stat_same_disk (Session.polecatDir m polecat) e e1
                Hdisk) as Hstat.
  rewrite E in Hstat. simpl in Hstat.
  destruct (EnvFacts.HasSession_answer _ _ _ _ E0) as (Hf & _ & _).
  assert (Hw1 : Env.faults w1 = Env.faults e).
  { destruct (EnvFacts.handle_calm (Stat (Session.polecatDir m polecat)) e
                eq_refl) as [(_ & _ & D) _].
    rewrite E in D. exact D. }
  assert (Hhas : Env.handle (HasSession key) e1 = ((true, None), e1)).
  { unfold Env.handle. destruct Hdisk as (_ & _ & D). rewrite D, <- Hw1, Hf.
    simpl. fold key in Hlive. rewrite Hlive. reflexivity. }
  rewrite (Start_session_running Env.handle m polecat opts2 e1 e1 e1 info
             Hstat Hdir Hhas).
  reflexivity.
Qed.

(** C5.  [Start] fails with [ErrPolecatNotFound] when the clone directory of
    the polecat is absent ([os.Stat] fails or finds no directory); with the
    directory present it fails with [ErrSessionRunning] when the Registry
    reports a live session at the key of the polecat; and in the in-memory
    Registry a [Start] that follows a successful [Start] of the same polecat,
    with no [Stop] between them, fails with [ErrSessionRunning]. *)
Theorem C5_start_preconditions
  {W : Type} (h : forall c : call, W -> resp c * W)
  (m : Session.Manager) (polecat : string) (opts opts2 : Session.StartOptions)
  (w : W) (e e1 : Env.World) (tr : list call) :
  let dir := Session.polecatDir m polecat in
  let key := Session.sessionName m polecat in
  (forall info err w1,
     h (Stat dir) w = ((info, err), w1) ->
     err <> None \/ IsDir info = false ->
     run h (Session.Start m polecat opts) w
     = (Some (Errorf "" ErrPolecatNotFound (": " ++ polecat)), w1, [Stat dir])
     /\ errors_Is (Errorf "" ErrPolecatNotFound (": " ++ polecat))
          ErrPolecatNotFound = true) /\
  (forall info w1 w2,
     h (Stat dir) w = ((info, None), w1) ->
     IsDir info = true ->
     h (HasSession key) w1 = ((true, None), w2) ->
     run h (Session.Start m polecat opts) w
     = (Some (Errorf "" ErrSessionRunning (": " ++ key)), w2,
        [Stat dir; HasSession key])
     /\ errors_Is (Errorf "" ErrSessionRunning (": " ++ key))
          ErrSessionRunning = true) /\
  (run Env.handle (Session.Start m polecat opts) e = (None, e1, tr) ->
   fst (fst (run Env.handle (Session.Start m polecat opts2) e1))
   = Some (Errorf "" ErrSessionRunning (": " ++ key))).
Proof.
  intros dir key. split; [| split].
  - intros info err w1 E Habsent. split; [| reflexivity].
    exact (Start_no_polecat h m polecat opts w w1 info err E Habsent).
  - intros info w1 w2 E Hd E0. split; [| reflexivity].
    exact (Start_session_running h m polecat opts w w1 w2 info E Hd E0).
  - apply Start_twice.
Qed.

Lemma C5_start_preconditions_witness :
  run Env.handle (Session.Start (Session.mkManager rig_gastown) "max" no_opts)
    world_joe_idle
  = (Some (Errorf "" ErrPolecatNotFound ": max"), world_joe_idle,
     [Stat "/town/gastown/polecats/max"]) /\
  run Env.handle (Session.Start (Session.mkManager rig_gastown) "joe" no_opts)
    world_joe_live
  = (Some (Errorf "" ErrSessionRunning ": gt-gastown-joe"), world_joe_live,
     [Stat "/town/gastown/polecats/joe"; HasSession "gt-gastown-joe"]) /\
  fst (fst (run Env.handle
              (Session.Start (Session.mkManager rig_gastown) "joe" no_opts)
              (snd (fst (run Env.handle
                           (Session.Start (Session.mkManager rig_gastown)
                              "joe" no_opts) world_joe_idle)))))
  = Some (Errorf "" ErrSessionRunning ": gt-gastown-joe").
Proof.
  pose proof (C5_start_preconditions Env.handle (Session.mkManager rig_gastown)
                "max" no_opts no_opts world_joe_idle world_joe_idle
                world_joe_idle []) as (Habsent & _ & _).
  pose proof (C5_start_preconditions Env.handle (Session.mkManager rig_gastown)
                "joe" no_opts no_opts world_joe_live world_joe_idle
                (snd (fst (run Env.handle
                             (Session.Start (Session.mkManager rig_gastown)
                                "joe" no_opts) world_joe_idle)))
                (snd (run Env.handle
                        (Session.Start (Session.mkManager rig_gastown)
                           "joe" no_opts) world_joe_idle)))
    as (_ & Hlive & Htwice).
  split; [| split].
  - refine (proj1 (Habsent (mkFileInfo false) (Some ErrNotExist) world_joe_idle
                     _ _)).
    + reflexivity.
    + left. discriminate.
  - refine (proj1 (Hlive (mkFileInfo true) world_joe_live world_joe_live
                     _ _ _)); reflexivity.
  - apply Htwice. vm_compute. reflexivity.
Defined.

(** C6.  A [Start] that succeeds has made its calls in this order: the
    directory and session checks, the creation of the session, the two
    identity variables [GT_RIG] and [GT_POLECAT], the launch command, and then,
    only when an issue is given, the 500 ms pause followed by the calls of
    [Inject] for the prompt.  Once the pause has been made [Start] returns
    [nil] whatever [Inject] returns; a [Start] that fails stops within the
    first six calls. *)
Theorem C6_start_order
  {W : Type} (h : forall c : call, W -> resp c * W)
  (m : Session.Manager) (polecat : string) (opts : Session.StartOptions)
  (w w' : W) (r : result) (tr : list call)
  (Hrun : run h (Session.Start m polecat opts) w = (r, w', tr)) :
  let key := Session.sessionName m polecat in
  let prompt := ("Work on issue: " ++ Session.Issue opts)%string in
  let follow :=
    snd (run h (Session.Inject m polecat prompt)
           (exec h (launch m polecat opts ++ [Sleep 500]) w)) in
  launch m polecat opts
  = [Stat (Session.polecatDir m polecat);
     HasSession key;
     NewSession key (if String.eqb (Session.WorkDir opts) ""
                     then Session.polecatDir m polecat
                     else Session.WorkDir opts);
     SetEnvironment key "GT_RIG" (Name (Session.rig m));
     SetEnvironment key "GT_POLECAT" polecat;
     SendKeys key (if String.eqb (Session.Command opts) ""
                   then "claude --dangerously-skip-permissions"
                   else Session.Command opts)] /\
  (r = None ->
   tr = launch m polecat opts
        ++ (if String.eqb (Session.Issue opts) "" then []
            else Sleep 500 :: follow)) /\
  (follow = [HasSession key] \/
   follow = [HasSession key;
             SendKeysDebounced key prompt (Session.debounceMs (len prompt))]) /\
  (In (Sleep 500) tr -> r = None) /\
  (r <> None -> exists n, tr = firstn n (launch m polecat opts)).
Proof.
  intros key prompt follow.
  split; [reflexivity |].
  pose proof (Inject_trace h m polecat prompt
                (exec h (launch m polecat opts ++ [Sleep 500]) w)) as Hinj.
  destruct (Start_runs h m polecat opts w w' r tr Hrun)
    as [(Hr & _ & _ & Htr) | (Hn & Hs & n & Hfirst & _)].
  - split; [| split; [exact Hinj | split; [intros _; exact Hr |]]].
    + intros _. destruct (String.eqb (Session.Issue opts) "").
      * destruct Htr as [-> _]. symmetry. apply app_nil_r.
      * destruct Htr as [-> _]. reflexivity.
    + intros Hne. now elim Hne.
  - split; [intros Hr; now elim Hn |].
    split; [exact Hinj |].
    split; [intros Hin; now elim Hs |].
    intros _. exists n. exact Hfirst.
Qed.

Lemma C6_start_order_witness :
  snd (run Env.handle
         (Session.Start (Session.mkManager rig_gastown) "joe" issue_opts)
         world_joe_deaf)
  = [Stat "/town/gastown/polecats/joe";
     HasSession "gt-gastown-joe";
     NewSession "gt-gastown-joe" "/town/gastown/polecats/joe";
     SetEnvironment "gt-gastown-joe" "GT_RIG" "gastown";
     SetEnvironment "gt-gastown-joe" "GT_POLECAT" "joe";
     SendKeys "gt-gastown-joe" "claude --dangerously-skip-permissions";
     Sleep 500;
     HasSession "gt-gastown-joe";
     SendKeysDebounced "gt-gastown-joe" "Work on issue: gt-42" 200] /\
  fst (fst (run Env.handle
              (Session.Inject (Session.mkManager rig_gastown) "joe"
                 "Work on issue: gt-42")
              (exec Env.handle
                 (launch (Session.mkManager rig_gastown) "joe" issue_opts
                  ++ [Sleep 500]) world_joe_deaf)))
  = Some (ErrorString "send-keys failed").
Proof.
  split; [| vm_compute; reflexivity].
  pose proof (C6_start_order Env.handle (Session.mkManager rig_gastown) "joe"
                issue_opts world_joe_deaf
                (snd (fst (run Env.handle
                             (Session.Start (Session.mkManager rig_gastown)
                                "joe" issue_opts) world_joe_deaf)))
                None
                (snd (run Env.handle
                        (Session.Start (Session.mkManager rig_gastown)
                           "joe" issue_opts) world_joe_deaf)))
    as H.
  cbv zeta in H.
  destruct H as (_ & Htr & _); [vm_compute; reflexivity |].
  rewrite (Htr eq_refl). vm_compute. reflexivity.
Defined.

(** ** Stop and StopAll *)

Lemma Stop_runs {W : Type} (h : forall c : call, W -> resp c * W)
  (m : Session.Manager) (polecat : string) (force : bool) (w w1 : W) :
  let key := Session.sessionName m polecat in
  h (HasSession key) w = ((true, None), w1) ->
  run h (Session.Stop m polecat force) w
  = (let (err, w3) := h (KillSession key) (exec h (courtesy key force) w1) in
     (match err with
      | Some e => Some (Errorf "killing session: " e "")
      | None => None
      end, w3, HasSession key :: courtesy key force ++ [KillSession key])).
Proof.
  intros key E.
  unfold Session.Stop, perform. fold key. simpl. rewrite E. simpl.
  destruct force; simpl.
  - destruct (h (KillSession key) w1) as [[e |] w3]; reflexivity.
  - destruct (h (SendKeysRaw key "C-c") w1) as [r2 w2]; simpl.
    destruct (h (Sleep 100) w2) as [u w3]; simpl.
    destruct (h (KillSession key) w3) as [[e |] w4]; reflexivity.
Qed.

(** C7.  [Stop] fails with [ErrSessionNotFound] when the Registry reports no
    live session at the key.  When it reports one, [Stop] sends the interrupt
    keys and waits 100 ms unless forced, and then always kills the session:
    the kill is the last call whatever the interrupt returned, and its
    outcome is the outcome of [Stop]. *)
Theorem C7_stop
  {W : Type} (h : forall c : call, W -> resp c * W)
  (m : Session.Manager) (polecat : string) (force : bool) (w w1 : W)
  (running : bool)
  (Hhas : h (HasSession (Session.sessionName m polecat)) w
          = ((running, None), w1)) :
  let key := Session.sessionName m polecat in
  courtesy key false = [SendKeysRaw key "C-c"; Sleep 100] /\
  courtesy key true = [] /\
  (running = false ->
   run h (Session.Stop m polecat force) w
   = (Some ErrSessionNotFound, w1, [HasSession key])) /\
  (running = true ->
   run h (Session.Stop m polecat force) w
   = (let (err, w3) := h (KillSession key) (exec h (courtesy key force) w1) in
      (match err with
       | Some e => Some (Errorf "killing session: " e "")
       | None => None
       end, w3, HasSession key :: courtesy key force ++ [KillSession key]))).
Proof.
  intros key. split; [reflexivity |]. split; [reflexivity |]. split.
  - intros ->. unfold Session.Stop, perform. fold key. simpl.
    unfold key. rewrite Hhas. reflexivity.
  - intros ->. apply Stop_runs. exact Hhas.
Qed.

Lemma C7_stop_witness :
  run Env.handle (Session.Stop (Session.mkManager rig_gastown) "joe" false)
    world_joe_stubborn
  = (None, Env.set_sessions (Env.set_clock world_joe_stubborn 100) [],
     [HasSession "gt-gastown-joe"; SendKeysRaw "gt-gastown-joe" "C-c";
      Sleep 100; KillSession "gt-gastown-joe"]) /\
  run Env.handle (Session.Stop (Session.mkManager rig_gastown) "joe" false)
    world_joe_idle
  = (Some ErrSessionNotFound, world_joe_idle, [HasSession "gt-gastown-joe"]).
Proof.
  split.
  - exact (proj2 (proj2 (proj2
             (C7_stop Env.handle (Session.mkManager rig_gastown) "joe" false
                world_joe_stubborn world_joe_stubborn true eq_refl)))
             eq_refl).
  - exact (proj1 (proj2 (proj2
             (C7_stop Env.handle (Session.mkManager rig_gastown) "joe" false
                world_joe_idle world_joe_idle false eq_refl)))
             eq_refl).
Defined.

Lemma last_error_or_else (rs : list result) (acc : result) :
  or_else (last_error rs) acc
  = fold_left (fun a r => or_else r a) rs acc.
Proof.
  revert acc; induction rs as [| r rs IH]; intros acc; simpl; [reflexivity |].
  rewrite <- IH.
  destruct (last_error rs); simpl; [reflexivity |].
  destruct r; reflexivity.
Qed.

Lemma last_error_none (rs : list result) :
  last_error rs = None <-> Forall (fun r => r = None) rs.
Proof.
  induction rs as [| r rs IH]; simpl.
  - split; [constructor | reflexivity].
  - destruct (last_error rs) as [e |].
    + split; [discriminate |].
      intros H. inversion H as [| ? ? _ Hrs]; subst. apply IH in Hrs.
      discriminate Hrs.
    + split.
      * intros ->. constructor; [reflexivity | apply IH; reflexivity].
      * intros H. inversion H; subst. reflexivity.
Qed.

Lemma last_error_last (pre post : list result) (e : error) :
  Forall (fun r => r = None) post ->
  last_error (pre ++ Some e :: post) = Some e.
Proof.
  intros Hpost. apply last_error_none in Hpost.
  induction pre as [| r pre IH]; simpl.
  - rewrite Hpost. reflexivity.
  - rewrite IH. reflexivity.
Qed.

Lemma stop_each_length {W : Type} (h : forall c : call, W -> resp c * W)
  (m : Session.Manager) (force : bool) (infos : list Session.Info) (w : W) :
  length (fst (fst (stop_each h m force infos w))) = length infos.
Proof.
  revert w; induction infos as [| i rest IH]; intros w;
    cbn [stop_each]; [reflexivity |].
  destruct (run h (Session.Stop m (Session.Polecat i) force) w)
    as [[r w1] t1].
  specialize (IH w1).
  destruct (stop_each h m force rest w1) as [[rs w2] t2]; simpl in *.
  now rewrite IH.
Qed.

Lemma StopAll_loop_runs {W : Type} (h : forall c : call, W -> resp c * W)
  (m : Session.Manager) (force : bool) (infos : list Session.Info)
  (lastErr : result) (w : W) :
  run h (Session.StopAll_loop m force infos lastErr) w
  = (let '(rs, w2, tr) := stop_each h m force infos w in
     (or_else (last_error rs) lastErr, w2, tr)).
Proof.
  revert lastErr w; induction infos as [| i rest IH]; intros lastErr w.
  - reflexivity.
  - cbn [Session.StopAll_loop stop_each]. rewrite run_bind.
    destruct (run h (Session.Stop m (Session.Polecat i) force) w)
      as [[r w1] t1].
    destruct r as [e |]; rewrite IH;
      destruct (stop_each h m force rest w1) as [[rs w2] t2];
      cbn [last_error]; destruct (last_error rs); reflexivity.
Qed.

(** C8.  [StopAll] lists the sessions of the rig and runs [Stop] on each
    listed session in turn, each from the environment the previous one left,
    whatever the previous ones returned; it returns the last error among
    their outcomes, and [nil] exactly when every [Stop] returned [nil] (in
    particular when nothing is listed).  The returned error does not tell
    which sessions failed to stop: the two worlds above give the same error
    although [a] stops in one and not in the other. *)
Theorem C8_stop_all
  {W : Type} (h : forall c : call, W -> resp c * W)
  (m : Session.Manager) (force : bool) (w w1 : W) (sessions : list string)
  (Hlist : h ListSessions w = ((sessions, None), w1)) :
  let infos := Session.List_loop m (rigPrefix m) sessions in
  let outcomes := fst (fst (stop_each h m force infos w1)) in
  run h (Session.StopAll m force) w
  = (last_error outcomes,
     snd (fst (stop_each h m force infos w1)),
     ListSessions :: snd (stop_each h m force infos w1)) /\
  length outcomes = length infos /\
  (last_error outcomes = None <-> Forall (fun r => r = None) outcomes) /\
  (forall pre e post,
     outcomes = pre ++ Some e :: post ->
     Forall (fun r => r = None) post ->
     last_error outcomes = Some e) /\
  (let mx := Session.mkManager rig_x in
   let both := Session.List_loop mx "gt-x-" ["gt-x-a"; "gt-x-b"] in
   fst (fst (run Env.handle (Session.StopAll mx true) world_none_killable))
   = fst (fst (run Env.handle (Session.StopAll mx true) world_b_not_killable))
   /\
   fst (fst (stop_each Env.handle mx true both world_none_killable))
   = [Some (Errorf "killing session: " kill_failed "");
      Some (Errorf "killing session: " kill_failed "")] /\
   fst (fst (stop_each Env.handle mx true both world_b_not_killable))
   = [None; Some (Errorf "killing session: " kill_failed "")]).
Proof.
  intros infos outcomes.
  split; [| split; [| split; [| split]]].
  - unfold Session.StopAll. rewrite run_bind.
    unfold Session.List, perform. cbn [bind run]. rewrite Hlist.
    cbn [bind run]. fold (rigPrefix m). fold infos.
    rewrite StopAll_loop_runs. unfold outcomes.
    destruct (stop_each h m force infos w1) as [[rs w2] tr]. simpl.
    destruct (last_error rs); reflexivity.
  - apply stop_each_length.
  - apply last_error_none.
  - intros pre e post -> Hpost. apply last_error_last. exact Hpost.
  - vm_compute. repeat split.
Qed.

Lemma C8_stop_all_witness :
  run Env.handle (Session.StopAll (Session.mkManager rig_x) true)
    world_b_not_killable
  = (Some (Errorf "killing session: " kill_failed ""),
     Env.set_sessions world_b_not_killable ["gt-x-b"],
     [ListSessions; HasSession "gt-x-a"; KillSession "gt-x-a";
      HasSession "gt-x-b"; KillSession "gt-x-b"]).
Proof.
  exact (proj1 (C8_stop_all Env.handle (Session.mkManager rig_x) true
                  world_b_not_killable world_b_not_killable
                  ["gt-x-a"; "gt-x-b"] eq_refl)).
Defined.

(** ** The witness state machine against an arbitrary environment *)

(** Name the outcome of the [saveState] that a run has reached. *)
Ltac save_step w r v tr Hs :=
  match goal with
  | |- context [@run ?W ?h ?A (WitnessMgr.saveState ?m ?x) w] =>
      destruct (@run W h A (WitnessMgr.saveState m x) w) as [[r v] tr] eqn:Hs
  end.

Section WitnessRuns.
Context {W : Type}.
Variable h : forall c : call, W -> resp c * W.
Variable m : WitnessMgr.Manager.

Lemma persist_outcome_persists (rec : Witness) (v : W) (pre : list call) :
  In (MkdirAll (filepath_Dir (WitnessMgr.stateFile m)) 493)
     (snd (persist_outcome h m rec v pre)).
Proof.
  unfold persist_outcome.
  destruct (h (MkdirAll _ 493) v) as [[e |] v1]; simpl.
  - apply in_or_app. right. now left.
  - destruct (h (AtomicWriteJSON _ rec) v1) as [e2 v2]; simpl.
    apply in_or_app. right. now left.
Qed.

Lemma saveState_runs (rec : Witness) (v : W) (pre : list call) :
  (let '(r, v', tr) := run h (WitnessMgr.saveState m rec) v in
   (r, v', pre ++ tr))
  = persist_outcome h m rec v pre.
Proof.
  unfold WitnessMgr.saveState, persist_outcome, perform. simpl.
  destruct (h (MkdirAll _ 493) v) as [[e |] v1]; simpl; [reflexivity |].
  destruct (h (AtomicWriteJSON _ rec) v1) as [e2 v2]; reflexivity.
Qed.

Opaque WitnessMgr.saveState.

Lemma loadState_trace (w w1 : W) (r : Witness + error) (trl : list call) :
  run h (WitnessMgr.loadState m) w = (r, w1, trl) ->
  trl = [ReadFile (WitnessMgr.stateFile m)] /\
  w1 = snd (h (ReadFile (WitnessMgr.stateFile m)) w).
Proof.
  unfold WitnessMgr.loadState, perform. simpl.
  destruct (h (ReadFile _) w) as [[data [e |]] v]; simpl.
  - destruct e; simpl; intros H; injection H as <- <- <-; now split.
  - destruct data; simpl; intros H; injection H as <- <- <-; now split.
Qed.

Lemma pid_probe_trace (pid : Z) (w w2 : W) (alive : bool)
  (trp : list call) :
  run h (pid_probe pid) w = (alive, w2, trp) ->
  Forall (fun c => persists c = false) trp.
Proof.
  unfold pid_probe, Util.ProcessExists, perform.
  destruct (pid >? 0); simpl.
  - destruct (h (FindProcess pid) w) as [[e |] v]; simpl.
    + intros H; injection H as <- <- <-. repeat constructor.
    + destruct (h (Signal pid SigNil) v) as [e2 v2]; simpl.
      intros H; injection H as <- <- <-. repeat constructor.
  - intros H; injection H as <- <- <-. constructor.
Qed.

(** [Start] on a loaded record that says running. *)
Lemma Start_running (w w1 w2 : W) (wit : Witness) (trl trp : list call)
  (alive : bool) :
  run h (WitnessMgr.loadState m) w = (inl wit, w1, trl) ->
  WState wit = StateRunning ->
  run h (pid_probe (PID wit)) w1 = (alive, w2, trp) ->
  run h (WitnessMgr.Start m) w
  = if alive then (Some ErrAlreadyRunning, w2, trl ++ trp)
    else
      let (now, w3) := h Now w2 in
      let (pid, w4) := h Getpid w3 in
      persist_outcome h m (started m wit now pid) w4
        (trl ++ trp ++ [Now; Getpid]).
Proof.
  intros Hload Hstate Hprobe.
  unfold WitnessMgr.Start. rewrite run_bind, Hload. rewrite run_bind.
  rewrite Hstate. cbn [State_eqb andb]. fold (pid_probe (PID wit)).
  rewrite Hprobe. destruct alive.
  - simpl. rewrite app_nil_r. reflexivity.
  - unfold perform. cbn [bind run].
    destruct (h Now w2) as [now w3]. cbn [bind run].
    destruct (h Getpid w3) as [pid w4]. cbn [bind run].
    save_step w4 r v tr Hs.
    assert (Hs' : run h (WitnessMgr.saveState m (started m wit now pid)) w4
                  = (r, v, tr)) by exact Hs.
    pose proof (saveState_runs (started m wit now pid) w4
                  (trl ++ trp ++ [Now; Getpid])) as Hp.
    rewrite Hs' in Hp. rewrite <- Hp. simpl.
    rewrite <- !app_assoc. reflexivity.
Qed.

(** [Start] on a loaded record that says stopped. *)
Lemma Start_stopped (w w1 : W) (wit : Witness) (trl : list call) :
  run h (WitnessMgr.loadState m) w = (inl wit, w1, trl) ->
  WState wit = StateStopped ->
  run h (WitnessMgr.Start m) w
  = let (now, w3) := h Now w1 in
    let (pid, w4) := h Getpid w3 in
    persist_outcome h m (started m wit now pid) w4 (trl ++ [Now; Getpid]).
Proof.
  intros Hload Hstate.
  unfold WitnessMgr.Start. rewrite run_bind, Hload. rewrite run_bind.
  rewrite Hstate. cbn [State_eqb andb]. unfold perform. cbn [bind run].
  destruct (h Now w1) as [now w3]. cbn [bind run].
  destruct (h Getpid w3) as [pid w4]. cbn [bind run].
  save_step w4 r v tr Hs.
  assert (Hs' : run h (WitnessMgr.saveState m (started m wit now pid)) w4
                = (r, v, tr)) by exact Hs.
  pose proof (saveState_runs (started m wit now pid) w4
                (trl ++ [Now; Getpid])) as Hp.
  rewrite Hs' in Hp. rewrite <- Hp. simpl.
  rewrite <- !app_assoc. reflexivity.
Qed.

Lemma interrupt_trace (pid : Z) (w w2 : W) (trs : list call) :
  run h (interrupt pid) w = (tt, w2, trs) ->
  Forall (fun c => persists c = false) trs /\
  incl trs [Getpid; FindProcess pid; Signal pid SigInterrupt].
Proof.
  unfold interrupt, perform.
  destruct (pid >? 0); simpl.
  2: { intros H; injection H as <- <-. split; [constructor | easy]. }
  destruct (h Getpid w) as [self v]; simpl.
  destruct (negb (pid =? self)); simpl.
  2: { intros H; injection H as <- <-.
       split; [repeat constructor | intros c [<- | []]; now left]. }
  destruct (h (FindProcess pid) v) as [[e |] v1]; simpl.
  { intros H; injection H as <- <-.
    split; [repeat constructor |].
    intros c [<- | [<- | []]]; simpl; tauto. }
  destruct (h (Signal pid SigInterrupt) v1) as [e2 v2]; simpl.
  intros H; injection H as <- <-.
  split; [repeat constructor | apply incl_refl].
Qed.

Lemma Stop_not_running (w w1 : W) (wit : Witness) (trl : list call) :
  run h (WitnessMgr.loadState m) w = (inl wit, w1, trl) ->
  WState wit <> StateRunning ->
  run h (WitnessMgr.Stop m) w = (Some ErrNotRunning, w1, trl).
Proof.
  intros Hload Hstate.
  unfold WitnessMgr.Stop. rewrite run_bind, Hload.
  destruct (WState wit); [| now elim Hstate].
  simpl. rewrite app_nil_r. reflexivity.
Qed.

Lemma Stop_running (w w1 w2 : W) (wit : Witness) (trl trs : list call) :
  run h (WitnessMgr.loadState m) w = (inl wit, w1, trl) ->
  WState wit = StateRunning ->
  run h (interrupt (PID wit)) w1 = (tt, w2, trs) ->
  run h (WitnessMgr.Stop m) w
  = persist_outcome h m (stopped wit) w2 (trl ++ trs).
Proof.
  intros Hload Hstate Hint.
  unfold WitnessMgr.Stop. rewrite run_bind, Hload.
  rewrite Hstate. cbn [State_eqb negb]. rewrite run_bind.
  fold (interrupt (PID wit)). rewrite Hint.
  save_step w2 r v tr Hs.
  assert (Hs' : run h (WitnessMgr.saveState m (stopped wit)) w2
                = (r, v, tr)) by exact Hs.
  pose proof (saveState_runs (stopped wit) w2 (trl ++ trs)) as Hp.
  rewrite Hs' in Hp. rewrite <- Hp. simpl.
  rewrite <- !app_assoc. reflexivity.
Qed.

Transparent WitnessMgr.saveState.

End WitnessRuns.

Lemma Forall_no_persist_not_In (c : call) (tr : list call) :
  persists c = true -> In c tr ->
  ~ Forall (fun c => persists c = false) tr.
Proof.
  intros Hc Hin Hall. rewrite Forall_forall in Hall.
  specialize (Hall c Hin). congruence.
Qed.

Lemma persist_outcome_ok {W : Type} (h : forall c : call, W -> resp c * W)
  (m : WitnessMgr.Manager) (rec : Witness) (v v1 v2 : W) (pre : list call) :
  h (MkdirAll (filepath_Dir (WitnessMgr.stateFile m)) 493) v = (None, v1) ->
  h (AtomicWriteJSON (WitnessMgr.stateFile m) rec) v1 = (None, v2) ->
  persist_outcome h m rec v pre
  = (None, v2,
     pre ++ [MkdirAll (filepath_Dir (WitnessMgr.stateFile m)) 493;
             AtomicWriteJSON (WitnessMgr.stateFile m) rec]).
Proof. intros E1 E2. unfold persist_outcome. rewrite E1, E2. reflexivity. Qed.

Lemma ProcessExists_refused {W : Type} (h : forall c : call, W -> resp c * W)
  (pid : Z) (v : W) :
  refuses_nil_signal h ->
  fst (fst (run h (Util.ProcessExists pid) v)) = false.
Proof.
  intros Hnil. unfold Util.ProcessExists, perform. simpl.
  destruct (h (FindProcess pid) v) as [[e |] v1]; simpl; [reflexivity |].
  pose proof (Hnil pid v1) as Hsig.
  destruct (h (Signal pid SigNil) v1) as [[e2 |] v2]; simpl;
    [reflexivity | now elim Hsig].
Qed.

Lemma pid_probe_refused {W : Type} (h : forall c : call, W -> resp c * W)
  (pid : Z) (v : W) :
  refuses_nil_signal h ->
  fst (fst (run h (pid_probe pid) v)) = false.
Proof.
  intros Hnil. unfold pid_probe.
  destruct (pid >? 0); [exact (ProcessExists_refused h pid v Hnil) |].
  reflexivity.
Qed.

(** The in-memory environment refuses the nil signal. *)
Lemma Env_refuses_nil_signal : refuses_nil_signal Env.handle.
Proof.
  intros pid v. unfold Env.handle.
  destruct (Env.faults v (Signal pid SigNil)); simpl; discriminate.
Qed.

(** C3.  [util.ProcessExists] probes with the nil signal, and
    [os.Process.Signal] refuses the nil signal for every process.  In an
    environment that does so the probe answers false for every pid, so [Start]
    with a loaded record that says running never stops at its guard, whether
    the recorded process is live or not: after the probe it reads the clock
    and its own process id and persists the record [started] over the loaded
    one, and returns what the write returns, [nil] when the directory can be
    made and the file replaced.  If it returns the value [ErrAlreadyRunning]
    at all, a call that writes has been made. *)
Theorem C3_start_overrides_a_live_witness
  {W : Type} (h : forall c : call, W -> resp c * W)
  (m : WitnessMgr.Manager) (w w1 : W) (wit : Witness) (trl : list call)
  (Hnil : refuses_nil_signal h)
  (Hload : run h (WitnessMgr.loadState m) w = (inl wit, w1, trl))
  (Hstate : WState wit = StateRunning) :
  (forall pid v, fst (fst (run h (Util.ProcessExists pid) v)) = false) /\
  (exists w2 trp,
     run h (pid_probe (PID wit)) w1 = (false, w2, trp) /\
     run h (WitnessMgr.Start m) w
     = (let (now, w3) := h Now w2 in
        let (pid, w4) := h Getpid w3 in
        persist_outcome h m (started m wit now pid) w4
          (trl ++ trp ++ [Now; Getpid])) /\
     forall now pid w3 w4 w5 w6,
       h Now w2 = (now, w3) ->
       h Getpid w3 = (pid, w4) ->
       h (MkdirAll (filepath_Dir (WitnessMgr.stateFile m)) 493) w4
       = (None, w5) ->
       h (AtomicWriteJSON (WitnessMgr.stateFile m)
            (mkWitness (RigName wit) StateRunning pid (Some now)
               (Polecats (WitnessMgr.rig m)))) w5 = (None, w6) ->
       run h (WitnessMgr.Start m) w
       = (None, w6,
          trl ++ trp
          ++ [Now; Getpid;
              MkdirAll (filepath_Dir (WitnessMgr.stateFile m)) 493;
              AtomicWriteJSON (WitnessMgr.stateFile m)
                (mkWitness (RigName wit) StateRunning pid (Some now)
                   (Polecats (WitnessMgr.rig m)))])) /\
  (forall w' tr,
     run h (WitnessMgr.Start m) w = (Some ErrAlreadyRunning, w', tr) ->
     In (MkdirAll (filepath_Dir (WitnessMgr.stateFile m)) 493) tr).
Proof.
  pose proof (pid_probe_refused h (PID wit) w1 Hnil) as Hfalse.
  destruct (run h (pid_probe (PID wit)) w1) as [[alive w2] trp] eqn:Hprobe.
  simpl in Hfalse. subst alive.
  pose proof (Start_running h m w w1 w2 wit trl trp false Hload Hstate Hprobe)
    as Hrun.
  split; [intros pid v; exact (ProcessExists_refused h pid v Hnil) |].
  split.
  - exists w2, trp. split; [reflexivity |]. split; [exact Hrun |].
    intros now pid w3 w4 w5 w6 E1 E2 E3 E4.
    rewrite Hrun, E1, E2.
    rewrite (persist_outcome_ok h m _ w4 w5 w6 _ E3 E4).
    rewrite <- !app_assoc. reflexivity.
  - intros w' tr Hrej. rewrite Hrun in Hrej.
    destruct (h Now w2) as [now w3]. destruct (h Getpid w3) as [pid w4].
    pose proof (persist_outcome_persists h m (started m wit now pid) w4
                  (trl ++ trp ++ [Now; Getpid])) as Hin.
    rewrite Hrej in Hin. exact Hin.
Qed.

Lemma C3_start_overrides_a_live_witness_witness :
  existsb (Z.eqb 99) (Env.live world_live_witness) = true /\
  fst (Env.handle (Signal 99 SigInterrupt) world_live_witness) = None /\
  (let '(r, e, tr) :=
     run Env.handle (WitnessMgr.Start witness_gastown) world_live_witness in
   r = None /\
   Env.lookup "/town/gastown/.runtime/witness.json" (Env.files e)
   = Some (DocWitness (mkWitness "gastown" StateRunning 7 (Some 20) ["joe"])) /\
   tr = [ReadFile "/town/gastown/.runtime/witness.json"; FindProcess 99;
         Signal 99 SigNil; Now; Getpid;
         MkdirAll "/town/gastown/.runtime" 493;
         AtomicWriteJSON "/town/gastown/.runtime/witness.json"
           (mkWitness "gastown" StateRunning 7 (Some 20) ["joe"])]).
Proof.
  split; [reflexivity |]. split; [reflexivity |].
  destruct (C3_start_overrides_a_live_witness Env.handle witness_gastown
              world_live_witness world_live_witness record_99
              [ReadFile "/town/gastown/.runtime/witness.json"]
              Env_refuses_nil_signal eq_refl eq_refl)
    as (_ & (w2 & trp & Hp & _ & Hok) & _).
  vm_compute in Hp. injection Hp as <- <-.
  rewrite (Hok 20 7 world_live_witness world_live_witness
             (Env.set_dirs world_live_witness ["/town/gastown/.runtime"])
             _ eq_refl eq_refl eq_refl eq_refl).
  repeat split.
Defined.

(** C4.  With a persisted record loaded, [Stop] returns [ErrNotRunning] when
    the record does not say running.  When it does, [Stop] makes its attempt
    to interrupt the recorded process and then persists the record [stopped]
    (stopped, pid 0) whatever the attempt did: the attempt only reads the own
    process id, finds the process and signals it, and nothing it returns is
    looked at. *)
Theorem C4_witness_stop
  {W : Type} (h : forall c : call, W -> resp c * W)
  (m : WitnessMgr.Manager) (w w1 w2 : W) (wit : Witness)
  (trl trs : list call)
  (Hload : run h (WitnessMgr.loadState m) w = (inl wit, w1, trl))
  (Hint : run h (interrupt (PID wit)) w1 = (tt, w2, trs)) :
  (WState wit <> StateRunning ->
   run h (WitnessMgr.Stop m) w = (Some ErrNotRunning, w1, trl)) /\
  (WState wit = StateRunning ->
   run h (WitnessMgr.Stop m) w
   = persist_outcome h m (stopped wit) w2 (trl ++ trs) /\
   forall w3 w4,
     h (MkdirAll (filepath_Dir (WitnessMgr.stateFile m)) 493) w2 = (None, w3) ->
     h (AtomicWriteJSON (WitnessMgr.stateFile m) (stopped wit)) w3
     = (None, w4) ->
     run h (WitnessMgr.Stop m) w
     = (None, w4,
        trl ++ trs
        ++ [MkdirAll (filepath_Dir (WitnessMgr.stateFile m)) 493;
            AtomicWriteJSON (WitnessMgr.stateFile m) (stopped wit)])) /\
  WState (stopped wit) = StateStopped /\
  PID (stopped wit) = 0 /\
  incl trs [Getpid; FindProcess (PID wit); Signal (PID wit) SigInterrupt].
Proof.
  split; [| split; [| split; [reflexivity | split; [reflexivity |]]]].
  - intros Hs. exact (Stop_not_running h m w w1 wit trl Hload Hs).
  - intros Hs.
    pose proof (Stop_running h m w w1 w2 wit trl trs Hload Hs Hint) as Hrun.
    split; [exact Hrun |].
    intros w3 w4 E1 E2. rewrite Hrun.
    rewrite (persist_outcome_ok h m _ w2 w3 w4 _ E1 E2).
    rewrite <- app_assoc. reflexivity.
  - exact (proj2 (interrupt_trace h _ _ _ _ Hint)).
Qed.

Lemma C4_witness_stop_witness :
  let '(r, e, tr) :=
    run Env.handle (WitnessMgr.Stop witness_gastown) world_stale_witness in
  r = None /\
  Env.lookup "/town/gastown/.runtime/witness.json" (Env.files e)
  = Some (DocWitness (mkWitness "gastown" StateStopped 0 (Some 5) [])) /\
  tr = [ReadFile "/town/gastown/.runtime/witness.json"; Getpid;
        FindProcess 99; Signal 99 SigInterrupt;
        MkdirAll "/town/gastown/.runtime" 493;
        AtomicWriteJSON "/town/gastown/.runtime/witness.json"
          (mkWitness "gastown" StateStopped 0 (Some 5) [])] /\
  fst (Env.handle (Signal 99 SigInterrupt) world_stale_witness)
  = Some (ErrorString "os: process already finished").
Proof.
  pose proof (C4_witness_stop Env.handle witness_gastown world_stale_witness
                world_stale_witness world_stale_witness record_99
                [ReadFile "/town/gastown/.runtime/witness.json"]
                [Getpid; FindProcess 99; Signal 99 SigInterrupt]
                eq_refl eq_refl) as (_ & Hrunning & _).
  destruct (Hrunning eq_refl) as [_ Hok].
  rewrite (Hok (Env.set_dirs world_stale_witness ["/town/gastown/.runtime"])
             _ eq_refl eq_refl).
  repeat split.
Defined.

(** In the in-memory environment a call that does not write leaves the
    directories and the files as they are. *)
Lemma handle_no_persist (c : call) (e : Env.World) :
  persists c = false ->
  Env.dirs (snd (Env.handle c e)) = Env.dirs e /\
  Env.files (snd (Env.handle c e)) = Env.files e.
Proof.
  intros Hc. unfold Env.handle.
  destruct (Env.faults e c) as [err |].
  - destruct c; try discriminate Hc; simpl; split; reflexivity.
  - destruct c; try discriminate Hc; simpl; unfold Env.on_session;
      repeat match goal with
             | |- context [if ?b then _ else _] => destruct b
             | |- context [match ?x with Some _ => _ | None => _ end] =>
                 destruct x
             end; simpl; split; reflexivity.
Qed.

Lemma run_no_persist {A : Type} (p : prog A) (e e1 : Env.World) (r : A)
  (tr : list call) :
  run Env.handle p e = (r, e1, tr) ->
  Forall (fun c => persists c = false) tr ->
  Env.dirs e1 = Env.dirs e /\ Env.files e1 = Env.files e.
Proof.
  intros Hrun Hall.
  pose proof (run_exec Env.handle p e) as Hex. rewrite Hrun in Hex.
  simpl in Hex. subst e1. clear Hrun.
  revert e. induction Hall as [| c tr Hc _ IH]; intros e; simpl.
  - split; reflexivity.
  - destruct (IH (snd (Env.handle c e))) as [D F].
    destruct (handle_no_persist c e Hc) as [D' F'].
    split; congruence.
Qed.

(** C10.  When [Start] rejects with [ErrAlreadyRunning] (the loaded record
    says running and the probe of its pid answers true) and when [Stop]
    rejects with [ErrNotRunning] (the loaded record does not say running),
    the run has made no call that writes: it read the state file and, for
    [Start], probed the process.  In the in-memory environment a run without
    such a call leaves directories and files unchanged. *)
Theorem C10_witness_rejections_write_nothing
  {W : Type} (h : forall c : call, W -> resp c * W)
  (m : WitnessMgr.Manager) (w w1 w2 : W) (wit : Witness)
  (trl trp : list call) (alive : bool)
  (Hload : run h (WitnessMgr.loadState m) w = (inl wit, w1, trl))
  (Hprobe : run h (pid_probe (PID wit)) w1 = (alive, w2, trp)) :
  (WState wit = StateRunning -> alive = true ->
   run h (WitnessMgr.Start m) w = (Some ErrAlreadyRunning, w2, trl ++ trp) /\
   Forall (fun c => persists c = false) (trl ++ trp)) /\
  (WState wit <> StateRunning ->
   run h (WitnessMgr.Stop m) w = (Some ErrNotRunning, w1, trl) /\
   Forall (fun c => persists c = false) trl) /\
  (forall (e e1 : Env.World) (r : result) (tr : list call),
     run Env.handle (WitnessMgr.Start m) e = (r, e1, tr)
     \/ run Env.handle (WitnessMgr.Stop m) e = (r, e1, tr) ->
     Forall (fun c => persists c = false) tr ->
     Env.dirs e1 = Env.dirs e /\ Env.files e1 = Env.files e).
Proof.
  pose proof (loadState_trace h m w w1 _ trl Hload) as [Htrl _].
  assert (Hquiet : Forall (fun c => persists c = false) trl)
    by (rewrite Htrl; repeat constructor).
  split; [| split].
  - intros Hs ->. split.
    + exact (Start_running h m w w1 w2 wit trl trp true Hload Hs Hprobe).
    + apply Forall_app. split; [exact Hquiet |].
      exact (pid_probe_trace h _ _ _ _ _ Hprobe).
  - intros Hs. split; [| exact Hquiet].
    exact (Stop_not_running h m w w1 wit trl Hload Hs).
  - intros e e1 r tr [Hrun | Hrun] Hall;
      exact (run_no_persist _ e e1 r tr Hrun Hall).
Qed.

Lemma C10_witness_rejections_write_nothing_witness :
  run Env.handle (WitnessMgr.Stop witness_gastown) world_stopped_witness
  = (Some ErrNotRunning, world_stopped_witness,
     [ReadFile "/town/gastown/.runtime/witness.json"]) /\
  Env.files world_stopped_witness
  = [("/town/gastown/.runtime/witness.json",
      DocWitness (mkWitness "gastown" StateStopped 0 None []))].
Proof.
  split; [| reflexivity].
  refine (proj1 (proj1 (proj2
           (C10_witness_rejections_write_nothing Env.handle witness_gastown
              world_stopped_witness world_stopped_witness
              world_stopped_witness
              (mkWitness "gastown" StateStopped 0 None [])
              [ReadFile "/town/gastown/.runtime/witness.json"]
              [] false _ _)) _)).
  - reflexivity.
  - reflexivity.
  - discriminate.
Defined.

(** ** Crew refresh *)

Arguments filepath_Join : simpl never.
Arguments Crew.crewSessionName : simpl never.
Arguments Crew.style_Render : simpl never.

(** The calls of a run that stops somewhere are an initial part of the
    calls of its steps, and all of them when the outcome is [nil]. *)
Lemma until_stop_trace {W : Type}
  (h : forall c : CrewCmd.ccall, W -> CrewCmd.cresp c * W)
  (steps : list (CrewCmd.ccall * on_error)) (w w' : W) (res : result)
  (tr : list CrewCmd.ccall) :
  until_stop h steps w = (res, w', tr) ->
  (exists n, tr = firstn n (map fst steps)) /\
  (res = None -> tr = map fst steps).
Proof.
  revert w w' res tr.
  induction steps as [| [c o] rest IH]; intros w w' res tr; simpl.
  - intros H; injection H as <- <- <-. split; [now exists 0%nat | reflexivity].
  - destruct (h c w) as [x w1].
    destruct (match o with
              | Ignored => None
              | Wrapped pre =>
                  match canswer_error c x with
                  | Some e => Some (Errorf pre e "")
                  | None => None
                  end
              | Returned => canswer_error c x
              end) as [e |].
    + intros H; injection H as <- <- <-.
      split; [exists 1%nat; destruct rest; reflexivity | discriminate].
    + destruct (until_stop h rest w1) as [[res1 w2] tr1] eqn:E.
      intros H; injection H as <- <- <-.
      destruct (IH w1 w2 res1 tr1 E) as [(n & Hn) Hall].
      split; [exists (S n); simpl; now rewrite Hn |].
      intros Hr. now rewrite (Hall Hr).
Qed.

(** Name the answer of the next call of a run. *)
Ltac answer h :=
  match goal with
  | |- context [h ?c ?w] =>
      let x := fresh "x" in
      let v := fresh "v" in
      destruct (h c w) as [x v];
      cbn [CrewCmd.cbind CrewCmd.crun until_stop canswer_error answer_error
           fst snd];
      try (destruct x as [? |];
           cbn [CrewCmd.cbind CrewCmd.crun until_stop])
  end.

Opaque CrewCmd.getCrewManager.

Lemma Refresh_runs {W : Type}
  (h : forall c : CrewCmd.ccall, W -> CrewCmd.cresp c * W)
  (flags : CrewCmd.Flags) (name : string) (r : Rig) (worker : CrewWorker)
  (w w1 w2 : W) (tr0 : list CrewCmd.ccall) :
  CrewCmd.crun h (CrewCmd.getCrewManager (CrewCmd.crewRig flags)) w
  = (inl r, w1, tr0) ->
  h (CrewCmd.Base (CrewGet (Name r) name)) w1 = ((worker, None), w2) ->
  let key := Crew.crewSessionName (Name r) name in
  let mailDir := filepath_Join [ClonePath worker; "mail"] in
  let hasSession := fst (fst (h (CrewCmd.Base (HasSession key)) w2)) in
  let w3 := snd (h (CrewCmd.Base (HasSession key)) w2) in
  let missing := os_IsNotExist (snd (fst (h (CrewCmd.Base (Stat mailDir)) w3)))
  in
  let w4 := snd (h (CrewCmd.Base (Stat mailDir)) w3) in
  CrewCmd.crun h (CrewCmd.runCrewRefresh flags name) w
  = (let '(res, w', tr) :=
       until_stop h (refresh_steps flags r worker name hasSession missing) w4
     in
     (res, w',
      tr0 ++ map CrewCmd.Base [CrewGet (Name r) name; HasSession key;
                               Stat mailDir] ++ tr)).
Proof.
  intros Hmgr Hget key mailDir hasSession w3 missing w4.
  subst hasSession missing w4 w3.
  unfold CrewCmd.runCrewRefresh. rewrite crun_bind, Hmgr.
  unfold CrewCmd.cperform. cbn [CrewCmd.cbind CrewCmd.crun]. rewrite Hget.
  cbn [CrewCmd.cbind CrewCmd.crun]. fold key. fold mailDir.
  destruct (h (CrewCmd.Base (HasSession key)) w2) as [[session e2] w3].
  cbn [CrewCmd.cbind CrewCmd.crun fst snd].
  destruct (h (CrewCmd.Base (Stat mailDir)) w3) as [[info e3] w4].
  cbn [CrewCmd.cbind CrewCmd.crun fst snd].
  unfold refresh_steps, based, handoff. fold key. fold mailDir.
  destruct (os_IsNotExist e3), session;
    cbn [map app fst snd until_stop canswer_error answer_error
         CrewCmd.cbind CrewCmd.crun];
    repeat (answer h); reflexivity.
Qed.

Transparent CrewCmd.getCrewManager.

(** C9.  For an existing crew worker the run of [runCrewRefresh] is the run
    of [refresh_steps] after the session check and the look at the mail
    directory: the handoff message (the given message, or the canned text when
    none is given) is appended to the worker's own mailbox; then the session
    at the worker's key is killed, exactly when the check reported one; then
    the session is created anew, [GT_RIG] and [GT_CREW] are set and the launch
    command [claude] is sent.  Every one of these calls is made unless an
    earlier one among making the mail directory, the append, the kill, the
    creation and the launch returned an error, which ends the refresh with
    that error wrapped; the results of the two [SetEnvironment] calls are not
    looked at. *)
Theorem C9_crew_refresh
  {W : Type} (h : forall c : CrewCmd.ccall, W -> CrewCmd.cresp c * W)
  (flags : CrewCmd.Flags) (name : string) (r : Rig) (worker : CrewWorker)
  (w w1 w2 : W) (tr0 : list CrewCmd.ccall)
  (Hmgr : CrewCmd.crun h (CrewCmd.getCrewManager (CrewCmd.crewRig flags)) w
          = (inl r, w1, tr0))
  (Hworker : h (CrewCmd.Base (CrewGet (Name r) name)) w1
             = ((worker, None), w2)) :
  let key := Crew.crewSessionName (Name r) name in
  let mailDir := filepath_Join [ClonePath worker; "mail"] in
  let hasSession := fst (fst (h (CrewCmd.Base (HasSession key)) w2)) in
  let w3 := snd (h (CrewCmd.Base (HasSession key)) w2) in
  let missing := os_IsNotExist (snd (fst (h (CrewCmd.Base (Stat mailDir)) w3)))
  in
  let w4 := snd (h (CrewCmd.Base (Stat mailDir)) w3) in
  let steps := refresh_steps flags r worker name hasSession missing in
  CrewCmd.crun h (CrewCmd.runCrewRefresh flags name) w
  = (let '(res, w', tr) := until_stop h steps w4 in
     (res, w',
      tr0 ++ map CrewCmd.Base [CrewGet (Name r) name; HasSession key;
                               Stat mailDir] ++ tr)) /\
  steps
  = based
      ((if missing
        then [(MkdirAll mailDir 493, Wrapped "creating mail dir: ")] else [])
       ++ [(MailAppend mailDir (handoff flags (Name r) name),
            Wrapped "sending handoff mail: ");
           (Printf ("Sent handoff mail to " ++ Name r ++ "/" ++ name ++ nl),
            Ignored)]
       ++ (if hasSession
           then [(KillSession key, Wrapped "killing old session: ");
                 (Printf ("Killed old session " ++ key ++ nl), Ignored)]
           else [])
       ++ [(NewSession key (ClonePath worker), Wrapped "creating session: ");
           (SetEnvironment key "GT_RIG" (Name r), Ignored);
           (SetEnvironment key "GT_CREW" name, Ignored);
           (SendKeys key "claude", Wrapped "starting claude: ");
           (Printf (Crew.style_Render "âœ“" ++ " Refreshed crew workspace: "
                    ++ Name r ++ "/" ++ name ++ nl), Ignored);
           (Printf ("Attach with: "
                    ++ Crew.style_Render ("gt crew at " ++ name) ++ nl),
            Ignored)]) /\
  (forall res w' tr,
     CrewCmd.crun h (CrewCmd.runCrewRefresh flags name) w = (res, w', tr) ->
     (exists n,
        tr = tr0 ++ firstn n (refresh_calls flags r worker name hasSession
                                missing)) /\
     (res = None ->
      tr = tr0 ++ refresh_calls flags r worker name hasSession missing)) /\
  (To (handoff flags (Name r) name) = (Name r ++ "/" ++ name)%string /\
   From (handoff flags (Name r) name) = (Name r ++ "/" ++ name)%string) /\
  Body (handoff flags (Name r) name)
  = (if String.eqb (CrewCmd.crewMessage flags) ""
     then ("Context refresh for " ++ name
           ++ ". Check mail and beads for current work state.")%string
     else CrewCmd.crewMessage flags).
Proof.
  intros key mailDir hasSession w3 missing w4 steps.
  pose proof (Refresh_runs h flags name r worker w w1 w2 tr0 Hmgr Hworker)
    as Hrun.
  cbv zeta in Hrun. fold key mailDir hasSession w3 missing w4 steps in Hrun.
  split; [exact Hrun |]. split; [reflexivity |].
  split; [| repeat split].
  intros res w' tr H. rewrite Hrun in H.
  destruct (until_stop h steps w4) as [[res1 v1] tr1] eqn:E.
  injection H as <- <- <-.
  destruct (until_stop_trace h steps w4 v1 res1 tr1 E) as [(n & Hn) Hall].
  unfold refresh_calls. fold key mailDir steps.
  split.
  - exists (3 + n)%nat. rewrite Hn. reflexivity.
  - intros Hr. rewrite (Hall Hr). reflexivity.
Qed.

Lemma C9_crew_refresh_witness :
  (let '(res, e, tr) :=
     CrewCmd.crun Town.handle
       (CrewCmd.runCrewRefresh
          (CrewCmd.mkFlags "gastown" false false false false "") "max")
       town_gastown in
   res = None /\
   Env.sessions (Town.base e) = ["gt-gastown-crew-max"] /\
   Env.mailboxes (Town.base e)
   = [("/town/gastown/crew/max/mail",
       mkMessage "gastown/max" "gastown/max" "ðŸ¤ HANDOFF: Context Refresh"
         ("Context refresh for max."
          ++ " Check mail and beads for current work state."))] /\
   map (fun c => match c with
                 | CrewCmd.Base (Printf _) => CrewCmd.Base (Printf "")
                 | _ => c
                 end) tr
   = [CrewCmd.FindFromCwdOrError;
      CrewCmd.LoadRigsConfig "/town/config/rigs.json";
      CrewCmd.GetRig "/town" (CrewCmd.mkRigsConfig []) "gastown"]
     ++ map CrewCmd.Base
          [CrewGet "gastown" "max";
           HasSession "gt-gastown-crew-max";
           Stat "/town/gastown/crew/max/mail";
           MailAppend "/town/gastown/crew/max/mail"
             (handoff (CrewCmd.mkFlags "gastown" false false false false "")
                "gastown" "max");
           Printf "";
           KillSession "gt-gastown-crew-max"; Printf "";
           NewSession "gt-gastown-crew-max" "/town/gastown/crew/max";
           SetEnvironment "gt-gastown-crew-max" "GT_RIG" "gastown";
           SetEnvironment "gt-gastown-crew-max" "GT_CREW" "max";
           SendKeys "gt-gastown-crew-max" "claude"; Printf ""; Printf ""]) /\
  (let '(res, e, tr) :=
     CrewCmd.crun Town.handle
       (CrewCmd.runCrewRefresh
          (CrewCmd.mkFlags "gastown" false false false false "back at noon")
          "max")
       town_idle in
   res = None /\
   Env.sessions (Town.base e) = ["gt-gastown-crew-max"] /\
   Env.environment (Town.base e)
   = [("gt-gastown-crew-max", "GT_RIG", "gastown");
      ("gt-gastown-crew-max", "GT_CREW", "max")] /\
   Env.mailboxes (Town.base e)
   = [("/town/gastown/crew/max/mail",
       mkMessage "gastown/max" "gastown/max" "ðŸ¤ HANDOFF: Context Refresh"
         "back at noon")] /\
   map (fun c => match c with
                 | CrewCmd.Base (Printf _) => CrewCmd.Base (Printf "")
                 | _ => c
                 end) tr
   = [CrewCmd.FindFromCwdOrError;
      CrewCmd.LoadRigsConfig "/town/config/rigs.json";
      CrewCmd.GetRig "/town" (CrewCmd.mkRigsConfig []) "gastown"]
     ++ map CrewCmd.Base
          [CrewGet "gastown" "max";
           HasSession "gt-gastown-crew-max";
           Stat "/town/gastown/crew/max/mail";
           MkdirAll "/town/gastown/crew/max/mail" 493;
           MailAppend "/town/gastown/crew/max/mail"
             (mkMessage "gastown/max" "gastown/max"
                "ðŸ¤ HANDOFF: Context Refresh" "back at noon");
           Printf "";
           NewSession "gt-gastown-crew-max" "/town/gastown/crew/max";
           SetEnvironment "gt-gastown-crew-max" "GT_RIG" "gastown";
           SetEnvironment "gt-gastown-crew-max" "GT_CREW" "max";
           SendKeys "gt-gastown-crew-max" "claude"; Printf ""; Printf ""]) /\
  (let '(res, e, tr) :=
     CrewCmd.crun Town.handle
       (CrewCmd.runCrewRefresh
          (CrewCmd.mkFlags "gastown" false false false false "") "max")
       town_unkillable in
   res = Some (Errorf "killing old session: " kill_failed "") /\
   Env.sessions (Town.base e) = ["gt-gastown-crew-max"] /\
   Env.environment (Town.base e) = [] /\
   length (Env.mailboxes (Town.base e)) = 1%nat /\
   last tr CrewCmd.FindFromCwdOrError
   = CrewCmd.Base (KillSession "gt-gastown-crew-max")).
Proof.
  split; [| split].
  - rewrite (proj1 (C9_crew_refresh Town.handle
                      (CrewCmd.mkFlags "gastown" false false false false "")
                      "max" rig_gastown worker_max town_gastown town_gastown
                      town_gastown
                      [CrewCmd.FindFromCwdOrError;
                       CrewCmd.LoadRigsConfig "/town/config/rigs.json";
                       CrewCmd.GetRig "/town" (CrewCmd.mkRigsConfig [])
                         "gastown"]
                      eq_refl eq_refl)).
    vm_compute. repeat split.
  - rewrite (proj1 (C9_crew_refresh Town.handle
                      (CrewCmd.mkFlags "gastown" false false false false
                         "back at noon")
                      "max" rig_gastown worker_max town_idle town_idle
                      town_idle
                      [CrewCmd.FindFromCwdOrError;
                       CrewCmd.LoadRigsConfig "/town/config/rigs.json";
                       CrewCmd.GetRig "/town" (CrewCmd.mkRigsConfig [])
                         "gastown"]
                      eq_refl eq_refl)).
    vm_compute. repeat split.
  - rewrite (proj1 (C9_crew_refresh Town.handle
                      (CrewCmd.mkFlags "gastown" false false false false "")
                      "max" rig_gastown worker_max town_unkillable
                      town_unkillable town_unkillable
                      [CrewCmd.FindFromCwdOrError;
                       CrewCmd.LoadRigsConfig "/town/config/rigs.json";
                       CrewCmd.GetRig "/town" (CrewCmd.mkRigsConfig [])
                         "gastown"]
                      eq_refl eq_refl)).
    vm_compute. repeat split.
Defined.

(** * Further properties of the code *)

(** ** Polecat sessions in the in-memory Registry *)

Lemma mem_In (k : string) (l : list string) : Env.mem k l = true -> In k l.
Proof.
  unfold Env.mem. rewrite existsb_exists. intros (x & Hin & Heq).
  apply String.eqb_eq in Heq. now subst x.
Qed.

Lemma mem_remove (k : string) (l : list string) :
  Env.mem k (Env.remove k l) = false.
Proof.
  unfold Env.mem, Env.remove. induction l as [| x l IH]; simpl; [reflexivity |].
  destruct (String.eqb k x) eqn:E; simpl; [exact IH |].
  rewrite E. exact IH.
Qed.

Lemma remove_not_mem (k : string) (l : list string) :
  Env.mem k l = false -> Env.remove k l = l.
Proof.
  unfold Env.mem, Env.remove. induction l as [| x l IH]; simpl; [reflexivity |].
  destruct (String.eqb k x); simpl; [discriminate |].
  intros H. now rewrite IH.
Qed.

(** No call changes the injected faults. *)
Lemma handle_faults (c : call) (e : Env.World) :
  Env.faults (snd (Env.handle c e)) = Env.faults e.
Proof.
  unfold Env.handle.
  destruct (Env.faults e c) as [err |].
  - destruct c; reflexivity.
  - destruct c; simpl; unfold Env.on_session;
      repeat match goal with
             | |- context [if ?b then _ else _] => destruct b
             | |- context [match ?x with Some _ => _ | None => _ end] =>
                 destruct x
             end; reflexivity.
Qed.

Lemma exec_faults (cs : list call) (e : Env.World) :
  Env.faults (exec Env.handle cs e) = Env.faults e.
Proof.
  revert e; induction cs as [| c cs IH]; intros e; simpl; [reflexivity |].
  rewrite IH. apply handle_faults.
Qed.

Lemma run_faults {A : Type} (p : prog A) (e : Env.World) :
  Env.faults (snd (fst (run Env.handle p e))) = Env.faults e.
Proof. rewrite run_exec. apply exec_faults. Qed.

Opaque Session.Inject.

(** A [Start] that made more than three calls has seen the directory, was
    told that no session exists, and has created the session. *)
Lemma Start_past_creation {W : Type} (h : forall c : call, W -> resp c * W)
  (m : Session.Manager) (polecat : string) (opts : Session.StartOptions)
  (w w' : W) (r : result) (tr : list call) :
  run h (Session.Start m polecat opts) w = (r, w', tr) ->
  (3 < length tr)%nat ->
  exists info w1 w2 w3,
    h (Stat (Session.polecatDir m polecat)) w = ((info, None), w1) /\
    IsDir info = true /\
    h (HasSession (Session.sessionName m polecat)) w1 = ((false, None), w2) /\
    h (NewSession (Session.sessionName m polecat) (workDirOf m polecat opts)) w2
    = (None, w3).
Proof.
  intros H Hlen.
  unfold Session.Start, Session.hasPolecat, perform in H. simpl in H.
  fold (workDirOf m polecat opts) in H.
  step H as [[info [e |]] w0] by E.
  { finish H. simpl in Hlen. lia. }
  destruct (IsDir info) eqn:Hdir; simpl in H.
  2: { finish H. simpl in Hlen. lia. }
  step H as [[running [e |]] w1] by E0.
  { finish H. simpl in Hlen. lia. }
  destruct running; simpl in H.
  { finish H. simpl in Hlen. lia. }
  step H as [[e |] w2] by E1.
  { finish H. simpl in Hlen. lia. }
  exists info, w0, w1, w2. repeat split; assumption || reflexivity.
Qed.

Transparent Session.Inject.

(** The calls of a [Start], whatever it returns, neither end a session nor
    write to the disk. *)
Lemma Start_calm {W : Type} (h : forall c : call, W -> resp c * W)
  (m : Session.Manager) (polecat : string) (opts : Session.StartOptions)
  (w w' : W) (r : result) (tr : list call) :
  run h (Session.Start m polecat opts) w = (r, w', tr) ->
  Forall (fun c => Env.calm c = true) tr.
Proof.
  intros H.
  destruct (Start_runs h m polecat opts w w' r tr H)
    as [(_ & _ & _ & Htr) | (_ & _ & n & -> & _)].
  - destruct (String.eqb (Session.Issue opts) "").
    + destruct Htr as [-> _]. repeat constructor.
    + destruct Htr as [-> _]. cbv zeta.
      pose proof (Inject_trace h m polecat
                    ("Work on issue: " ++ Session.Issue opts)
                    (exec h (launch m polecat opts ++ [Sleep 500]) w))
        as Hinj.
      cbv zeta in Hinj.
      apply Forall_app. split; [repeat constructor |].
      constructor; [reflexivity |].
      destruct Hinj as [-> | ->]; repeat constructor.
  - rewrite Forall_forall. intros c Hin. apply In_firstn in Hin.
    simpl in Hin.
    repeat (destruct Hin as [<- | Hin]; [reflexivity |]). elim Hin.
Qed.

(** In the in-memory Registry a session that [Start] created is live when
    [Start] returns, and the Registry answers for it. *)
Lemma Start_leaves_session (m : Session.Manager) (polecat : string)
  (opts : Session.StartOptions) (e e1 : Env.World) (r : result)
  (tr : list call) :
  run Env.handle (Session.Start m polecat opts) e = (r, e1, tr) ->
  (3 < length tr)%nat ->
  Env.handle (HasSession (Session.sessionName m polecat)) e1
  = ((true, None), e1).
Proof.
  intros Hrun Hlen.
  pose proof (run_exec Env.handle (Session.Start m polecat opts) e) as Hex.
  rewrite Hrun in Hex. simpl in Hex.
  pose proof (Start_calm Env.handle m polecat opts e e1 r tr Hrun) as Hcalm.
  destruct (Start_past_creation Env.handle m polecat opts e e1 r tr Hrun Hlen)
    as (info & w1 & w2 & w3 & E & Hdir & E0 & E1).
  set (key := Session.sessionName m polecat) in *.
  assert (Hsplit : tr = firstn 3 tr ++ skipn 3 tr)
    by (symmetry; apply firstn_skipn).
  assert (Hfirst : firstn 3 tr = firstn 3 (launch m polecat opts)).
  { destruct (Start_runs Env.handle m polecat opts e e1 r tr Hrun)
      as [(_ & _ & _ & Htr) | (_ & _ & n & Hn & _)].
    - destruct (String.eqb (Session.Issue opts) "");
        destruct Htr as [-> _]; reflexivity.
    - rewrite Hn in Hlen |- *. rewrite length_firstn in Hlen.
      destruct n as [| [| [| [| n]]]]; simpl in Hlen; try lia. reflexivity. }
  assert (Hw3 : exec Env.handle (firstn 3 tr) e = w3).
  { rewrite Hfirst. simpl. fold key. rewrite E; simpl. rewrite E0; simpl.
    rewrite E1. reflexivity. }
  assert (Hcalm' : Forall (fun c => Env.calm c = true) (skipn 3 tr)).
  { rewrite Hsplit in Hcalm. apply Forall_app in Hcalm. apply Hcalm. }
  assert (He1 : e1 = exec Env.handle (skipn 3 tr) w3).
  { rewrite Hex. rewrite Hsplit at 1. rewrite exec_app, Hw3. reflexivity. }
  destruct (EnvFacts.exec_calm (skipn 3 tr) w3 Hcalm') as [_ Hkeep].
  rewrite <- He1 in Hkeep.
  pose proof (EnvFacts.NewSession_ok _ _ _ _ E1) as Hlive.
  apply Hkeep in Hlive.
  destruct (EnvFacts.HasSession_answer _ _ _ _ E0) as (Hf & _ & _).
  assert (Hw1 : Env.faults w1 = Env.faults e).
  { pose proof (handle_faults (Stat (Session.polecatDir m polecat)) e) as D.
    rewrite E in D. exact D. }
  assert (Hfe : Env.faults e1 = Env.faults e).
  { rewrite Hex. apply exec_faults. }
  unfold Env.handle. rewrite Hfe, <- Hw1, Hf. simpl. rewrite Hlive.
  reflexivity.
Qed.

(** X1.  After a [Start] that returned [nil], [IsRunning] answers true, and
    [List] (when the listing does not fail) holds the polecat under its own
    name; this in the in-memory Registry, whatever faults are injected. *)
Theorem Start_then_IsRunning_and_List
  (m : Session.Manager) (polecat : string) (opts : Session.StartOptions)
  (e e1 : Env.World) (tr : list call)
  (Hstart : run Env.handle (Session.Start m polecat opts) e = (None, e1, tr)) :
  run Env.handle (Session.IsRunning m polecat) e1
  = ((true, None), e1, [HasSession (Session.sessionName m polecat)]) /\
  (Env.faults e ListSessions = None ->
   exists infos,
     run Env.handle (Session.List m) e1 = ((infos, None), e1, [ListSessions]) /\
     In (Session.mkInfo polecat (Session.sessionName m polecat) true
           (Name (Session.rig m))) infos).
Proof.
  assert (Hlen : (3 < length tr)%nat).
  { destruct (Start_runs Env.handle m polecat opts e e1 None tr Hstart)
      as [(_ & _ & _ & Htr) | (Hn & _)]; [| now elim Hn].
    destruct (String.eqb (Session.Issue opts) "");
      destruct Htr as [-> _]; [simpl; lia |].
    rewrite length_app. simpl. lia. }
  pose proof (Start_leaves_session m polecat opts e e1 None tr Hstart Hlen)
    as Hhas.
  split.
  - unfold Session.IsRunning, perform. simpl. rewrite Hhas. reflexivity.
  - intros Hnf.
    assert (Hfe : Env.faults e1 = Env.faults e).
    { pose proof (run_faults (Session.Start m polecat opts) e) as F.
      rewrite Hstart in F. exact F. }
    exists (Session.List_loop m (rigPrefix m) (Env.sessions e1)).
    split.
    + unfold Session.List, perform. simpl. unfold Env.handle at 1.
      rewrite Hfe, Hnf. reflexivity.
    + apply List_loop_complete. apply mem_In.
      unfold Env.handle in Hhas.
      destruct (Env.faults e1 (HasSession (Session.sessionName m polecat)));
        simpl in Hhas; [discriminate Hhas |].
      injection Hhas as Hm. exact Hm.
Qed.

Lemma Start_then_IsRunning_and_List_witness :
  run Env.handle (Session.IsRunning (Session.mkManager rig_gastown) "joe")
    (snd (fst (run Env.handle
                 (Session.Start (Session.mkManager rig_gastown) "joe" no_opts)
                 world_joe_idle)))
  = ((true, None),
     snd (fst (run Env.handle
                 (Session.Start (Session.mkManager rig_gastown) "joe" no_opts)
                 world_joe_idle)),
     [HasSession "gt-gastown-joe"]).
Proof.
  refine (proj1 (Start_then_IsRunning_and_List (Session.mkManager rig_gastown)
                   "joe" no_opts world_joe_idle _
                   (snd (run Env.handle
                           (Session.Start (Session.mkManager rig_gastown)
                              "joe" no_opts) world_joe_idle)) _)).
  vm_compute. reflexivity.
Defined.

(** X2.  [Start] does not roll back: in no environment does it kill a
    session, and when it fails at sending the launch command the session it
    has just created stays live (in the in-memory Registry [IsRunning]
    answers true afterwards). *)
Theorem Start_does_not_roll_back
  {W : Type} (h : forall c : call, W -> resp c * W)
  (m : Session.Manager) (polecat : string) (opts : Session.StartOptions)
  (w w' : W) (r : result) (tr : list call)
  (e e1 : Env.World) (err : error) (trE : list call)
  (Hrun : run h (Session.Start m polecat opts) w = (r, w', tr))
  (Hfail : run Env.handle (Session.Start m polecat opts) e
           = (Some (Errorf "sending command: " err ""), e1, trE)) :
  (forall key, ~ In (KillSession key) tr) /\
  trE = launch m polecat opts /\
  run Env.handle (Session.IsRunning m polecat) e1
  = ((true, None), e1, [HasSession (Session.sessionName m polecat)]).
Proof.
  split.
  - intros key Hin.
    pose proof (Start_calm h m polecat opts w w' r tr Hrun) as Hcalm.
    rewrite Forall_forall in Hcalm. specialize (Hcalm _ Hin).
    discriminate Hcalm.
  - assert (Htr : trE = launch m polecat opts).
    { destruct (Start_runs Env.handle m polecat opts e e1 _ trE Hfail)
        as [(Hn & _) | (_ & _ & n & Hn & Hcase)]; [discriminate Hn |].
      destruct Hcase as [(_ & Hr) | [(_ & [Hr | (x & Hr)])
                                    | [(_ & x & Hr) | (-> & _)]]];
        try discriminate Hr.
      exact Hn. }
    split; [exact Htr |].
    assert (Hlen : (3 < length trE)%nat) by (rewrite Htr; simpl; lia).
    pose proof (Start_leaves_session m polecat opts e e1 _ trE Hfail Hlen)
      as Hhas.
    unfold Session.IsRunning, perform. simpl. rewrite Hhas. reflexivity.
Qed.

Lemma Start_does_not_roll_back_witness :
  Env.sessions
    (snd (fst (run Env.handle
                 (Session.Start (Session.mkManager rig_gastown) "joe" no_opts)
                 world_joe_mute)))
  = ["gt-gastown-joe"] /\
  fst (fst (run Env.handle
              (Session.IsRunning (Session.mkManager rig_gastown) "joe")
              (snd (fst (run Env.handle
                           (Session.Start (Session.mkManager rig_gastown)
                              "joe" no_opts) world_joe_mute)))))
  = (true, None).
Proof.
  split; [vm_compute; reflexivity |].
  pose proof (Start_does_not_roll_back Env.handle
                (Session.mkManager rig_gastown) "joe" no_opts
                world_joe_mute _ _ _ world_joe_mute _
                (ErrorString "send-keys failed") _ eq_refl eq_refl)
    as (_ & _ & Hrun).
  apply (f_equal (fun x => fst (fst x))) in Hrun.
  vm_compute in Hrun |- *. exact Hrun.
Defined.

(** What a [Stop] that returned [nil] has done in the in-memory Registry. *)
Lemma Stop_ok_env (m : Session.Manager) (polecat : string) (force : bool)
  (e e1 : Env.World) (tr : list call) :
  run Env.handle (Session.Stop m polecat force) e = (None, e1, tr) ->
  Env.faults e (HasSession (Session.sessionName m polecat)) = None /\
  Env.faults e1 = Env.faults e /\
  Env.mem (Session.sessionName m polecat) (Env.sessions e1) = false.
Proof.
  intros Hrun.
  set (key := Session.sessionName m polecat) in *.
  pose proof (run_faults (Session.Stop m polecat force) e) as Hf.
  rewrite Hrun in Hf. simpl in Hf.
  destruct (Env.handle (HasSession key) e) as [[running herr] w1] eqn:E.
  destruct herr as [x |].
  { unfold Session.Stop, perform in Hrun. simpl in Hrun. fold key in Hrun.
    rewrite E in Hrun. simpl in Hrun. discriminate Hrun. }
  destruct running.
  2: { unfold Session.Stop, perform in Hrun. simpl in Hrun. fold key in Hrun.
       rewrite E in Hrun. simpl in Hrun. discriminate Hrun. }
  destruct (EnvFacts.HasSession_answer _ _ _ _ E) as (Hnf & _ & _).
  split; [exact Hnf |]. split; [exact Hf |].
  rewrite (Stop_runs Env.handle m polecat force e w1 E) in Hrun.
  fold key in Hrun.
  destruct (Env.handle (KillSession key)
              (exec Env.handle (courtesy key force) w1)) as [kerr w3] eqn:K.
  destruct kerr as [x |]; [discriminate Hrun |].
  injection Hrun as <- _.
  revert K. generalize (exec Env.handle (courtesy key force) w1). intros w2.
  unfold Env.handle.
  destruct (Env.faults w2 (KillSession key)); simpl;
    [intros K; discriminate K |].
  destruct (Env.mem key (Env.sessions w2)); intros K; [| discriminate K].
  injection K as <-. simpl. apply mem_remove.
Qed.

(** X3.  After a [Stop] that returned [nil], [IsRunning] answers false: the
    kill removed the session of the polecat from the in-memory Registry. *)
Theorem Stop_then_IsRunning
  (m : Session.Manager) (polecat : string) (force : bool)
  (e e1 : Env.World) (tr : list call)
  (Hstop : run Env.handle (Session.Stop m polecat force) e = (None, e1, tr)) :
  run Env.handle (Session.IsRunning m polecat) e1
  = ((false, None), e1, [HasSession (Session.sessionName m polecat)]).
Proof.
  destruct (Stop_ok_env m polecat force e e1 tr Hstop) as (Hnf & Hf & Hgone).
  unfold Session.IsRunning, perform. simpl. unfold Env.handle.
  rewrite Hf, Hnf. simpl. rewrite Hgone. reflexivity.
Qed.

Lemma Stop_then_IsRunning_witness :
  fst (fst (run Env.handle
              (Session.IsRunning (Session.mkManager rig_gastown) "joe")
              (snd (fst (run Env.handle
                           (Session.Stop (Session.mkManager rig_gastown)
                              "joe" false) world_joe_live)))))
  = (false, None).
Proof.
  rewrite (Stop_then_IsRunning (Session.mkManager rig_gastown) "joe" false
             world_joe_live _
             (snd (run Env.handle
                     (Session.Stop (Session.mkManager rig_gastown) "joe" false)
                     world_joe_live)));
    [reflexivity | vm_compute; reflexivity].
Defined.

(** ** StopAll in the in-memory Registry *)

Lemma In_mem (k : string) (l : list string) : In k l -> Env.mem k l = true.
Proof.
  unfold Env.mem. intros H. apply existsb_exists. exists k.
  split; [exact H | apply String.eqb_refl].
Qed.

Lemma courtesy_sessions (key : string) (force : bool) (e : Env.World) :
  Env.sessions (exec Env.handle (courtesy key force) e) = Env.sessions e.
Proof.
  destruct force; simpl; [reflexivity |].
  unfold Env.handle at 2.
  destruct (Env.faults e (SendKeysRaw key "C-c")); simpl.
  - unfold Env.handle. destruct (Env.faults e (Sleep 100)); reflexivity.
  - unfold Env.on_session. destruct (Env.mem key (Env.sessions e)); simpl;
      unfold Env.handle; destruct (Env.faults e (Sleep 100)); reflexivity.
Qed.

(** Without faults [Stop] removes the session of the polecat, if there is
    one, and no other. *)
Lemma Stop_env_sessions (m : Session.Manager) (polecat : string)
  (force : bool) (e : Env.World) :
  (forall c, Env.faults e c = None) ->
  Env.sessions (snd (fst (run Env.handle (Session.Stop m polecat force) e)))
  = Env.remove (Session.sessionName m polecat) (Env.sessions e).
Proof.
  intros Hnf. set (key := Session.sessionName m polecat).
  assert (E : Env.handle (HasSession key) e
              = ((Env.mem key (Env.sessions e), None), e)).
  { unfold Env.handle. rewrite Hnf. reflexivity. }
  destruct (Env.mem key (Env.sessions e)) eqn:Hmem.
  - rewrite (Stop_runs Env.handle m polecat force e e E). fold key.
    pose proof (courtesy_sessions key force e) as Hs.
    pose proof (exec_faults (courtesy key force) e) as Hf.
    revert Hs Hf. generalize (exec Env.handle (courtesy key force) e).
    intros w2 Hs Hf. unfold Env.handle. rewrite Hf, Hnf. simpl.
    rewrite Hs, Hmem. reflexivity.
  - unfold Session.Stop, perform. simpl. fold key. rewrite E. simpl.
    symmetry. apply remove_not_mem. exact Hmem.
Qed.

Lemma stop_each_env (m : Session.Manager) (force : bool)
  (infos : list Session.Info) (e : Env.World) :
  (forall c, Env.faults e c = None) ->
  Env.sessions (snd (fst (stop_each Env.handle m force infos e)))
  = fold_left (fun s k => Env.remove k s)
      (map (fun i => Session.sessionName m (Session.Polecat i)) infos)
      (Env.sessions e).
Proof.
  revert e; induction infos as [| i rest IH]; intros e Hnf;
    cbn [stop_each map fold_left]; [reflexivity |].
  pose proof (Stop_env_sessions m (Session.Polecat i) force e Hnf) as Hs.
  pose proof (run_faults (Session.Stop m (Session.Polecat i) force) e) as Hf.
  destruct (run Env.handle (Session.Stop m (Session.Polecat i) force) e)
    as [[r w1] t1].
  simpl in Hs, Hf.
  assert (Hnf1 : forall c, Env.faults w1 c = None)
    by (intros c; rewrite Hf; apply Hnf).
  specialize (IH w1 Hnf1).
  destruct (stop_each Env.handle m force rest w1) as [[rs w2] t2].
  simpl in *. rewrite IH, Hs. reflexivity.
Qed.

Lemma fold_remove (keys s : list string) :
  fold_left (fun s k => Env.remove k s) keys s
  = filter (fun x => negb (Env.mem x keys)) s.
Proof.
  revert s; induction keys as [| k keys IH]; intros s; simpl.
  - induction s as [| x s IHs]; simpl; [reflexivity | now rewrite <- IHs].
  - rewrite IH. unfold Env.remove.
    induction s as [| x s IHs]; simpl; [reflexivity |].
    rewrite (String.eqb_sym k x).
    destruct (String.eqb x k); simpl; [exact IHs |].
    destruct (Env.mem x keys); simpl; [exact IHs | now rewrite IHs].
Qed.

(** The keys that [List] reports are the prefixed keys of the listing, in
    its order; the key of a reported name is the reported key. *)
Lemma List_loop_keys (m : Session.Manager) (sessions : list string) :
  map Session.SessionID (Session.List_loop m (rigPrefix m) sessions)
  = filter (fun s => strings_HasPrefix s (rigPrefix m)) sessions /\
  map (fun i => Session.sessionName m (Session.Polecat i))
    (Session.List_loop m (rigPrefix m) sessions)
  = filter (fun s => strings_HasPrefix s (rigPrefix m)) sessions.
Proof.
  induction sessions as [| s rest [IH1 IH2]];
    cbn [Session.List_loop map filter]; [split; reflexivity |].
  destruct (strings_HasPrefix s (rigPrefix m)) eqn:Hp;
    cbn [negb map Session.SessionID Session.Polecat].
  - rewrite IH1, IH2. split; [reflexivity |]. f_equal.
    rewrite sessionName_prefix. unfold strings_TrimPrefix. rewrite Hp.
    symmetry. apply HasPrefix_split. exact Hp.
  - split; assumption.
Qed.

Lemma List_loop_none (m : Session.Manager) (sessions : list string) :
  Session.List_loop m (rigPrefix m)
    (filter (fun s => negb (strings_HasPrefix s (rigPrefix m))) sessions)
  = [].
Proof.
  induction sessions as [| s rest IH]; cbn [filter]; [reflexivity |].
  destruct (strings_HasPrefix s (rigPrefix m)) eqn:Hp; cbn [negb];
    [exact IH |].
  cbn [Session.List_loop]. rewrite Hp. exact IH.
Qed.

(** X4.  Without injected faults, [StopAll] ends exactly the sessions whose
    key carries the prefix [gt-rig-] (those of crew workers of the rig
    included) and leaves every other session of the Registry alone; a [List]
    after it is empty. *)
Theorem StopAll_ends_the_prefixed_sessions
  (m : Session.Manager) (force : bool) (e : Env.World)
  (Hnf : forall c, Env.faults e c = None) :
  let e1 := snd (fst (run Env.handle (Session.StopAll m force) e)) in
  Env.sessions e1
  = filter (fun s => negb (strings_HasPrefix s (rigPrefix m))) (Env.sessions e)
  /\ fst (fst (run Env.handle (Session.List m) e1)) = ([], None).
Proof.
  intros e1.
  assert (Hlist : Env.handle ListSessions e = ((Env.sessions e, None), e)).
  { unfold Env.handle. rewrite Hnf. reflexivity. }
  assert (Hs : Env.sessions e1
               = filter (fun s => negb (strings_HasPrefix s (rigPrefix m)))
                   (Env.sessions e)).
  { unfold e1.
    unfold Session.StopAll. rewrite run_bind.
    unfold Session.List, perform. cbn [bind run]. rewrite Hlist.
    cbn [bind run]. fold (rigPrefix m). rewrite StopAll_loop_runs.
    pose proof (stop_each_env m force
                  (Session.List_loop m (rigPrefix m) (Env.sessions e)) e Hnf)
      as Hse.
    destruct (stop_each Env.handle m force
                (Session.List_loop m (rigPrefix m) (Env.sessions e)) e)
      as [[rs w2] t2].
    cbn [fst snd] in Hse |- *. rewrite Hse.
    rewrite (proj2 (List_loop_keys m (Env.sessions e))).
    rewrite fold_remove. apply filter_ext_in. intros s Hin. f_equal.
    destruct (strings_HasPrefix s (rigPrefix m)) eqn:Hp.
    - apply In_mem. apply filter_In. split; assumption.
    - destruct (Env.mem s _) eqn:Hm; [| reflexivity].
      apply mem_In in Hm. apply filter_In in Hm. destruct Hm as [_ Hm].
      congruence. }
  split; [exact Hs |].
  assert (Hf : Env.faults e1 = Env.faults e)
    by (unfold e1; apply run_faults).
  unfold Session.List, perform. simpl. unfold Env.handle.
  rewrite Hf, Hnf. simpl. fold (rigPrefix m). rewrite Hs, List_loop_none.
  reflexivity.
Qed.

Lemma StopAll_ends_the_prefixed_sessions_witness :
  Env.sessions
    (snd (fst (run Env.handle (Session.StopAll (Session.mkManager rig_x) false)
                 world_mixed)))
  = ["gt-y-b"].
Proof.
  exact (proj1 (StopAll_ends_the_prefixed_sessions (Session.mkManager rig_x)
                  false world_mixed (fun c => eq_refl))).
Defined.

(** X5.  [List] reports the keys that carry the prefix of the rig in the
    order of the Registry's listing, one info for each listed occurrence, and
    the key derived from each reported name is the reported key. *)
Theorem List_keeps_the_listing_order
  {W : Type} (h : forall c : call, W -> resp c * W)
  (m : Session.Manager) (w w1 : W) (sessions : list string)
  (Hlist : h ListSessions w = ((sessions, None), w1)) :
  let infos := fst (fst (fst (run h (Session.List m) w))) in
  map Session.SessionID infos
  = filter (fun s => strings_HasPrefix s (rigPrefix m)) sessions /\
  map (fun i => Session.sessionName m (Session.Polecat i)) infos
  = map Session.SessionID infos /\
  (length infos <= length sessions)%nat.
Proof.
  intros infos.
  assert (Hinfos : infos = Session.List_loop m (rigPrefix m) sessions).
  { unfold infos, Session.List, perform. simpl. rewrite Hlist. reflexivity. }
  rewrite Hinfos.
  destruct (List_loop_keys m sessions) as [H1 H2].
  split; [exact H1 |]. split; [now rewrite H1, H2 |].
  rewrite <- (length_map Session.SessionID), H1. apply filter_length_le.
Qed.

Lemma List_keeps_the_listing_order_witness :
  map Session.SessionID
    (fst (fst (fst (run Env.handle (Session.List (Session.mkManager rig_x))
                      world_mixed))))
  = ["gt-x-a"; "gt-x-crew-c"].
Proof.
  exact (proj1 (List_keeps_the_listing_order Env.handle
                  (Session.mkManager rig_x) world_mixed world_mixed
                  ["gt-x-a"; "gt-y-b"; "gt-x-crew-c"] eq_refl)).
Defined.

(** ** Attach, Capture and Inject *)

(** X6.  [Attach], [Capture] and [Inject] first ask the Registry for the
    session and drive it only after the answer (true, nil): a failed check
    gives the wrapped error, a missing session [ErrSessionNotFound], and in
    both cases the check is the only call made. *)
Theorem drive_only_a_confirmed_session
  {W : Type} (h : forall c : call, W -> resp c * W)
  (m : Session.Manager) (polecat message : string) (lines : Z) (w : W) :
  let key := Session.sessionName m polecat in
  let running := fst (fst (h (HasSession key) w)) in
  let err := snd (fst (h (HasSession key) w)) in
  let refusal :=
    match err with
    | Some e => Some (Errorf "checking session: " e "")
    | None => Some ErrSessionNotFound
    end in
  (err = None /\ running = true ->
   snd (run h (Session.Attach m polecat) w)
   = [HasSession key; AttachSession key]
   /\ snd (run h (Session.Capture m polecat lines) w)
      = [HasSession key; CapturePane key lines]
   /\ snd (run h (Session.Inject m polecat message) w)
      = [HasSession key;
         SendKeysDebounced key message (Session.debounceMs (len message))]) /\
  (~ (err = None /\ running = true) ->
   run h (Session.Attach m polecat) w
   = (refusal, snd (h (HasSession key) w), [HasSession key]) /\
   run h (Session.Capture m polecat lines) w
   = (("", refusal), snd (h (HasSession key) w), [HasSession key]) /\
   run h (Session.Inject m polecat message) w
   = (refusal, snd (h (HasSession key) w), [HasSession key])).
Proof.
  intros key running err refusal.
  unfold Session.Attach, Session.Capture, Session.Inject, perform.
  fold key. simpl.
  subst refusal err running.
  destruct (h (HasSession key) w) as [[running [e |]] w1]; simpl.
  - split; [intros [H _]; discriminate H |]. intros _. repeat split.
  - destruct running; simpl.
    + split; [| intros H; elim H; now split].
      intros _.
      destruct (h (AttachSession key) w1) as [r1 v1].
      destruct (h (CapturePane key lines) w1) as [r2 v2].
      destruct (h (SendKeysDebounced key message
                     (Session.debounceMs (len message))) w1) as [r3 v3].
      repeat split.
    + split; [intros [_ H]; discriminate H |]. intros _. repeat split.
Qed.

Lemma drive_only_a_confirmed_session_witness :
  run Env.handle (Session.Attach (Session.mkManager rig_gastown) "joe")
    world_joe_idle
  = (Some ErrSessionNotFound, world_joe_idle, [HasSession "gt-gastown-joe"]) /\
  snd (run Env.handle (Session.Capture (Session.mkManager rig_gastown) "joe" 20)
         world_joe_live)
  = [HasSession "gt-gastown-joe"; CapturePane "gt-gastown-joe" 20].
Proof.
  split.
  - refine (proj1 (proj2 (drive_only_a_confirmed_session Env.handle
                            (Session.mkManager rig_gastown) "joe" "" 20
                            world_joe_idle) _)).
    intros [_ H]. discriminate H.
  - refine (proj1 (proj2 (proj1 (drive_only_a_confirmed_session Env.handle
                            (Session.mkManager rig_gastown) "joe" "" 20
                            world_joe_live) _))).
    split; reflexivity.
Defined.

(** X7.  The delay of [Inject] lies between 200 and 1500 ms; it is 200
    exactly for messages shorter than 1024 bytes, 1500 exactly from 13312
    bytes on, and below that every further 1024 bytes add 100 ms. *)
Theorem debounce_steps (n : Z) (Hn : 0 <= n < 2 ^ 63) :
  200 <= Session.debounceMs n <= 1500 /\
  (Session.debounceMs n = 200 <-> n < 1024) /\
  (Session.debounceMs n = 1500 <-> 13312 <= n) /\
  (n < 12288 -> Session.debounceMs (n + 1024) = Session.debounceMs n + 100).
Proof.
  assert (H63 : 12288 + 1024 < 2 ^ 63) by (vm_compute; reflexivity).
  rewrite (debounceMs_spec n Hn).
  pose proof (Z.div_mod n 1024 ltac:(lia)) as Hdm.
  pose proof (Z.mod_pos_bound n 1024 ltac:(lia)) as Hmod.
  assert (Hq : 0 <= n / 1024) by (apply Z.div_pos; lia).
  split; [lia |]. split; [| split].
  - split; intros H; [| assert (n / 1024 = 0) by (apply Z.div_small; lia)];
      lia.
  - split; intros H; lia.
  - intros Hlt. rewrite debounceMs_spec by lia.
    replace (n + 1024) with (n + 1 * 1024) by lia.
    rewrite Z.div_add by lia. lia.
Qed.

Lemma debounce_steps_witness :
  Session.debounceMs 13312 = 1500 /\ Session.debounceMs 1023 = 200.
Proof.
  assert (H1 : 0 <= 13312 < 2 ^ 63)
    by (vm_compute; split; [discriminate | reflexivity]).
  assert (H2 : 0 <= 1023 < 2 ^ 63)
    by (vm_compute; split; [discriminate | reflexivity]).
  split.
  - apply (proj1 (proj2 (proj2 (debounce_steps 13312 H1)))). lia.
  - apply (proj1 (proj2 (debounce_steps 1023 H2))). lia.
Defined.

(** ** The witness: state file, status and edge cases *)

Lemma Start_load_error {W : Type} (h : forall c : call, W -> resp c * W)
  (m : WitnessMgr.Manager) (w w1 : W) (x : error) (trl : list call) :
  run h (WitnessMgr.loadState m) w = (inr x, w1, trl) ->
  run h (WitnessMgr.Start m) w = (Some x, w1, trl) /\
  run h (WitnessMgr.Stop m) w = (Some x, w1, trl) /\
  run h (WitnessMgr.Status m) w = (inr x, w1, trl).
Proof.
  intros Hload.
  unfold WitnessMgr.Start, WitnessMgr.Stop, WitnessMgr.Status.
  rewrite !run_bind, Hload. simpl. rewrite app_nil_r. repeat split.
Qed.

Lemma Status_loaded {W : Type} (h : forall c : call, W -> resp c * W)
  (m : WitnessMgr.Manager) (w w1 : W) (wit : Witness) (trl : list call) :
  run h (WitnessMgr.loadState m) w = (inl wit, w1, trl) ->
  run h (WitnessMgr.Status m) w
  = (inl (mkWitness (RigName wit) (WState wit) (PID wit) (StartedAt wit)
            (Polecats (WitnessMgr.rig m))), w1, trl).
Proof.
  intros Hload. unfold WitnessMgr.Status.
  rewrite run_bind, Hload. simpl. rewrite app_nil_r. reflexivity.
Qed.

(** X8.  A state file that does not exist is read as the record of a
    stopped witness with pid 0: [Stop] answers [ErrNotRunning], [Status]
    reports stopped, and [Start] goes on to persist without probing any
    process.  Any other failure to read the file, and content that does not
    decode, is returned as it is by [Start], [Stop] and [Status], which then
    make no further call. *)
Theorem state_file_missing_or_unreadable
  {W : Type} (h : forall c : call, W -> resp c * W)
  (m : WitnessMgr.Manager) (w w1 : W) (data : document) (err : result)
  (Hread : h (ReadFile (WitnessMgr.stateFile m)) w = ((data, err), w1)) :
  let file := WitnessMgr.stateFile m in
  let fresh := mkWitness (Name (WitnessMgr.rig m)) StateStopped 0 None [] in
  (err = Some ErrNotExist ->
   run h (WitnessMgr.loadState m) w = (inl fresh, w1, [ReadFile file]) /\
   run h (WitnessMgr.Stop m) w = (Some ErrNotRunning, w1, [ReadFile file]) /\
   run h (WitnessMgr.Status m) w
   = (inl (mkWitness (Name (WitnessMgr.rig m)) StateStopped 0 None
             (Polecats (WitnessMgr.rig m))), w1, [ReadFile file]) /\
   run h (WitnessMgr.Start m) w
   = (let (now, w3) := h Now w1 in
      let (pid, w4) := h Getpid w3 in
      persist_outcome h m (started m fresh now pid) w4
        [ReadFile file; Now; Getpid])) /\
  (forall x,
     (err = Some x /\ x <> ErrNotExist) \/
     (err = None /\ data = DocMalformed x) ->
     run h (WitnessMgr.Start m) w = (Some x, w1, [ReadFile file]) /\
     run h (WitnessMgr.Stop m) w = (Some x, w1, [ReadFile file]) /\
     run h (WitnessMgr.Status m) w = (inr x, w1, [ReadFile file])).
Proof.
  intros file fresh. split.
  - intros ->.
    assert (Hload : run h (WitnessMgr.loadState m) w
                    = (inl fresh, w1, [ReadFile file])).
    { unfold WitnessMgr.loadState, perform. simpl. fold file.
      unfold file. rewrite Hread. reflexivity. }
    split; [exact Hload |]. split; [| split].
    + apply (Stop_not_running h m w w1 fresh _ Hload). discriminate.
    + exact (Status_loaded h m w w1 fresh _ Hload).
    + exact (Start_stopped h m w w1 fresh _ Hload eq_refl).
  - intros x Hx.
    apply Start_load_error.
    unfold WitnessMgr.loadState, perform. simpl. rewrite Hread.
    destruct Hx as [[-> Hne] | [-> ->]]; simpl; [| reflexivity].
    destruct x; try reflexivity. now elim Hne.
Qed.

Lemma state_file_missing_or_unreadable_witness :
  run Env.handle (WitnessMgr.Stop witness_gastown) (Env.empty 7)
  = (Some ErrNotRunning, Env.empty 7,
     [ReadFile "/town/gastown/.runtime/witness.json"]) /\
  fst (fst (run Env.handle (WitnessMgr.Status witness_gastown) (Env.empty 7)))
  = inl (mkWitness "gastown" StateStopped 0 None ["joe"]).
Proof.
  pose proof (state_file_missing_or_unreadable Env.handle witness_gastown
                (Env.empty 7) (Env.empty 7) (DocMalformed ErrNotExist)
                (Some ErrNotExist) eq_refl) as [H _].
  destruct (H eq_refl) as (_ & Hstop & Hstatus & _).
  split; [exact Hstop |]. rewrite Hstatus. reflexivity.
Defined.

(** X9.  [Status] only reads the state file: it probes no process and writes
    nothing, so it reports the persisted state, pid and start time as they
    are, even when the recorded pid is dead; of the record it replaces only
    the list of polecats, by the rig's. *)
Theorem Status_only_reads
  {W : Type} (h : forall c : call, W -> resp c * W)
  (m : WitnessMgr.Manager) (w w1 : W) (wit : Witness) (trl : list call)
  (Hload : run h (WitnessMgr.loadState m) w = (inl wit, w1, trl)) :
  run h (WitnessMgr.Status m) w
  = (inl (mkWitness (RigName wit) (WState wit) (PID wit) (StartedAt wit)
            (Polecats (WitnessMgr.rig m))), w1,
     [ReadFile (WitnessMgr.stateFile m)]) /\
  w1 = snd (h (ReadFile (WitnessMgr.stateFile m)) w).
Proof.
  destruct (loadState_trace h m w w1 _ trl Hload) as [-> Hw1].
  split; [exact (Status_loaded h m w w1 wit _ Hload) | exact Hw1].
Qed.

Lemma Status_only_reads_witness :
  run Env.handle (WitnessMgr.Status witness_gastown) world_stale_witness
  = (inl (mkWitness "gastown" StateRunning 99 (Some 5) ["joe"]),
     world_stale_witness, [ReadFile "/town/gastown/.runtime/witness.json"]).
Proof.
  exact (proj1 (Status_only_reads Env.handle witness_gastown
                  world_stale_witness world_stale_witness record_99
                  [ReadFile "/town/gastown/.runtime/witness.json"] eq_refl)).
Defined.

(** X10.  A record that says running with a pid that is zero or negative is
    never probed and never signalled: [Start] overrides it after reading the
    clock and its own process id only, and [Stop] persists the stopped record
    right after the read. *)
Theorem nonpositive_pid_is_never_probed
  {W : Type} (h : forall c : call, W -> resp c * W)
  (m : WitnessMgr.Manager) (w w1 : W) (wit : Witness) (trl : list call)
  (Hload : run h (WitnessMgr.loadState m) w = (inl wit, w1, trl))
  (Hstate : WState wit = StateRunning)
  (Hpid : PID wit <= 0) :
  run h (WitnessMgr.Start m) w
  = (let (now, w3) := h Now w1 in
     let (pid, w4) := h Getpid w3 in
     persist_outcome h m (started m wit now pid) w4
       ([ReadFile (WitnessMgr.stateFile m)] ++ [Now; Getpid])) /\
  run h (WitnessMgr.Stop m) w
  = persist_outcome h m (stopped wit) w1 [ReadFile (WitnessMgr.stateFile m)].
Proof.
  destruct (loadState_trace h m w w1 _ trl Hload) as [-> _].
  assert (Hgt : (PID wit >? 0) = false)
    by (destruct (Z.gtb_spec (PID wit) 0); [lia | reflexivity]).
  split.
  - refine (Start_running h m w w1 w1 wit _ [] false Hload Hstate _).
    unfold pid_probe. rewrite Hgt. reflexivity.
  - rewrite (Stop_running h m w w1 w1 wit _ [] Hload Hstate).
    + rewrite app_nil_r. reflexivity.
    + unfold interrupt. rewrite Hgt. reflexivity.
Qed.

Lemma nonpositive_pid_is_never_probed_witness :
  snd (run Env.handle (WitnessMgr.Stop witness_gastown) world_pid0_witness)
  = [ReadFile "/town/gastown/.runtime/witness.json";
     MkdirAll "/town/gastown/.runtime" 493;
     AtomicWriteJSON "/town/gastown/.runtime/witness.json"
       (mkWitness "gastown" StateStopped 0 None [])].
Proof.
  rewrite (proj2 (nonpositive_pid_is_never_probed Env.handle witness_gastown
                    world_pid0_witness world_pid0_witness
                    (mkWitness "gastown" StateRunning 0 None [])
                    [ReadFile "/town/gastown/.runtime/witness.json"]
                    eq_refl eq_refl ltac:(discriminate))).
  reflexivity.
Defined.

(** ** The witness in the in-memory environment *)

(** No call changes the own process id or the live processes; only [Sleep]
    moves the clock. *)
Lemma handle_process (c : call) (e : Env.World) :
  Env.self (snd (Env.handle c e)) = Env.self e /\
  Env.live (snd (Env.handle c e)) = Env.live e /\
  (match c with Sleep _ => True | _ =>
     Env.clock (snd (Env.handle c e)) = Env.clock e end).
Proof.
  unfold Env.handle.
  destruct (Env.faults e c) as [err |].
  - destruct c; simpl; repeat split.
  - destruct c; simpl; unfold Env.on_session;
      repeat match goal with
             | |- context [if ?b then _ else _] => destruct b
             | |- context [match ?x with Some _ => _ | None => _ end] =>
                 destruct x
             end; simpl; repeat split.
Qed.

Lemma run_process {A : Type} (p : prog A) (e : Env.World) :
  Env.self (snd (fst (run Env.handle p e))) = Env.self e /\
  Env.live (snd (fst (run Env.handle p e))) = Env.live e.
Proof.
  rewrite run_exec. generalize (snd (run Env.handle p e)). intros tr.
  revert e; induction tr as [| c tr IH]; intros e; simpl; [now split |].
  destruct (IH (snd (Env.handle c e))) as [-> ->].
  destruct (handle_process c e) as (Hs & Hl & _). now split.
Qed.

Lemma pid_probe_runs {W : Type} (h : forall c : call, W -> resp c * W)
  (pid : Z) (w w2 : W) (alive : bool) (trp : list call) :
  run h (pid_probe pid) w = (alive, w2, trp) ->
  trp = [] \/ trp = [FindProcess pid]
  \/ trp = [FindProcess pid; Signal pid SigNil].
Proof.
  unfold pid_probe, Util.ProcessExists, perform.
  destruct (pid >? 0); simpl.
  - destruct (h (FindProcess pid) w) as [[e |] v]; simpl.
    + intros H; injection H as <- <- <-. right; now left.
    + destruct (h (Signal pid SigNil) v) as [e2 v2]; simpl.
      intros H; injection H as <- <- <-. right; now right.
  - intros H; injection H as <- <- <-. now left.
Qed.

Lemma Now_Getpid_answer (e : Env.World) :
  Env.handle Now e = (Env.clock e, e) /\ Env.handle Getpid e = (Env.self e, e).
Proof.
  unfold Env.handle.
  destruct (Env.faults e Now), (Env.faults e Getpid); now split.
Qed.

(** A write that returned [nil] has put the record in the state file. *)
Lemma persist_ok_env (m : WitnessMgr.Manager) (rec : Witness)
  (v e1 : Env.World) (pre tr : list call) :
  persist_outcome Env.handle m rec v pre = (None, e1, tr) ->
  Env.lookup (WitnessMgr.stateFile m) (Env.files e1) = Some (DocWitness rec).
Proof.
  unfold persist_outcome.
  destruct (Env.handle (MkdirAll _ 493) v) as [[x |] v1]; [discriminate |].
  unfold Env.handle.
  destruct (Env.faults v1 (AtomicWriteJSON _ rec)); simpl;
    intros H; [discriminate H |].
  injection H as <- _. simpl. rewrite String.eqb_refl. reflexivity.
Qed.

(** What a [Start] that returned [nil] has persisted. *)
Lemma Start_ok_env (m : WitnessMgr.Manager) (e e1 : Env.World)
  (tr : list call) :
  run Env.handle (WitnessMgr.Start m) e = (None, e1, tr) ->
  exists name,
    Env.lookup (WitnessMgr.stateFile m) (Env.files e1)
    = Some (DocWitness
              (mkWitness name StateRunning (Env.self e) (Some (Env.clock e))
                 (Polecats (WitnessMgr.rig m)))).
Proof.
  intros Hstart.
  destruct (run Env.handle (WitnessMgr.loadState m) e) as [[ld w1] trl]
    eqn:Hload.
  destruct ld as [wit | x].
  2: { rewrite (proj1 (Start_load_error Env.handle m e w1 x trl Hload))
         in Hstart. discriminate Hstart. }
  destruct (loadState_trace Env.handle m e w1 _ trl Hload) as [_ Hw1].
  destruct (handle_process (ReadFile (WitnessMgr.stateFile m)) e)
    as (Hs1 & _ & Hc1).
  rewrite <- Hw1 in Hs1, Hc1.
  exists (RigName wit).
  assert (Hfin : forall wN pre,
             Env.self wN = Env.self e -> Env.clock wN = Env.clock e ->
             (let (now, w3) := Env.handle Now wN in
              let (pid, w4) := Env.handle Getpid w3 in
              persist_outcome Env.handle m (started m wit now pid) w4 pre)
             = (None, e1, tr) ->
             Env.lookup (WitnessMgr.stateFile m) (Env.files e1)
             = Some (DocWitness
                       (mkWitness (RigName wit) StateRunning (Env.self e)
                          (Some (Env.clock e))
                          (Polecats (WitnessMgr.rig m))))).
  { intros wN pre Hs Hc H.
    destruct (Now_Getpid_answer wN) as [En Eg]. rewrite En, Eg in H.
    apply persist_ok_env in H. rewrite H. unfold started.
    rewrite Hs, Hc. reflexivity. }
  destruct (WState wit) eqn:Hst.
  - rewrite (Start_stopped Env.handle m e w1 wit trl Hload Hst) in Hstart.
    exact (Hfin w1 _ Hs1 Hc1 Hstart).
  - destruct (run Env.handle (pid_probe (PID wit)) w1) as [[alive w2] trp]
      eqn:Hp.
    rewrite (Start_running Env.handle m e w1 w2 wit trl trp alive Hload Hst Hp)
      in Hstart.
    destruct alive; [discriminate Hstart |].
    pose proof (run_exec Env.handle (pid_probe (PID wit)) w1) as Hex.
    rewrite Hp in Hex. simpl in Hex.
    assert (Hw2 : Env.self w2 = Env.self w1 /\ Env.clock w2 = Env.clock w1).
    { rewrite Hex.
      destruct (pid_probe_runs Env.handle _ _ _ _ _ Hp) as [-> | [-> | ->]];
        simpl.
      - now split.
      - destruct (handle_process (FindProcess (PID wit)) w1) as (A & _ & B).
        now split.
      - destruct (handle_process (FindProcess (PID wit)) w1) as (A & _ & B).
        destruct (handle_process (Signal (PID wit) SigNil)
                    (snd (Env.handle (FindProcess (PID wit)) w1)))
          as (A' & _ & B').
        cbv beta iota in B, B'.
        split; [exact (eq_trans A' A) | exact (eq_trans B' B)]. }
    destruct Hw2 as [Hs2 Hc2].
    refine (Hfin w2 _ _ _ Hstart); congruence.
Qed.

(** X11.  When the process that started the witness stops it, nobody is
    signalled: [Stop] finds its own pid in the record and goes on to persist.
    If that [Stop] returns [nil], the state file holds the stopped record with
    pid 0, which still carries the start time and the polecats that [Start]
    recorded. *)
Theorem Stop_after_own_Start
  (m : WitnessMgr.Manager) (e e1 : Env.World) (tr : list call)
  (Hstart : run Env.handle (WitnessMgr.Start m) e = (None, e1, tr))
  (Hread : Env.faults e (ReadFile (WitnessMgr.stateFile m)) = None) :
  let '(r2, e2, tr2) := run Env.handle (WitnessMgr.Stop m) e1 in
  (forall pid sig, ~ In (Signal pid sig) tr2) /\
  (forall pid, ~ In (FindProcess pid) tr2) /\
  (r2 = None ->
   exists name,
     Env.lookup (WitnessMgr.stateFile m) (Env.files e2)
     = Some (DocWitness
               (mkWitness name StateStopped 0 (Some (Env.clock e))
                  (Polecats (WitnessMgr.rig m))))).
Proof.
  destruct (Start_ok_env m e e1 tr Hstart) as (name & Hfile).
  set (rec := mkWitness name StateRunning (Env.self e) (Some (Env.clock e))
                (Polecats (WitnessMgr.rig m))) in *.
  pose proof (run_faults (WitnessMgr.Start m) e) as Hf.
  destruct (run_process (WitnessMgr.Start m) e) as [Hself _].
  rewrite Hstart in Hf, Hself. simpl in Hf, Hself.
  assert (Hload : run Env.handle (WitnessMgr.loadState m) e1
                  = (inl rec, e1, [ReadFile (WitnessMgr.stateFile m)])).
  { unfold WitnessMgr.loadState, perform. simpl. unfold Env.handle.
    rewrite Hf, Hread. simpl. rewrite Hfile. reflexivity. }
  assert (Hint : exists trs,
             run Env.handle (interrupt (PID rec)) e1 = (tt, e1, trs) /\
             (trs = [] \/ trs = [Getpid])).
  { unfold interrupt, perform. simpl.
    destruct (Env.self e >? 0); simpl; [| exists []; split; auto].
    destruct (Now_Getpid_answer e1) as [_ ->]. simpl.
    rewrite Hself, Z.eqb_refl. simpl. exists [Getpid]. split; auto. }
  destruct Hint as (trs & Hint & Htrs).
  rewrite (Stop_running Env.handle m e1 e1 e1 rec _ trs Hload eq_refl Hint).
  destruct (persist_outcome Env.handle m (stopped rec) e1
              ([ReadFile (WitnessMgr.stateFile m)] ++ trs))
    as [[r2 e2] tr2] eqn:Hp.
  assert (Htr2 : incl tr2
                   ([ReadFile (WitnessMgr.stateFile m); Getpid]
                    ++ [MkdirAll (filepath_Dir (WitnessMgr.stateFile m)) 493;
                        AtomicWriteJSON (WitnessMgr.stateFile m)
                          (stopped rec)])).
  { revert Hp. unfold persist_outcome.
    destruct (Env.handle (MkdirAll _ 493) e1) as [[x |] v1];
      [| destruct (Env.handle (AtomicWriteJSON _ (stopped rec)) v1)
           as [x v2]];
      intros H; injection H as _ _ <-; destruct Htrs as [-> | ->];
      intros c Hc; simpl in Hc |- *; tauto. }
  split; [| split].
  - intros pid sig Hin. apply Htr2 in Hin. simpl in Hin.
    repeat (destruct Hin as [Hin | Hin]; [discriminate Hin |]). exact Hin.
  - intros pid Hin. apply Htr2 in Hin. simpl in Hin.
    repeat (destruct Hin as [Hin | Hin]; [discriminate Hin |]). exact Hin.
  - intros ->. exists name. apply persist_ok_env in Hp. exact Hp.
Qed.

Lemma Stop_after_own_Start_witness :
  run Env.handle (WitnessMgr.Stop witness_gastown)
    (snd (fst (run Env.handle (WitnessMgr.Start witness_gastown)
                 world_stale_witness)))
  = (None,
     Env.set_files
       (snd (fst (run Env.handle (WitnessMgr.Start witness_gastown)
                    world_stale_witness)))
       [("/town/gastown/.runtime/witness.json",
         DocWitness (mkWitness "gastown" StateStopped 0 (Some 20) ["joe"]));
        ("/town/gastown/.runtime/witness.json",
         DocWitness (mkWitness "gastown" StateRunning 7 (Some 20) ["joe"]));
        ("/town/gastown/.runtime/witness.json", DocWitness record_99)],
     [ReadFile "/town/gastown/.runtime/witness.json"; Getpid;
      MkdirAll "/town/gastown/.runtime" 493;
      AtomicWriteJSON "/town/gastown/.runtime/witness.json"
        (mkWitness "gastown" StateStopped 0 (Some 20) ["joe"])]).
Proof.
  pose proof (Stop_after_own_Start witness_gastown world_stale_witness
                (snd (fst (run Env.handle (WitnessMgr.Start witness_gastown)
                             world_stale_witness)))
                (snd (run Env.handle (WitnessMgr.Start witness_gastown)
                        world_stale_witness))
                eq_refl eq_refl) as H.
  vm_compute in H |- *. reflexivity.
Defined.

(** X12.  A second [Start] is not rejected.  The in-memory environment
    refuses the nil signal, as Go's [os] does; there a second [Start] by the
    process whose first [Start] returned [nil] reads the record of the first,
    probes its own pid, is answered false and persists again, over the record
    that names it: it returns what the write returns, and [nil] means the
    state file holds the record with the time of the second [Start]. *)
Theorem second_Start_is_not_rejected
  (m : WitnessMgr.Manager) (e e1 : Env.World) (tr : list call)
  (Hstart : run Env.handle (WitnessMgr.Start m) e = (None, e1, tr))
  (Hread : Env.faults e (ReadFile (WitnessMgr.stateFile m)) = None)
  (Hpos : 0 < Env.self e)
  (Hfind : Env.faults e (FindProcess (Env.self e)) = None) :
  exists name,
    Env.lookup (WitnessMgr.stateFile m) (Env.files e1)
    = Some (DocWitness
              (mkWitness name StateRunning (Env.self e) (Some (Env.clock e))
                 (Polecats (WitnessMgr.rig m)))) /\
    run Env.handle (WitnessMgr.Start m) e1
    = persist_outcome Env.handle m
        (mkWitness name StateRunning (Env.self e) (Some (Env.clock e1))
           (Polecats (WitnessMgr.rig m)))
        e1
        [ReadFile (WitnessMgr.stateFile m); FindProcess (Env.self e);
         Signal (Env.self e) SigNil; Now; Getpid] /\
    forall e2 tr2,
      run Env.handle (WitnessMgr.Start m) e1 = (None, e2, tr2) ->
      Env.lookup (WitnessMgr.stateFile m) (Env.files e2)
      = Some (DocWitness
                (mkWitness name StateRunning (Env.self e) (Some (Env.clock e1))
                   (Polecats (WitnessMgr.rig m)))).
Proof.
  destruct (Start_ok_env m e e1 tr Hstart) as (name & Hfile).
  exists name. split; [exact Hfile |].
  set (rec := mkWitness name StateRunning (Env.self e) (Some (Env.clock e))
                (Polecats (WitnessMgr.rig m))) in *.
  pose proof (run_faults (WitnessMgr.Start m) e) as Hf.
  destruct (run_process (WitnessMgr.Start m) e) as [Hself _].
  rewrite Hstart in Hf, Hself. simpl in Hf, Hself.
  assert (Hload : run Env.handle (WitnessMgr.loadState m) e1
                  = (inl rec, e1, [ReadFile (WitnessMgr.stateFile m)])).
  { unfold WitnessMgr.loadState, perform. simpl. unfold Env.handle.
    rewrite Hf, Hread. simpl. rewrite Hfile. reflexivity. }
  assert (Hprobe : run Env.handle (pid_probe (PID rec)) e1
                   = (false, e1, [FindProcess (Env.self e);
                                  Signal (Env.self e) SigNil])).
  { unfold pid_probe, Util.ProcessExists, perform. simpl.
    assert (Hgt : (Env.self e >? 0) = true)
      by (destruct (Z.gtb_spec (Env.self e) 0); [reflexivity | lia]).
    rewrite Hgt. simpl. unfold Env.handle. rewrite Hf, Hfind. simpl.
    destruct (Env.faults e1 (Signal (Env.self e) SigNil)); reflexivity. }
  assert (Hrun : run Env.handle (WitnessMgr.Start m) e1
                 = persist_outcome Env.handle m
                     (mkWitness name StateRunning (Env.self e)
                        (Some (Env.clock e1)) (Polecats (WitnessMgr.rig m)))
                     e1
                     [ReadFile (WitnessMgr.stateFile m);
                      FindProcess (Env.self e);
                      Signal (Env.self e) SigNil; Now; Getpid]).
  { rewrite (Start_running Env.handle m e1 e1 e1 rec _ _ false Hload eq_refl
               Hprobe).
    destruct (Now_Getpid_answer e1) as [-> ->].
    unfold started. rewrite Hself. reflexivity. }
  split; [exact Hrun |].
  intros e2 tr2 Hok. rewrite Hrun in Hok.
  exact (persist_ok_env m _ e1 e2 _ tr2 Hok).
Qed.

Lemma second_Start_is_not_rejected_witness :
  run Env.handle (WitnessMgr.Start witness_gastown)
    (snd (fst (run Env.handle (WitnessMgr.Start witness_gastown)
                 (Env.empty 7))))
  = (None,
     Env.set_files
       (snd (fst (run Env.handle (WitnessMgr.Start witness_gastown)
                    (Env.empty 7))))
       [("/town/gastown/.runtime/witness.json",
         DocWitness (mkWitness "gastown" StateRunning 7 (Some 0) ["joe"]));
        ("/town/gastown/.runtime/witness.json",
         DocWitness (mkWitness "gastown" StateRunning 7 (Some 0) ["joe"]))],
     [ReadFile "/town/gastown/.runtime/witness.json"; FindProcess 7;
      Signal 7 SigNil; Now; Getpid;
      MkdirAll "/town/gastown/.runtime" 493;
      AtomicWriteJSON "/town/gastown/.runtime/witness.json"
        (mkWitness "gastown" StateRunning 7 (Some 0) ["joe"])]).
Proof.
  destruct (second_Start_is_not_rejected witness_gastown (Env.empty 7)
              (snd (fst (run Env.handle (WitnessMgr.Start witness_gastown)
                           (Env.empty 7))))
              (snd (run Env.handle (WitnessMgr.Start witness_gastown)
                      (Env.empty 7)))
              eq_refl eq_refl eq_refl eq_refl) as (name & Hfile & Hrun & _).
  vm_compute in Hfile. injection Hfile as <-.
  rewrite Hrun. reflexivity.
Defined.

(** ** Bead identifiers *)

Lemma Split_nonempty (s : string) (sep : ascii) : strings_Split s sep <> [].
Proof.
  destruct s as [| c s]; simpl; [discriminate |].
  destruct (Ascii.eqb c sep); [discriminate |].
  destruct (strings_Split s sep); discriminate.
Qed.

Lemma concat_cons (sep x : string) (l : list string) :
  l <> [] ->
  String.concat sep (x :: l) = (x ++ sep ++ String.concat sep l)%string.
Proof. destruct l; [intros H; now elim H | reflexivity]. Qed.

(** Joining the pieces with the separator gives the string back. *)
Lemma Join_Split (s : string) (sep : ascii) :
  strings_Join (strings_Split s sep) (String sep EmptyString) = s.
Proof.
  unfold strings_Join. induction s as [| c s IH]; [reflexivity |].
  cbn [strings_Split].
  pose proof (Split_nonempty s sep) as Hne.
  destruct (Ascii.eqb c sep) eqn:Hc.
  - apply Ascii.eqb_eq in Hc. subst c.
    rewrite concat_cons by exact Hne. rewrite IH. reflexivity.
  - destruct (strings_Split s sep) as [| piece pieces]; [now elim Hne |].
    destruct pieces as [| p2 pieces].
    + cbn [String.concat] in IH |- *. now rewrite IH.
    + rewrite concat_cons in IH |- * by discriminate.
      rewrite <- IH. reflexivity.
Qed.

Lemma Split_free (s : string) (sep : ascii) :
  has_byte sep s = false -> strings_Split s sep = [s].
Proof.
  induction s as [| c s IH]; [reflexivity |].
  cbn [has_byte strings_Split]. intros H.
  apply orb_false_iff in H. destruct H as [Hc Hs].
  rewrite Hc, (IH Hs). reflexivity.
Qed.

Lemma Split_app (a b : string) (sep : ascii) :
  has_byte sep a = false ->
  strings_Split (a ++ String sep b) sep = a :: strings_Split b sep.
Proof.
  induction a as [| c a IH].
  - intros _. change ("" ++ String sep b)%string with (String sep b).
    cbn [strings_Split]. rewrite Ascii.eqb_refl. reflexivity.
  - cbn [has_byte]. intros H. apply orb_false_iff in H.
    destruct H as [Hc Ha].
    change (String c a ++ String sep b)%string
      with (String c (a ++ String sep b)).
    cbn [strings_Split]. rewrite Hc, (IH Ha). reflexivity.
Qed.

(** X13.  A bead identifier that starts with [gt-polecat-], [gt-witness-] or
    [gt-refinery-] is always recognised, whatever follows: the role is the
    one of the prefix, the rig is the text up to the next dash, and the actor
    of a polecat is everything after the prefix, unchanged. *)
Theorem prefixed_beads_are_recognised (rest : string) :
  Feed.parseBeadContext ("gt-polecat-" ++ rest)
  = (rest, hd "" (strings_Split rest "-"), "polecat") /\
  Feed.parseBeadContext ("gt-witness-" ++ rest)
  = ("witness", hd "" (strings_Split rest "-"), "witness") /\
  Feed.parseBeadContext ("gt-refinery-" ++ rest)
  = ("refinery", hd "" (strings_Split rest "-"), "refinery").
Proof.
  pose proof (Split_nonempty rest "-") as Hne.
  pose proof (Join_Split rest "-") as Hjoin.
  assert (Hp : strings_Split ("gt-polecat-" ++ rest) "-"
               = "gt" :: "polecat" :: strings_Split rest "-").
  { change ("gt-polecat-" ++ rest)%string
      with ("gt" ++ String "-" ("polecat" ++ String "-" rest))%string.
    rewrite !Split_app by reflexivity. reflexivity. }
  assert (Hw : strings_Split ("gt-witness-" ++ rest) "-"
               = "gt" :: "witness" :: strings_Split rest "-").
  { change ("gt-witness-" ++ rest)%string
      with ("gt" ++ String "-" ("witness" ++ String "-" rest))%string.
    rewrite !Split_app by reflexivity. reflexivity. }
  assert (Hr : strings_Split ("gt-refinery-" ++ rest) "-"
               = "gt" :: "refinery" :: strings_Split rest "-").
  { change ("gt-refinery-" ++ rest)%string
      with ("gt" ++ String "-" ("refinery" ++ String "-" rest))%string.
    rewrite !Split_app by reflexivity. reflexivity. }
  unfold Feed.parseBeadContext.
  split; [| split].
  - change (String.eqb ("gt-polecat-" ++ rest) "") with false.
    change (strings_HasPrefix ("gt-polecat-" ++ rest) "gt-crew-") with false.
    change (strings_HasPrefix ("gt-polecat-" ++ rest) "gt-witness-") with false.
    change (strings_HasPrefix ("gt-polecat-" ++ rest) "gt-refinery-")
      with false.
    change (String.eqb ("gt-polecat-" ++ rest) "gt-mayor") with false.
    change (String.eqb ("gt-polecat-" ++ rest) "gt-deacon") with false.
    cbv iota.
    replace (strings_HasPrefix ("gt-polecat-" ++ rest) "gt-polecat-")
      with true by (symmetry; apply prefix_append).
    cbv zeta. rewrite Hp.
    destruct (strings_Split rest "-") as [| p ps]; [now elim Hne |].
    cbn [length Nat.leb skipn nth hd]. rewrite Hjoin. reflexivity.
  - change (String.eqb ("gt-witness-" ++ rest) "") with false.
    change (strings_HasPrefix ("gt-witness-" ++ rest) "gt-crew-") with false.
    cbv iota.
    replace (strings_HasPrefix ("gt-witness-" ++ rest) "gt-witness-")
      with true by (symmetry; apply prefix_append).
    cbv zeta. rewrite Hw.
    destruct (strings_Split rest "-") as [| p ps]; [now elim Hne |].
    reflexivity.
  - change (String.eqb ("gt-refinery-" ++ rest) "") with false.
    change (strings_HasPrefix ("gt-refinery-" ++ rest) "gt-crew-") with false.
    change (strings_HasPrefix ("gt-refinery-" ++ rest) "gt-witness-")
      with false.
    cbv iota.
    replace (strings_HasPrefix ("gt-refinery-" ++ rest) "gt-refinery-")
      with true by (symmetry; apply prefix_append).
    cbv zeta. rewrite Hr.
    destruct (strings_Split rest "-") as [| p ps]; [now elim Hne |].
    reflexivity.
Qed.

(** X14.  A crew bead needs a name after the rig.  With a rig and a name that
    hold no dash, [gt-crew-rig-name] gives the actor [rig/name], the rig and
    the role crew; [gt-crew-rig] alone gives three empty strings. *)
Theorem crew_beads_need_a_name (rig name : string)
  (Hrig : has_byte "-" rig = false) (Hname : has_byte "-" name = false) :
  Feed.parseBeadContext ("gt-crew-" ++ rig ++ "-" ++ name)
  = ((rig ++ "/" ++ name)%string, rig, "crew") /\
  Feed.parseBeadContext ("gt-crew-" ++ rig) = ("", "", "").
Proof.
  assert (H2 : strings_Split ("gt-crew-" ++ rig ++ "-" ++ name) "-"
               = ["gt"; "crew"; rig; name]).
  { change ("gt-crew-" ++ rig ++ "-" ++ name)%string
      with ("gt" ++ String "-" ("crew" ++ String "-"
                                  (rig ++ String "-" name)))%string.
    rewrite !Split_app by (reflexivity || exact Hrig).
    rewrite (Split_free name "-" Hname). reflexivity. }
  assert (H1 : strings_Split ("gt-crew-" ++ rig) "-" = ["gt"; "crew"; rig]).
  { change ("gt-crew-" ++ rig)%string
      with ("gt" ++ String "-" ("crew" ++ String "-" rig))%string.
    rewrite !Split_app by reflexivity.
    rewrite (Split_free rig "-" Hrig). reflexivity. }
  unfold Feed.parseBeadContext. split.
  - change (String.eqb ("gt-crew-" ++ rig ++ "-" ++ name) "") with false.
    cbv iota.
    replace (strings_HasPrefix ("gt-crew-" ++ rig ++ "-" ++ name) "gt-crew-")
      with true by (symmetry; apply prefix_append).
    cbv zeta. rewrite H2. reflexivity.
  - change (String.eqb ("gt-crew-" ++ rig) "") with false. cbv iota.
    replace (strings_HasPrefix ("gt-crew-" ++ rig) "gt-crew-")
      with true by (symmetry; apply prefix_append).
    cbv zeta. rewrite H1. reflexivity.
Qed.

Lemma crew_beads_need_a_name_witness :
  Feed.parseBeadContext "gt-crew-gastown-joe"
  = ("gastown/joe", "gastown", "crew").
Proof.
  exact (proj1 (crew_beads_need_a_name "gastown" "joe" eq_refl eq_refl)).
Defined.

(** ** The crew commands *)

Lemma SplitList_empty (path : string) :
  CrewCmd.filepath_SplitList path = [] <-> path = "".
Proof.
  unfold CrewCmd.filepath_SplitList.
  destruct (String.eqb path "") eqn:E.
  - apply String.eqb_eq in E. now split.
  - split.
    + intros H. now elim (Split_nonempty path ":").
    + intros ->. discriminate E.
Qed.

(** X15.  [inferRigFromCwd] never names a rig: whatever the current
    directory and the workspace root are, it returns the empty name with an
    error.  The branch that would read the rig off the relative path is only
    entered when [filepath.SplitList] gives no part, which happens for the
    empty path alone. *)
Theorem inferRigFromCwd_never_names_a_rig
  {W : Type} (h : forall c : CrewCmd.ccall, W -> CrewCmd.cresp c * W)
  (townRoot : string) (w : W) :
  (exists e,
     fst (fst (CrewCmd.crun h (CrewCmd.inferRigFromCwd townRoot) w))
     = ("", Some e)) /\
  Forall (fun c => locating c = true)
    (snd (CrewCmd.crun h (CrewCmd.inferRigFromCwd townRoot) w)).
Proof.
  unfold CrewCmd.inferRigFromCwd, CrewCmd.cperform. simpl.
  destruct (h (CrewCmd.FilepathAbs ".") w) as [[cwd [e |]] w1]; simpl.
  { split; [now exists e | repeat constructor]. }
  destruct (h (CrewCmd.FilepathRel townRoot cwd) w1) as [[rel [e |]] w2]; simpl.
  { split; [eexists; reflexivity | repeat constructor]. }
  destruct (CrewCmd.filepath_SplitList rel) as [| part parts] eqn:Hparts;
    simpl.
  - apply SplitList_empty in Hparts. subst rel. simpl.
    split; [eexists; reflexivity | repeat constructor].
  - split; [eexists; reflexivity | repeat constructor].
Qed.

Opaque CrewCmd.inferRigFromCwd.

(** Without a rig name [getCrewManager] fails after locating calls only. *)
Lemma getCrewManager_without_rig
  {W : Type} (h : forall c : CrewCmd.ccall, W -> CrewCmd.cresp c * W) (w : W) :
  (exists e, fst (fst (CrewCmd.crun h (CrewCmd.getCrewManager "") w)) = inr e)
  /\ Forall (fun c => locating c = true)
       (snd (CrewCmd.crun h (CrewCmd.getCrewManager "") w)).
Proof.
  unfold CrewCmd.getCrewManager, CrewCmd.cperform. simpl.
  destruct (h CrewCmd.FindFromCwdOrError w) as [[town [e |]] w1]; simpl.
  { split; [eexists; reflexivity | repeat constructor]. }
  destruct (h (CrewCmd.LoadRigsConfig _) w1) as [[cfg cerr] w2]; simpl.
  rewrite crun_bind.
  destruct (inferRigFromCwd_never_names_a_rig h town w2) as [(e & He) Hloc].
  destruct (CrewCmd.crun h (CrewCmd.inferRigFromCwd town) w2)
    as [[[nm err] w3] t3].
  simpl in He, Hloc. injection He as -> ->. simpl.
  split; [eexists; reflexivity |].
  constructor; [reflexivity |]. constructor; [reflexivity |].
  rewrite app_nil_r. exact Hloc.
Qed.

Transparent CrewCmd.inferRigFromCwd.

(** X16.  Without the rig flag the crew commands cannot work: [getCrewManager]
    with an empty rig name always returns an error, and [runCrewAt] and
    [runCrewRemove] then return that error having made only locating calls:
    none to tmux, to the rig manager or to the crew manager. *)
Theorem crew_commands_need_the_rig_flag
  {W : Type} (h : forall c : CrewCmd.ccall, W -> CrewCmd.cresp c * W)
  (hasChanges : error -> bool) (flags : CrewCmd.Flags) (name : string) (w : W)
  (Hrig : CrewCmd.crewRig flags = "") :
  exists e,
    fst (fst (CrewCmd.crun h (CrewCmd.getCrewManager "") w)) = inr e /\
    fst (fst (CrewCmd.crun h (CrewCmd.runCrewAt flags name) w)) = Some e /\
    fst (fst (CrewCmd.crun h (CrewCmd.runCrewRemove hasChanges flags name) w))
    = Some e /\
    Forall (fun c => locating c = true)
      (snd (CrewCmd.crun h (CrewCmd.runCrewAt flags name) w)) /\
    Forall (fun c => locating c = true)
      (snd (CrewCmd.crun h (CrewCmd.runCrewRemove hasChanges flags name) w)).
Proof.
  destruct (getCrewManager_without_rig h w) as [(e & He) Hloc].
  exists e. split; [exact He |].
  unfold CrewCmd.runCrewAt, CrewCmd.runCrewRemove.
  rewrite !crun_bind, Hrig.
  destruct (CrewCmd.crun h (CrewCmd.getCrewManager "") w) as [[g w1] t1].
  simpl in He, Hloc. subst g. simpl. rewrite app_nil_r.
  repeat split; exact Hloc.
Qed.

Lemma crew_commands_need_the_rig_flag_witness :
  fst (fst (CrewCmd.crun Town.handle
              (CrewCmd.runCrewAt
                 (CrewCmd.mkFlags "" false false false false "") "max")
              town_gastown))
  = Some (Errorf "could not determine rig (use --rig flag): "
            CrewCmd.cannot_infer "").
Proof.
  destruct (crew_commands_need_the_rig_flag Town.handle (fun _ => false)
              (CrewCmd.mkFlags "" false false false false "") "max"
              town_gastown eq_refl) as (e & He & Hat & _).
  rewrite Hat. vm_compute in He. injection He as <-. reflexivity.
Defined.

Opaque CrewCmd.getCrewManager.

(** [runCrewAt] when its session check reports no session. *)
Lemma At_creates {W : Type}
  (h : forall c : CrewCmd.ccall, W -> CrewCmd.cresp c * W)
  (flags : CrewCmd.Flags) (name : string) (r : Rig) (worker : CrewWorker)
  (w w1 w2 w3 : W) (tr0 : list CrewCmd.ccall) :
  CrewCmd.crun h (CrewCmd.getCrewManager (CrewCmd.crewRig flags)) w
  = (inl r, w1, tr0) ->
  h (CrewCmd.Base (CrewGet (Name r) name)) w1 = ((worker, None), w2) ->
  CrewCmd.crewNoTmux flags = false ->
  h (CrewCmd.Base (HasSession (Crew.crewSessionName (Name r) name))) w2
  = ((false, None), w3) ->
  CrewCmd.crun h (CrewCmd.runCrewAt flags name) w
  = (let '(res, w', tr) := until_stop h (at_steps r worker name) w3 in
     (res, w',
      tr0 ++ map CrewCmd.Base
               [CrewGet (Name r) name;
                HasSession (Crew.crewSessionName (Name r) name)] ++ tr)).
Proof.
  intros Hmgr Hget Htmux Hhas.
  unfold CrewCmd.runCrewAt. rewrite crun_bind, Hmgr.
  unfold CrewCmd.cperform. cbn [CrewCmd.cbind CrewCmd.crun]. rewrite Hget.
  cbn [CrewCmd.cbind CrewCmd.crun]. rewrite Htmux.
  cbn [CrewCmd.cbind CrewCmd.crun]. rewrite Hhas.
  unfold at_steps, based.
  cbn [map app fst snd negb until_stop canswer_error answer_error
       CrewCmd.cbind CrewCmd.crun].
  repeat (answer h); reflexivity.
Qed.

(** X17.  [runCrewAt] never restarts what exists and creates what does not.
    With [--no-tmux] it only prints the path of the workspace and makes no
    call to tmux.  Otherwise, when tmux reports a session, the session is
    attached and nothing else is done to it.  When tmux reports none, the run
    is that of [at_steps]: the session is created, given [GT_RIG] and
    [GT_CREW] and the command [claude], and then attached, each call being
    made unless the creation or the launch before it failed; the outcome is
    then that of the attach.  A failed session check ends the command. *)
Theorem crew_at_attaches_what_exists
  {W : Type} (h : forall c : CrewCmd.ccall, W -> CrewCmd.cresp c * W)
  (flags : CrewCmd.Flags) (name : string) (r : Rig) (worker : CrewWorker)
  (w w1 w2 : W) (tr0 : list CrewCmd.ccall)
  (Hmgr : CrewCmd.crun h (CrewCmd.getCrewManager (CrewCmd.crewRig flags)) w
          = (inl r, w1, tr0))
  (Hget : h (CrewCmd.Base (CrewGet (Name r) name)) w1 = ((worker, None), w2)) :
  let key := Crew.crewSessionName (Name r) name in
  (CrewCmd.crewNoTmux flags = true ->
   CrewCmd.crun h (CrewCmd.runCrewAt flags name) w
   = (None, snd (h (CrewCmd.Base (Printf (ClonePath worker ++ nl))) w2),
      tr0 ++ map CrewCmd.Base [CrewGet (Name r) name;
                               Printf (ClonePath worker ++ nl)])) /\
  (CrewCmd.crewNoTmux flags = false ->
   forall w3,
     h (CrewCmd.Base (HasSession key)) w2 = ((true, None), w3) ->
     CrewCmd.crun h (CrewCmd.runCrewAt flags name) w
     = (let (res, w4) := h (CrewCmd.Base (AttachSession key)) w3 in
        (res, w4,
         tr0 ++ map CrewCmd.Base [CrewGet (Name r) name; HasSession key;
                                  AttachSession key]))) /\
  (CrewCmd.crewNoTmux flags = false ->
   forall w3,
     h (CrewCmd.Base (HasSession key)) w2 = ((false, None), w3) ->
     CrewCmd.crun h (CrewCmd.runCrewAt flags name) w
     = (let '(res, w', tr) := until_stop h (at_steps r worker name) w3 in
        (res, w',
         tr0 ++ map CrewCmd.Base [CrewGet (Name r) name; HasSession key]
         ++ tr)) /\
     at_steps r worker name
     = based
         [(NewSession key (ClonePath worker), Wrapped "creating session: ");
          (SetEnvironment key "GT_RIG" (Name r), Ignored);
          (SetEnvironment key "GT_CREW" name, Ignored);
          (SendKeys key "claude", Wrapped "starting claude: ");
          (Printf (Crew.style_Render "âœ“" ++ " Created session for "
                   ++ Name r ++ "/" ++ name ++ nl), Ignored);
          (AttachSession key, Returned)] /\
     forall res w' tr,
       CrewCmd.crun h (CrewCmd.runCrewAt flags name) w = (res, w', tr) ->
       (exists n, tr = tr0 ++ firstn n (at_calls r worker name)) /\
       (res = None -> tr = tr0 ++ at_calls r worker name)) /\
  (CrewCmd.crewNoTmux flags = false ->
   forall b e w3,
     h (CrewCmd.Base (HasSession key)) w2 = ((b, Some e), w3) ->
     CrewCmd.crun h (CrewCmd.runCrewAt flags name) w
     = (Some (Errorf "checking session: " e ""), w3,
        tr0 ++ map CrewCmd.Base [CrewGet (Name r) name; HasSession key])).
Proof.
  intros key.
  split; [| split; [| split]].
  - intros Htmux.
    unfold CrewCmd.runCrewAt. rewrite crun_bind, Hmgr.
    unfold CrewCmd.cperform. cbn [CrewCmd.cbind CrewCmd.crun]. rewrite Hget.
    cbn [CrewCmd.cbind CrewCmd.crun]. rewrite Htmux.
    cbn [CrewCmd.cbind CrewCmd.crun].
    destruct (h (CrewCmd.Base (Printf (ClonePath worker ++ nl))) w2)
      as [u w3].
    reflexivity.
  - intros Htmux w3 Hhas.
    unfold CrewCmd.runCrewAt. rewrite crun_bind, Hmgr.
    unfold CrewCmd.cperform. cbn [CrewCmd.cbind CrewCmd.crun]. rewrite Hget.
    cbn [CrewCmd.cbind CrewCmd.crun]. rewrite Htmux. fold key.
    cbn [CrewCmd.cbind CrewCmd.crun]. rewrite Hhas.
    cbn [CrewCmd.cbind CrewCmd.crun negb].
    destruct (h (CrewCmd.Base (AttachSession key)) w3) as [res w4].
    reflexivity.
  - intros Htmux w3 Hhas.
    pose proof (At_creates h flags name r worker w w1 w2 w3 tr0 Hmgr Hget
                  Htmux Hhas) as Hrun.
    fold key in Hrun.
    split; [exact Hrun |]. split; [reflexivity |].
    intros res w' tr H. rewrite Hrun in H.
    destruct (until_stop h (at_steps r worker name) w3) as [[res1 v1] tr1]
      eqn:E.
    injection H as <- <- <-.
    destruct (until_stop_trace h _ w3 v1 res1 tr1 E) as [(n & Hn) Hall].
    split.
    + exists (2 + n)%nat. rewrite Hn. reflexivity.
    + intros Hr. rewrite (Hall Hr). reflexivity.
  - intros Htmux b e w3 Hhas.
    unfold CrewCmd.runCrewAt. rewrite crun_bind, Hmgr.
    unfold CrewCmd.cperform. cbn [CrewCmd.cbind CrewCmd.crun]. rewrite Hget.
    cbn [CrewCmd.cbind CrewCmd.crun]. rewrite Htmux. fold key.
    cbn [CrewCmd.cbind CrewCmd.crun]. rewrite Hhas.
    reflexivity.
Qed.

Lemma crew_at_attaches_what_exists_witness :
  snd (CrewCmd.crun Town.handle
         (CrewCmd.runCrewAt
            (CrewCmd.mkFlags "gastown" false false false false "") "max")
         town_gastown)
  = [CrewCmd.FindFromCwdOrError;
     CrewCmd.LoadRigsConfig "/town/config/rigs.json";
     CrewCmd.GetRig "/town" (CrewCmd.mkRigsConfig []) "gastown";
     CrewCmd.Base (CrewGet "gastown" "max");
     CrewCmd.Base (HasSession "gt-gastown-crew-max");
     CrewCmd.Base (AttachSession "gt-gastown-crew-max")] /\
  (let '(res, e, tr) :=
     CrewCmd.crun Town.handle
       (CrewCmd.runCrewAt
          (CrewCmd.mkFlags "gastown" false false false false "") "max")
       town_idle in
   res = None /\
   Env.sessions (Town.base e) = ["gt-gastown-crew-max"] /\
   Env.environment (Town.base e)
   = [("gt-gastown-crew-max", "GT_RIG", "gastown");
      ("gt-gastown-crew-max", "GT_CREW", "max")] /\
   map (fun c => match c with
                 | CrewCmd.Base (Printf _) => CrewCmd.Base (Printf "")
                 | _ => c
                 end) tr
   = [CrewCmd.FindFromCwdOrError;
      CrewCmd.LoadRigsConfig "/town/config/rigs.json";
      CrewCmd.GetRig "/town" (CrewCmd.mkRigsConfig []) "gastown"]
     ++ map CrewCmd.Base
          [CrewGet "gastown" "max";
           HasSession "gt-gastown-crew-max";
           NewSession "gt-gastown-crew-max" "/town/gastown/crew/max";
           SetEnvironment "gt-gastown-crew-max" "GT_RIG" "gastown";
           SetEnvironment "gt-gastown-crew-max" "GT_CREW" "max";
           SendKeys "gt-gastown-crew-max" "claude"; Printf "";
           AttachSession "gt-gastown-crew-max"]).
Proof.
  split.
  - pose proof (crew_at_attaches_what_exists Town.handle
                  (CrewCmd.mkFlags "gastown" false false false false "") "max"
                  rig_gastown worker_max town_gastown town_gastown
                  town_gastown
                  [CrewCmd.FindFromCwdOrError;
                   CrewCmd.LoadRigsConfig "/town/config/rigs.json";
                   CrewCmd.GetRig "/town" (CrewCmd.mkRigsConfig []) "gastown"]
                  eq_refl eq_refl) as (_ & Hlive & _).
    rewrite (Hlive eq_refl town_gastown eq_refl). reflexivity.
  - pose proof (crew_at_attaches_what_exists Town.handle
                  (CrewCmd.mkFlags "gastown" false false false false "") "max"
                  rig_gastown worker_max town_idle town_idle town_idle
                  [CrewCmd.FindFromCwdOrError;
                   CrewCmd.LoadRigsConfig "/town/config/rigs.json";
                   CrewCmd.GetRig "/town" (CrewCmd.mkRigsConfig []) "gastown"]
                  eq_refl eq_refl) as (_ & _ & Hnone & _).
    destruct (Hnone eq_refl town_idle eq_refl) as [Hrun _].
    rewrite Hrun. vm_compute. repeat split.
Defined.

Lemma runCrewRemove_eq (hasChanges : error -> bool) (flags : CrewCmd.Flags)
  (name : string) :
  CrewCmd.runCrewRemove hasChanges flags name
  = CrewCmd.cbind (CrewCmd.getCrewManager (CrewCmd.crewRig flags))
      (fun g =>
         match g with
         | inr e => CrewCmd.CRet (Some e)
         | inl r =>
             let sessionID := Crew.crewSessionName (Name r) name in
             CrewCmd.cbind
               (if negb (CrewCmd.crewForce flags)
                then
                  CrewCmd.cbind
                    (CrewCmd.cperform (CrewCmd.Base (HasSession sessionID)))
                    (fun x => let (hasSession, _) := x in
                              CrewCmd.CRet hasSession)
                else CrewCmd.CRet false)
               (fun running =>
                  if running
                  then CrewCmd.CRet
                         (Some (ErrorString
                                  ("session '" ++ sessionID
                                   ++ "' is running (use --force to kill"
                                   ++ " and remove)")))
                  else remove_after_check hasChanges r name
                         (CrewCmd.crewForce flags))
         end).
Proof. reflexivity. Qed.

Lemma remove_after_check_runs
  {W : Type} (h : forall c : CrewCmd.ccall, W -> CrewCmd.cresp c * W)
  (hasChanges : error -> bool) (r : Rig) (name : string) (force : bool)
  (v w' : W) (t : list CrewCmd.ccall) (res : result) :
  CrewCmd.crun h (remove_after_check hasChanges r name force) v
  = (res, w', t) ->
  let key := Crew.crewSessionName (Name r) name in
  let second := fst (fst (h (CrewCmd.Base (HasSession key)) v)) in
  let wb := snd (h (CrewCmd.Base (HasSession key)) v) in
  let tail :=
    [CrewCmd.Base (HasSession key)]
    ++ (if second
        then [CrewCmd.Base (KillSession key);
              CrewCmd.Base (Printf ("Killed session " ++ key ++ nl))]
        else [])
    ++ [CrewCmd.CrewRemove r name force;
        CrewCmd.Base (Printf (Crew.style_Render "âœ“"
                              ++ " Removed crew workspace: "
                              ++ Name r ++ "/" ++ name ++ nl))] in
  (exists n, t = firstn n tail) /\
  (res = None -> t = tail) /\
  (second = true ->
   forall e,
     fst (h (CrewCmd.Base (KillSession key)) wb) = Some e ->
     res = Some (Errorf "killing session: " e "") /\
     t = [CrewCmd.Base (HasSession key); CrewCmd.Base (KillSession key)]).
Proof.
  intros H key second wb tail. subst tail second wb.
  unfold remove_after_check, CrewCmd.cperform in H. fold key in H.
  cbn [CrewCmd.cbind CrewCmd.crun] in H.
  step H as [[second e2] w3] by E2. cbn [fst snd].
  destruct second; simpl in H.
  - step H as [[e |] w4] by E3.
    { finish H. split; [exists 2%nat; reflexivity |].
      split; [discriminate |]. intros _ e' He'. injection He' as <-.
      split; reflexivity. }
    step H as [u w5] by E4.
    step H as [[e |] w6] by E5.
    { destruct e; simpl in H; try destruct (hasChanges _); simpl in H;
        finish H;
        (split; [exists 4%nat; reflexivity |]);
        (split; [discriminate |]); intros _ e' He'; discriminate He'. }
    step H as [u2 w7] by E6.
    finish H. split; [exists 5%nat; reflexivity |].
    split; [reflexivity |]. intros _ e' He'. discriminate He'.
  - step H as [[e |] w6] by E5.
    { destruct e; simpl in H; try destruct (hasChanges _); simpl in H;
        finish H;
        (split; [exists 2%nat; reflexivity |]);
        (split; [discriminate |]); intros He'; discriminate He'. }
    step H as [u2 w7] by E6.
    finish H. split; [exists 3%nat; reflexivity |].
    split; [reflexivity |]. intros He'. discriminate He'.
Qed.

Opaque remove_after_check.

(** X18.  [runCrewRemove] without [--force] refuses when its first check
    reports a session: it kills nothing and removes nothing.  Otherwise its
    calls are an initial part of [remove_calls], all of it when it returns
    [nil]: the workspace is removed only after the session found by the second
    check was killed, with the force flag passed on as given; and when that
    kill fails the command stops with the kill's error and removes nothing. *)
Theorem crew_remove_kills_before_it_removes
  {W : Type} (h : forall c : CrewCmd.ccall, W -> CrewCmd.cresp c * W)
  (hasChanges : error -> bool) (flags : CrewCmd.Flags) (name : string)
  (r : Rig) (w w1 w' : W) (tr0 tr : list CrewCmd.ccall) (res : result)
  (Hmgr : CrewCmd.crun h (CrewCmd.getCrewManager (CrewCmd.crewRig flags)) w
          = (inl r, w1, tr0))
  (Hrun : CrewCmd.crun h (CrewCmd.runCrewRemove hasChanges flags name) w
          = (res, w', tr)) :
  let key := Crew.crewSessionName (Name r) name in
  let force := CrewCmd.crewForce flags in
  let first := fst (fst (h (CrewCmd.Base (HasSession key)) w1)) in
  let wa := if force then w1 else snd (h (CrewCmd.Base (HasSession key)) w1) in
  let second := fst (fst (h (CrewCmd.Base (HasSession key)) wa)) in
  let wb := snd (h (CrewCmd.Base (HasSession key)) wa) in
  let checks :=
    (if force then [] else [CrewCmd.Base (HasSession key)])
    ++ [CrewCmd.Base (HasSession key)] in
  (force = false -> first = true ->
   res = Some (ErrorString
                 ("session '" ++ key
                  ++ "' is running (use --force to kill and remove)")) /\
   tr = tr0 ++ [CrewCmd.Base (HasSession key)]) /\
  (force = true \/ first = false ->
   (exists n, tr = tr0 ++ firstn n (remove_calls r name force second)) /\
   (res = None -> tr = tr0 ++ remove_calls r name force second) /\
   (second = true ->
    forall e, fst (h (CrewCmd.Base (KillSession key)) wb) = Some e ->
    res = Some (Errorf "killing session: " e "") /\
    tr = tr0 ++ checks ++ [CrewCmd.Base (KillSession key)])).
Proof.
  intros key force first wa second wb checks.
  rewrite runCrewRemove_eq in Hrun. rewrite crun_bind, Hmgr in Hrun.
  fold key in Hrun. fold force in Hrun.
  subst checks first second wb wa.
  destruct force eqn:Hforce.
  - split; [intros Hf; discriminate Hf |]. intros _.
    cbn [negb CrewCmd.cbind CrewCmd.crun] in Hrun.
    destruct (CrewCmd.crun h (remove_after_check hasChanges r name true) w1)
      as [[res1 v1] t1] eqn:Etail.
    injection Hrun as <- <- <-.
    destruct (remove_after_check_runs h hasChanges r name true w1 v1 t1 res1
                Etail) as (H1 & H2 & H3).
    fold key in H1, H2, H3. cbn [app] in *.
    split; [| split].
    + destruct H1 as (n & ->). now exists n.
    + intros Hr. now rewrite (H2 Hr).
    + intros Hs e He. destruct (H3 Hs e He) as [-> ->]. now split.
  - unfold CrewCmd.cperform in Hrun.
    cbn [negb CrewCmd.cbind CrewCmd.crun] in Hrun.
    destruct (h (CrewCmd.Base (HasSession key)) w1) as [[first e1] w2] eqn:E1.
    cbn [fst snd CrewCmd.cbind CrewCmd.crun] in Hrun |- *.
    destruct first; cbn [CrewCmd.cbind CrewCmd.crun] in Hrun.
    + split.
      * intros _ _. injection Hrun as <- <- <-. split; reflexivity.
      * intros [Hf | Hf]; discriminate Hf.
    + split; [intros _ Hf; discriminate Hf |]. intros _.
      destruct (CrewCmd.crun h (remove_after_check hasChanges r name false) w2)
        as [[res1 v1] t1] eqn:Etail.
      injection Hrun as <- <- <-.
      destruct (remove_after_check_runs h hasChanges r name false w2 v1 t1
                  res1 Etail) as (H1 & H2 & H3).
      fold key in H1, H2, H3.
      split; [| split].
      * destruct H1 as (n & ->). exists (S n). reflexivity.
      * intros Hr. rewrite (H2 Hr). reflexivity.
      * intros Hs e He. destruct (H3 Hs e He) as [-> ->]. now split.
Qed.

Lemma crew_remove_kills_before_it_removes_witness :
  CrewCmd.crun Town.handle
    (CrewCmd.runCrewRemove (fun _ => false)
       (CrewCmd.mkFlags "gastown" false false false false "") "max")
    town_gastown
  = (Some (ErrorString
             ("session 'gt-gastown-crew-max' is running"
              ++ " (use --force to kill and remove)")),
     town_gastown,
     [CrewCmd.FindFromCwdOrError;
      CrewCmd.LoadRigsConfig "/town/config/rigs.json";
      CrewCmd.GetRig "/town" (CrewCmd.mkRigsConfig []) "gastown";
      CrewCmd.Base (HasSession "gt-gastown-crew-max")]) /\
  map (fun c => match c with
                | CrewCmd.Base (Printf _) => CrewCmd.Base (Printf "")
                | _ => c
                end)
    (snd (CrewCmd.crun Town.handle
            (CrewCmd.runCrewRemove (fun _ => false)
               (CrewCmd.mkFlags "gastown" false false true false "") "max")
            town_gastown))
  = [CrewCmd.FindFromCwdOrError;
     CrewCmd.LoadRigsConfig "/town/config/rigs.json";
     CrewCmd.GetRig "/town" (CrewCmd.mkRigsConfig []) "gastown";
     CrewCmd.Base (HasSession "gt-gastown-crew-max");
     CrewCmd.Base (KillSession "gt-gastown-crew-max");
     CrewCmd.Base (Printf "");
     CrewCmd.CrewRemove rig_gastown "max" true;
     CrewCmd.Base (Printf "")].
Proof.
  split.
  - pose proof (crew_remove_kills_before_it_removes Town.handle
                  (fun _ => false)
                  (CrewCmd.mkFlags "gastown" false false false false "") "max"
                  rig_gastown town_gastown town_gastown
                  (snd (fst (CrewCmd.crun Town.handle
                               (CrewCmd.runCrewRemove (fun _ => false)
                                  (CrewCmd.mkFlags "gastown" false false false
                                     false "") "max") town_gastown)))
                  [CrewCmd.FindFromCwdOrError;
                   CrewCmd.LoadRigsConfig "/town/config/rigs.json";
                   CrewCmd.GetRig "/town" (CrewCmd.mkRigsConfig []) "gastown"]
                  (snd (CrewCmd.crun Town.handle
                          (CrewCmd.runCrewRemove (fun _ => false)
                             (CrewCmd.mkFlags "gastown" false false false
                                false "") "max") town_gastown))
                  (fst (fst (CrewCmd.crun Town.handle
                               (CrewCmd.runCrewRemove (fun _ => false)
                                  (CrewCmd.mkFlags "gastown" false false false
                                     false "") "max") town_gastown)))
                  eq_refl eq_refl) as [Hrefuse _].
    destruct (Hrefuse eq_refl eq_refl) as [Hres Htr].
    vm_compute. reflexivity.
  - pose proof (crew_remove_kills_before_it_removes Town.handle
                  (fun _ => false)
                  (CrewCmd.mkFlags "gastown" false false true false "") "max"
                  rig_gastown town_gastown town_gastown
                  (snd (fst (CrewCmd.crun Town.handle
                               (CrewCmd.runCrewRemove (fun _ => false)
                                  (CrewCmd.mkFlags "gastown" false false true
                                     false "") "max") town_gastown)))
                  [CrewCmd.FindFromCwdOrError;
                   CrewCmd.LoadRigsConfig "/town/config/rigs.json";
                   CrewCmd.GetRig "/town" (CrewCmd.mkRigsConfig []) "gastown"]
                  (snd (CrewCmd.crun Town.handle
                          (CrewCmd.runCrewRemove (fun _ => false)
                             (CrewCmd.mkFlags "gastown" false false true
                                false "") "max") town_gastown))
                  None
                  eq_refl) as H.
    cbv zeta in H.
    destruct H as [_ Hforced]; [vm_compute; reflexivity |].
    destruct (Hforced (or_introl eq_refl)) as (_ & Hall & _).
    rewrite (Hall eq_refl). vm_compute. reflexivity.
Defined.

Transparent remove_after_check.
Transparent CrewCmd.getCrewManager.
